(** * MediTrack: the order, restock and payment workflows of main14.py

    A shallow embedding of the data-access and workflow functions of
    [main14.py].  The SQLite store is a record of tables, each table a list
    of rows in rowid order; the single shared connection carries the
    committed tables and the tables as the connection sees them (committed
    rows plus the changes of the open transaction).  The Streamlit
    [st.cache_data] memo of every read accessor is part of the state, so
    that [.clear()] and the expiry of an entry after its [ttl] are visible.
    Python exceptions are an outcome of a computation; [try ... except] is a
    handler. *)

From Stdlib Require Import PrimFloat.
From Stdlib Require FloatOps SpecFloat.
From Stdlib Require Import ZArith QArith List String Bool Lia DecimalString.
From Stdlib Require Import Sorted Permutation.
Import ListNotations.
Local Open Scope Z_scope.

Notation "a +++ b" := (String.append a b) (at level 60, right associativity).

(** Python's [str] on an [int], as used by the f-strings of the source. *)
Definition str (z : Z) : string := NilZero.string_of_int (Z.to_int z).

(** ** Exceptions *)

Inductive exc_class : Type :=
| IntegrityError
| OperationalError
| NameError
| TypeError
| KeyError
| OverflowError.

(** An exception object: its class and the text [str(e)] gives. *)
Record exc : Type := { exc_type : exc_class; exc_str : string }.

Definition is_IntegrityError (e : exc) : bool :=
  match exc_type e with IntegrityError => true | _ => false end.

(** ** Numbers

    What SQLite hands to Python for a numeric column: an [int] for a value
    of storage class INTEGER, a [float], an IEEE 754 binary64, for one of
    storage class REAL. *)
Inductive number : Type :=
| PyInt (z : Z)
| PyFloat (f : PrimFloat.float).

(** The rational number a finite [float] stands for; [None] for an infinity
    or a NaN. *)
Definition exact_float (f : PrimFloat.float) : option Q :=
  match FloatOps.Prim2SF f with
  | SpecFloat.S754_zero _ => Some (0 # 1)
  | SpecFloat.S754_finite s m e =>
      let n := if s then Zneg m else Zpos m in
      Some (if 0 <=? e then inject_Z (n * 2 ^ e) else n # (Pos.pow 2 (Z.to_pos (- e))))
  | _ => None
  end.

Definition exact_value (a : number) : option Q :=
  match a with
  | PyInt z => Some (inject_Z z)
  | PyFloat f => exact_float f
  end.

(** ** Rows

    Columns are named as in the SQL of the source; where two tables share a
    column name the projection carries the table's prefix.  A price or an
    amount is the [number] bound or returned, without the conversions a
    column's declared type may add.  Columns that no modelled statement
    reads or writes (the descriptive columns of Drugs, the date of a
    payment) are left out. *)

Record drug : Type :=
  { D_id : Z; D_Name : string; D_Price : number; stock_no : Z }.

Record customer : Type :=
  { C_id : Z; C_Name : string; C_Password : string; C_Email : string;
    C_State : string; C_Number : string }.

Record order : Type :=
  { O_id : Z; O_Name : string; O_Items : string; O_Qty : Z; O_Date : string }.

Record supplier : Type :=
  { SupplierID : Z; SupplierName : string; ContactEmail : string;
    ContactNumber : string; Address : string; SupplierPassword : string }.

Record retail_pharmacy : Type :=
  { PharmacyID : Z; PharmacyName : string; PharmacyEmail : string;
    PharmacyPassword : string; rp_Address : string; PhoneNumber : string;
    BillingAddress : option string; TaxID : option string; rp_SupplierID : Z }.

Record restock_order : Type :=
  { RestockID : Z; ro_SupplierID : Z; DrugID : Z; Quantity : Z;
    ro_Status : string; PaymentStatus : option string }.

Record ticket : Type :=
  { TicketID : Z; tk_RestockID : Z; tk_SupplierID : Z; tk_Status : string }.

Record payment : Type :=
  { PaymentID : Z; pay_PharmacyID : Z; pay_SupplierID : Z; Amount : number;
    pay_PaymentMethodID : Z; pay_Status : string; Notes : option string;
    TransactionReference : string }.

Record payment_method : Type :=
  { PaymentMethodID : Z; MethodName : string; Description : string }.

Record pharmacy_payment : Type :=
  { pp_PharmacyID : Z; pp_PaymentMethodID : Z; AccountDetails : string;
    IsDefault : bool }.

Record supplier_notification : Type :=
  { NotificationID : Z; sn_SupplierID : Z; Title : string; Message : string;
    RelatedEntityType : string; RelatedEntityID : Z; IsRead : bool;
    CreatedAt : string }.

(** ** The store *)

Record tables : Type :=
  { Drugs : list drug;
    Customers : list customer;
    Orders : list order;
    Suppliers : list supplier;
    RetailPharmacies : list retail_pharmacy;
    RestockOrders : list restock_order;
    Tickets : list ticket;
    Payments : list payment;
    PaymentMethods : list payment_method;
    PharmacyPayments : list pharmacy_payment;
    SupplierNotifications : list supplier_notification }.

(** [conn]: the one connection of [get_connection], shared by every
    function.  [working] is what its cursors read and write; [commit]
    copies it to [committed].  Nothing in the source rolls back. *)
Record connection : Type :=
  { committed : tables; working : tables }.

(** The memo of each [@st.cache_data] accessor: [None] when empty or
    cleared, and beside it the time at which the entry was stored, which
    decides its expiry.  [fetch_supplier_notifications] is memoised per
    argument. *)
Record caches : Type :=
  { memo_fetch_payment_methods : option (list (string * Z));
    memo_check_low_stock : option (list drug);
    memo_fetch_all_drugs : option (list drug);
    memo_fetch_all_customers : option (list customer);
    memo_fetch_all_orders : option (list order);
    memo_fetch_all_tickets : option (list ticket);
    memo_fetch_all_restock_orders : option (list restock_order);
    memo_fetch_all_suppliers : option (list supplier);
    memo_fetch_all_payments : option (list payment);
    memo_fetch_supplier_notifications : list (Z * list supplier_notification);
    stamp_fetch_payment_methods : Q;
    stamp_check_low_stock : Q;
    stamp_fetch_all_drugs : Q;
    stamp_fetch_all_customers : Q;
    stamp_fetch_all_orders : Q;
    stamp_fetch_all_tickets : Q;
    stamp_fetch_all_restock_orders : Q;
    stamp_fetch_all_suppliers : Q;
    stamp_fetch_all_payments : Q;
    stamp_fetch_supplier_notifications : list (Z * Q) }.

(** [clock] is the text [datetime.now().strftime(...)] yields; [now] is the
    time, in seconds, of the timer of the memos. *)
Record world : Type :=
  { conn : connection; cache : caches; clock : string; now : Q }.

Definition set_Drugs (v : list drug) (t : tables) : tables :=
  {| Drugs := v; Customers := Customers t; Orders := Orders t; Suppliers := Suppliers t; RetailPharmacies := RetailPharmacies t; RestockOrders := RestockOrders t; Tickets := Tickets t; Payments := Payments t; PaymentMethods := PaymentMethods t; PharmacyPayments := PharmacyPayments t; SupplierNotifications := SupplierNotifications t |}.

Definition set_Customers (v : list customer) (t : tables) : tables :=
  {| Drugs := Drugs t; Customers := v; Orders := Orders t; Suppliers := Suppliers t; RetailPharmacies := RetailPharmacies t; RestockOrders := RestockOrders t; Tickets := Tickets t; Payments := Payments t; PaymentMethods := PaymentMethods t; PharmacyPayments := PharmacyPayments t; SupplierNotifications := SupplierNotifications t |}.

Definition set_Orders (v : list order) (t : tables) : tables :=
  {| Drugs := Drugs t; Customers := Customers t; Orders := v; Suppliers := Suppliers t; RetailPharmacies := RetailPharmacies t; RestockOrders := RestockOrders t; Tickets := Tickets t; Payments := Payments t; PaymentMethods := PaymentMethods t; PharmacyPayments := PharmacyPayments t; SupplierNotifications := SupplierNotifications t |}.

Definition set_Suppliers (v : list supplier) (t : tables) : tables :=
  {| Drugs := Drugs t; Customers := Customers t; Orders := Orders t; Suppliers := v; RetailPharmacies := RetailPharmacies t; RestockOrders := RestockOrders t; Tickets := Tickets t; Payments := Payments t; PaymentMethods := PaymentMethods t; PharmacyPayments := PharmacyPayments t; SupplierNotifications := SupplierNotifications t |}.

Definition set_RetailPharmacies (v : list retail_pharmacy) (t : tables) : tables :=
  {| Drugs := Drugs t; Customers := Customers t; Orders := Orders t; Suppliers := Suppliers t; RetailPharmacies := v; RestockOrders := RestockOrders t; Tickets := Tickets t; Payments := Payments t; PaymentMethods := PaymentMethods t; PharmacyPayments := PharmacyPayments t; SupplierNotifications := SupplierNotifications t |}.

Definition set_RestockOrders (v : list restock_order) (t : tables) : tables :=
  {| Drugs := Drugs t; Customers := Customers t; Orders := Orders t; Suppliers := Suppliers t; RetailPharmacies := RetailPharmacies t; RestockOrders := v; Tickets := Tickets t; Payments := Payments t; PaymentMethods := PaymentMethods t; PharmacyPayments := PharmacyPayments t; SupplierNotifications := SupplierNotifications t |}.

Definition set_Tickets (v : list ticket) (t : tables) : tables :=
  {| Drugs := Drugs t; Customers := Customers t; Orders := Orders t; Suppliers := Suppliers t; RetailPharmacies := RetailPharmacies t; RestockOrders := RestockOrders t; Tickets := v; Payments := Payments t; PaymentMethods := PaymentMethods t; PharmacyPayments := PharmacyPayments t; SupplierNotifications := SupplierNotifications t |}.

Definition set_Payments (v : list payment) (t : tables) : tables :=
  {| Drugs := Drugs t; Customers := Customers t; Orders := Orders t; Suppliers := Suppliers t; RetailPharmacies := RetailPharmacies t; RestockOrders := RestockOrders t; Tickets := Tickets t; Payments := v; PaymentMethods := PaymentMethods t; PharmacyPayments := PharmacyPayments t; SupplierNotifications := SupplierNotifications t |}.

Definition set_PaymentMethods (v : list payment_method) (t : tables) : tables :=
  {| Drugs := Drugs t; Customers := Customers t; Orders := Orders t; Suppliers := Suppliers t; RetailPharmacies := RetailPharmacies t; RestockOrders := RestockOrders t; Tickets := Tickets t; Payments := Payments t; PaymentMethods := v; PharmacyPayments := PharmacyPayments t; SupplierNotifications := SupplierNotifications t |}.

Definition set_PharmacyPayments (v : list pharmacy_payment) (t : tables) : tables :=
  {| Drugs := Drugs t; Customers := Customers t; Orders := Orders t; Suppliers := Suppliers t; RetailPharmacies := RetailPharmacies t; RestockOrders := RestockOrders t; Tickets := Tickets t; Payments := Payments t; PaymentMethods := PaymentMethods t; PharmacyPayments := v; SupplierNotifications := SupplierNotifications t |}.

Definition set_SupplierNotifications (v : list supplier_notification) (t : tables) : tables :=
  {| Drugs := Drugs t; Customers := Customers t; Orders := Orders t; Suppliers := Suppliers t; RetailPharmacies := RetailPharmacies t; RestockOrders := RestockOrders t; Tickets := Tickets t; Payments := Payments t; PaymentMethods := PaymentMethods t; PharmacyPayments := PharmacyPayments t; SupplierNotifications := v |}.

Definition set_memo_fetch_payment_methods (v : option (list (string * Z))) (c : caches) : caches :=
  {| memo_fetch_payment_methods := v; memo_check_low_stock := memo_check_low_stock c; memo_fetch_all_drugs := memo_fetch_all_drugs c; memo_fetch_all_customers := memo_fetch_all_customers c; memo_fetch_all_orders := memo_fetch_all_orders c; memo_fetch_all_tickets := memo_fetch_all_tickets c; memo_fetch_all_restock_orders := memo_fetch_all_restock_orders c; memo_fetch_all_suppliers := memo_fetch_all_suppliers c; memo_fetch_all_payments := memo_fetch_all_payments c; memo_fetch_supplier_notifications := memo_fetch_supplier_notifications c; stamp_fetch_payment_methods := stamp_fetch_payment_methods c; stamp_check_low_stock := stamp_check_low_stock c; stamp_fetch_all_drugs := stamp_fetch_all_drugs c; stamp_fetch_all_customers := stamp_fetch_all_customers c; stamp_fetch_all_orders := stamp_fetch_all_orders c; stamp_fetch_all_tickets := stamp_fetch_all_tickets c; stamp_fetch_all_restock_orders := stamp_fetch_all_restock_orders c; stamp_fetch_all_suppliers := stamp_fetch_all_suppliers c; stamp_fetch_all_payments := stamp_fetch_all_payments c; stamp_fetch_supplier_notifications := stamp_fetch_supplier_notifications c |}.

Definition set_memo_check_low_stock (v : option (list drug)) (c : caches) : caches :=
  {| memo_fetch_payment_methods := memo_fetch_payment_methods c; memo_check_low_stock := v; memo_fetch_all_drugs := memo_fetch_all_drugs c; memo_fetch_all_customers := memo_fetch_all_customers c; memo_fetch_all_orders := memo_fetch_all_orders c; memo_fetch_all_tickets := memo_fetch_all_tickets c; memo_fetch_all_restock_orders := memo_fetch_all_restock_orders c; memo_fetch_all_suppliers := memo_fetch_all_suppliers c; memo_fetch_all_payments := memo_fetch_all_payments c; memo_fetch_supplier_notifications := memo_fetch_supplier_notifications c; stamp_fetch_payment_methods := stamp_fetch_payment_methods c; stamp_check_low_stock := stamp_check_low_stock c; stamp_fetch_all_drugs := stamp_fetch_all_drugs c; stamp_fetch_all_customers := stamp_fetch_all_customers c; stamp_fetch_all_orders := stamp_fetch_all_orders c; stamp_fetch_all_tickets := stamp_fetch_all_tickets c; stamp_fetch_all_restock_orders := stamp_fetch_all_restock_orders c; stamp_fetch_all_suppliers := stamp_fetch_all_suppliers c; stamp_fetch_all_payments := stamp_fetch_all_payments c; stamp_fetch_supplier_notifications := stamp_fetch_supplier_notifications c |}.

Definition set_memo_fetch_all_drugs (v : option (list drug)) (c : caches) : caches :=
  {| memo_fetch_payment_methods := memo_fetch_payment_methods c; memo_check_low_stock := memo_check_low_stock c; memo_fetch_all_drugs := v; memo_fetch_all_customers := memo_fetch_all_customers c; memo_fetch_all_orders := memo_fetch_all_orders c; memo_fetch_all_tickets := memo_fetch_all_tickets c; memo_fetch_all_restock_orders := memo_fetch_all_restock_orders c; memo_fetch_all_suppliers := memo_fetch_all_suppliers c; memo_fetch_all_payments := memo_fetch_all_payments c; memo_fetch_supplier_notifications := memo_fetch_supplier_notifications c; stamp_fetch_payment_methods := stamp_fetch_payment_methods c; stamp_check_low_stock := stamp_check_low_stock c; stamp_fetch_all_drugs := stamp_fetch_all_drugs c; stamp_fetch_all_customers := stamp_fetch_all_customers c; stamp_fetch_all_orders := stamp_fetch_all_orders c; stamp_fetch_all_tickets := stamp_fetch_all_tickets c; stamp_fetch_all_restock_orders := stamp_fetch_all_restock_orders c; stamp_fetch_all_suppliers := stamp_fetch_all_suppliers c; stamp_fetch_all_payments := stamp_fetch_all_payments c; stamp_fetch_supplier_notifications := stamp_fetch_supplier_notifications c |}.

Definition set_memo_fetch_all_customers (v : option (list customer)) (c : caches) : caches :=
  {| memo_fetch_payment_methods := memo_fetch_payment_methods c; memo_check_low_stock := memo_check_low_stock c; memo_fetch_all_drugs := memo_fetch_all_drugs c; memo_fetch_all_customers := v; memo_fetch_all_orders := memo_fetch_all_orders c; memo_fetch_all_tickets := memo_fetch_all_tickets c; memo_fetch_all_restock_orders := memo_fetch_all_restock_orders c; memo_fetch_all_suppliers := memo_fetch_all_suppliers c; memo_fetch_all_payments := memo_fetch_all_payments c; memo_fetch_supplier_notifications := memo_fetch_supplier_notifications c; stamp_fetch_payment_methods := stamp_fetch_payment_methods c; stamp_check_low_stock := stamp_check_low_stock c; stamp_fetch_all_drugs := stamp_fetch_all_drugs c; stamp_fetch_all_customers := stamp_fetch_all_customers c; stamp_fetch_all_orders := stamp_fetch_all_orders c; stamp_fetch_all_tickets := stamp_fetch_all_tickets c; stamp_fetch_all_restock_orders := stamp_fetch_all_restock_orders c; stamp_fetch_all_suppliers := stamp_fetch_all_suppliers c; stamp_fetch_all_payments := stamp_fetch_all_payments c; stamp_fetch_supplier_notifications := stamp_fetch_supplier_notifications c |}.

Definition set_memo_fetch_all_orders (v : option (list order)) (c : caches) : caches :=
  {| memo_fetch_payment_methods := memo_fetch_payment_methods c; memo_check_low_stock := memo_check_low_stock c; memo_fetch_all_drugs := memo_fetch_all_drugs c; memo_fetch_all_customers := memo_fetch_all_customers c; memo_fetch_all_orders := v; memo_fetch_all_tickets := memo_fetch_all_tickets c; memo_fetch_all_restock_orders := memo_fetch_all_restock_orders c; memo_fetch_all_suppliers := memo_fetch_all_suppliers c; memo_fetch_all_payments := memo_fetch_all_payments c; memo_fetch_supplier_notifications := memo_fetch_supplier_notifications c; stamp_fetch_payment_methods := stamp_fetch_payment_methods c; stamp_check_low_stock := stamp_check_low_stock c; stamp_fetch_all_drugs := stamp_fetch_all_drugs c; stamp_fetch_all_customers := stamp_fetch_all_customers c; stamp_fetch_all_orders := stamp_fetch_all_orders c; stamp_fetch_all_tickets := stamp_fetch_all_tickets c; stamp_fetch_all_restock_orders := stamp_fetch_all_restock_orders c; stamp_fetch_all_suppliers := stamp_fetch_all_suppliers c; stamp_fetch_all_payments := stamp_fetch_all_payments c; stamp_fetch_supplier_notifications := stamp_fetch_supplier_notifications c |}.

Definition set_memo_fetch_all_tickets (v : option (list ticket)) (c : caches) : caches :=
  {| memo_fetch_payment_methods := memo_fetch_payment_methods c; memo_check_low_stock := memo_check_low_stock c; memo_fetch_all_drugs := memo_fetch_all_drugs c; memo_fetch_all_customers := memo_fetch_all_customers c; memo_fetch_all_orders := memo_fetch_all_orders c; memo_fetch_all_tickets := v; memo_fetch_all_restock_orders := memo_fetch_all_restock_orders c; memo_fetch_all_suppliers := memo_fetch_all_suppliers c; memo_fetch_all_payments := memo_fetch_all_payments c; memo_fetch_supplier_notifications := memo_fetch_supplier_notifications c; stamp_fetch_payment_methods := stamp_fetch_payment_methods c; stamp_check_low_stock := stamp_check_low_stock c; stamp_fetch_all_drugs := stamp_fetch_all_drugs c; stamp_fetch_all_customers := stamp_fetch_all_customers c; stamp_fetch_all_orders := stamp_fetch_all_orders c; stamp_fetch_all_tickets := stamp_fetch_all_tickets c; stamp_fetch_all_restock_orders := stamp_fetch_all_restock_orders c; stamp_fetch_all_suppliers := stamp_fetch_all_suppliers c; stamp_fetch_all_payments := stamp_fetch_all_payments c; stamp_fetch_supplier_notifications := stamp_fetch_supplier_notifications c |}.

Definition set_memo_fetch_all_restock_orders (v : option (list restock_order)) (c : caches) : caches :=
  {| memo_fetch_payment_methods := memo_fetch_payment_methods c; memo_check_low_stock := memo_check_low_stock c; memo_fetch_all_drugs := memo_fetch_all_drugs c; memo_fetch_all_customers := memo_fetch_all_customers c; memo_fetch_all_orders := memo_fetch_all_orders c; memo_fetch_all_tickets := memo_fetch_all_tickets c; memo_fetch_all_restock_orders := v; memo_fetch_all_suppliers := memo_fetch_all_suppliers c; memo_fetch_all_payments := memo_fetch_all_payments c; memo_fetch_supplier_notifications := memo_fetch_supplier_notifications c; stamp_fetch_payment_methods := stamp_fetch_payment_methods c; stamp_check_low_stock := stamp_check_low_stock c; stamp_fetch_all_drugs := stamp_fetch_all_drugs c; stamp_fetch_all_customers := stamp_fetch_all_customers c; stamp_fetch_all_orders := stamp_fetch_all_orders c; stamp_fetch_all_tickets := stamp_fetch_all_tickets c; stamp_fetch_all_restock_orders := stamp_fetch_all_restock_orders c; stamp_fetch_all_suppliers := stamp_fetch_all_suppliers c; stamp_fetch_all_payments := stamp_fetch_all_payments c; stamp_fetch_supplier_notifications := stamp_fetch_supplier_notifications c |}.

Definition set_memo_fetch_all_suppliers (v : option (list supplier)) (c : caches) : caches :=
  {| memo_fetch_payment_methods := memo_fetch_payment_methods c; memo_check_low_stock := memo_check_low_stock c; memo_fetch_all_drugs := memo_fetch_all_drugs c; memo_fetch_all_customers := memo_fetch_all_customers c; memo_fetch_all_orders := memo_fetch_all_orders c; memo_fetch_all_tickets := memo_fetch_all_tickets c; memo_fetch_all_restock_orders := memo_fetch_all_restock_orders c; memo_fetch_all_suppliers := v; memo_fetch_all_payments := memo_fetch_all_payments c; memo_fetch_supplier_notifications := memo_fetch_supplier_notifications c; stamp_fetch_payment_methods := stamp_fetch_payment_methods c; stamp_check_low_stock := stamp_check_low_stock c; stamp_fetch_all_drugs := stamp_fetch_all_drugs c; stamp_fetch_all_customers := stamp_fetch_all_customers c; stamp_fetch_all_orders := stamp_fetch_all_orders c; stamp_fetch_all_tickets := stamp_fetch_all_tickets c; stamp_fetch_all_restock_orders := stamp_fetch_all_restock_orders c; stamp_fetch_all_suppliers := stamp_fetch_all_suppliers c; stamp_fetch_all_payments := stamp_fetch_all_payments c; stamp_fetch_supplier_notifications := stamp_fetch_supplier_notifications c |}.

Definition set_memo_fetch_all_payments (v : option (list payment)) (c : caches) : caches :=
  {| memo_fetch_payment_methods := memo_fetch_payment_methods c; memo_check_low_stock := memo_check_low_stock c; memo_fetch_all_drugs := memo_fetch_all_drugs c; memo_fetch_all_customers := memo_fetch_all_customers c; memo_fetch_all_orders := memo_fetch_all_orders c; memo_fetch_all_tickets := memo_fetch_all_tickets c; memo_fetch_all_restock_orders := memo_fetch_all_restock_orders c; memo_fetch_all_suppliers := memo_fetch_all_suppliers c; memo_fetch_all_payments := v; memo_fetch_supplier_notifications := memo_fetch_supplier_notifications c; stamp_fetch_payment_methods := stamp_fetch_payment_methods c; stamp_check_low_stock := stamp_check_low_stock c; stamp_fetch_all_drugs := stamp_fetch_all_drugs c; stamp_fetch_all_customers := stamp_fetch_all_customers c; stamp_fetch_all_orders := stamp_fetch_all_orders c; stamp_fetch_all_tickets := stamp_fetch_all_tickets c; stamp_fetch_all_restock_orders := stamp_fetch_all_restock_orders c; stamp_fetch_all_suppliers := stamp_fetch_all_suppliers c; stamp_fetch_all_payments := stamp_fetch_all_payments c; stamp_fetch_supplier_notifications := stamp_fetch_supplier_notifications c |}.

Definition set_memo_fetch_supplier_notifications (v : list (Z * list supplier_notification)) (c : caches) : caches :=
  {| memo_fetch_payment_methods := memo_fetch_payment_methods c; memo_check_low_stock := memo_check_low_stock c; memo_fetch_all_drugs := memo_fetch_all_drugs c; memo_fetch_all_customers := memo_fetch_all_customers c; memo_fetch_all_orders := memo_fetch_all_orders c; memo_fetch_all_tickets := memo_fetch_all_tickets c; memo_fetch_all_restock_orders := memo_fetch_all_restock_orders c; memo_fetch_all_suppliers := memo_fetch_all_suppliers c; memo_fetch_all_payments := memo_fetch_all_payments c; memo_fetch_supplier_notifications := v; stamp_fetch_payment_methods := stamp_fetch_payment_methods c; stamp_check_low_stock := stamp_check_low_stock c; stamp_fetch_all_drugs := stamp_fetch_all_drugs c; stamp_fetch_all_customers := stamp_fetch_all_customers c; stamp_fetch_all_orders := stamp_fetch_all_orders c; stamp_fetch_all_tickets := stamp_fetch_all_tickets c; stamp_fetch_all_restock_orders := stamp_fetch_all_restock_orders c; stamp_fetch_all_suppliers := stamp_fetch_all_suppliers c; stamp_fetch_all_payments := stamp_fetch_all_payments c; stamp_fetch_supplier_notifications := stamp_fetch_supplier_notifications c |}.

Definition set_stamp_fetch_payment_methods (v : Q) (c : caches) : caches :=
  {| memo_fetch_payment_methods := memo_fetch_payment_methods c; memo_check_low_stock := memo_check_low_stock c; memo_fetch_all_drugs := memo_fetch_all_drugs c; memo_fetch_all_customers := memo_fetch_all_customers c; memo_fetch_all_orders := memo_fetch_all_orders c; memo_fetch_all_tickets := memo_fetch_all_tickets c; memo_fetch_all_restock_orders := memo_fetch_all_restock_orders c; memo_fetch_all_suppliers := memo_fetch_all_suppliers c; memo_fetch_all_payments := memo_fetch_all_payments c; memo_fetch_supplier_notifications := memo_fetch_supplier_notifications c; stamp_fetch_payment_methods := v; stamp_check_low_stock := stamp_check_low_stock c; stamp_fetch_all_drugs := stamp_fetch_all_drugs c; stamp_fetch_all_customers := stamp_fetch_all_customers c; stamp_fetch_all_orders := stamp_fetch_all_orders c; stamp_fetch_all_tickets := stamp_fetch_all_tickets c; stamp_fetch_all_restock_orders := stamp_fetch_all_restock_orders c; stamp_fetch_all_suppliers := stamp_fetch_all_suppliers c; stamp_fetch_all_payments := stamp_fetch_all_payments c; stamp_fetch_supplier_notifications := stamp_fetch_supplier_notifications c |}.

Definition set_stamp_check_low_stock (v : Q) (c : caches) : caches :=
  {| memo_fetch_payment_methods := memo_fetch_payment_methods c; memo_check_low_stock := memo_check_low_stock c; memo_fetch_all_drugs := memo_fetch_all_drugs c; memo_fetch_all_customers := memo_fetch_all_customers c; memo_fetch_all_orders := memo_fetch_all_orders c; memo_fetch_all_tickets := memo_fetch_all_tickets c; memo_fetch_all_restock_orders := memo_fetch_all_restock_orders c; memo_fetch_all_suppliers := memo_fetch_all_suppliers c; memo_fetch_all_payments := memo_fetch_all_payments c; memo_fetch_supplier_notifications := memo_fetch_supplier_notifications c; stamp_fetch_payment_methods := stamp_fetch_payment_methods c; stamp_check_low_stock := v; stamp_fetch_all_drugs := stamp_fetch_all_drugs c; stamp_fetch_all_customers := stamp_fetch_all_customers c; stamp_fetch_all_orders := stamp_fetch_all_orders c; stamp_fetch_all_tickets := stamp_fetch_all_tickets c; stamp_fetch_all_restock_orders := stamp_fetch_all_restock_orders c; stamp_fetch_all_suppliers := stamp_fetch_all_suppliers c; stamp_fetch_all_payments := stamp_fetch_all_payments c; stamp_fetch_supplier_notifications := stamp_fetch_supplier_notifications c |}.

Definition set_stamp_fetch_all_drugs (v : Q) (c : caches) : caches :=
  {| memo_fetch_payment_methods := memo_fetch_payment_methods c; memo_check_low_stock := memo_check_low_stock c; memo_fetch_all_drugs := memo_fetch_all_drugs c; memo_fetch_all_customers := memo_fetch_all_customers c; memo_fetch_all_orders := memo_fetch_all_orders c; memo_fetch_all_tickets := memo_fetch_all_tickets c; memo_fetch_all_restock_orders := memo_fetch_all_restock_orders c; memo_fetch_all_suppliers := memo_fetch_all_suppliers c; memo_fetch_all_payments := memo_fetch_all_payments c; memo_fetch_supplier_notifications := memo_fetch_supplier_notifications c; stamp_fetch_payment_methods := stamp_fetch_payment_methods c; stamp_check_low_stock := stamp_check_low_stock c; stamp_fetch_all_drugs := v; stamp_fetch_all_customers := stamp_fetch_all_customers c; stamp_fetch_all_orders := stamp_fetch_all_orders c; stamp_fetch_all_tickets := stamp_fetch_all_tickets c; stamp_fetch_all_restock_orders := stamp_fetch_all_restock_orders c; stamp_fetch_all_suppliers := stamp_fetch_all_suppliers c; stamp_fetch_all_payments := stamp_fetch_all_payments c; stamp_fetch_supplier_notifications := stamp_fetch_supplier_notifications c |}.

Definition set_stamp_fetch_all_customers (v : Q) (c : caches) : caches :=
  {| memo_fetch_payment_methods := memo_fetch_payment_methods c; memo_check_low_stock := memo_check_low_stock c; memo_fetch_all_drugs := memo_fetch_all_drugs c; memo_fetch_all_customers := memo_fetch_all_customers c; memo_fetch_all_orders := memo_fetch_all_orders c; memo_fetch_all_tickets := memo_fetch_all_tickets c; memo_fetch_all_restock_orders := memo_fetch_all_restock_orders c; memo_fetch_all_suppliers := memo_fetch_all_suppliers c; memo_fetch_all_payments := memo_fetch_all_payments c; memo_fetch_supplier_notifications := memo_fetch_supplier_notifications c; stamp_fetch_payment_methods := stamp_fetch_payment_methods c; stamp_check_low_stock := stamp_check_low_stock c; stamp_fetch_all_drugs := stamp_fetch_all_drugs c; stamp_fetch_all_customers := v; stamp_fetch_all_orders := stamp_fetch_all_orders c; stamp_fetch_all_tickets := stamp_fetch_all_tickets c; stamp_fetch_all_restock_orders := stamp_fetch_all_restock_orders c; stamp_fetch_all_suppliers := stamp_fetch_all_suppliers c; stamp_fetch_all_payments := stamp_fetch_all_payments c; stamp_fetch_supplier_notifications := stamp_fetch_supplier_notifications c |}.

Definition set_stamp_fetch_all_orders (v : Q) (c : caches) : caches :=
  {| memo_fetch_payment_methods := memo_fetch_payment_methods c; memo_check_low_stock := memo_check_low_stock c; memo_fetch_all_drugs := memo_fetch_all_drugs c; memo_fetch_all_customers := memo_fetch_all_customers c; memo_fetch_all_orders := memo_fetch_all_orders c; memo_fetch_all_tickets := memo_fetch_all_tickets c; memo_fetch_all_restock_orders := memo_fetch_all_restock_orders c; memo_fetch_all_suppliers := memo_fetch_all_suppliers c; memo_fetch_all_payments := memo_fetch_all_payments c; memo_fetch_supplier_notifications := memo_fetch_supplier_notifications c; stamp_fetch_payment_methods := stamp_fetch_payment_methods c; stamp_check_low_stock := stamp_check_low_stock c; stamp_fetch_all_drugs := stamp_fetch_all_drugs c; stamp_fetch_all_customers := stamp_fetch_all_customers c; stamp_fetch_all_orders := v; stamp_fetch_all_tickets := stamp_fetch_all_tickets c; stamp_fetch_all_restock_orders := stamp_fetch_all_restock_orders c; stamp_fetch_all_suppliers := stamp_fetch_all_suppliers c; stamp_fetch_all_payments := stamp_fetch_all_payments c; stamp_fetch_supplier_notifications := stamp_fetch_supplier_notifications c |}.

Definition set_stamp_fetch_all_tickets (v : Q) (c : caches) : caches :=
  {| memo_fetch_payment_methods := memo_fetch_payment_methods c; memo_check_low_stock := memo_check_low_stock c; memo_fetch_all_drugs := memo_fetch_all_drugs c; memo_fetch_all_customers := memo_fetch_all_customers c; memo_fetch_all_orders := memo_fetch_all_orders c; memo_fetch_all_tickets := memo_fetch_all_tickets c; memo_fetch_all_restock_orders := memo_fetch_all_restock_orders c; memo_fetch_all_suppliers := memo_fetch_all_suppliers c; memo_fetch_all_payments := memo_fetch_all_payments c; memo_fetch_supplier_notifications := memo_fetch_supplier_notifications c; stamp_fetch_payment_methods := stamp_fetch_payment_methods c; stamp_check_low_stock := stamp_check_low_stock c; stamp_fetch_all_drugs := stamp_fetch_all_drugs c; stamp_fetch_all_customers := stamp_fetch_all_customers c; stamp_fetch_all_orders := stamp_fetch_all_orders c; stamp_fetch_all_tickets := v; stamp_fetch_all_restock_orders := stamp_fetch_all_restock_orders c; stamp_fetch_all_suppliers := stamp_fetch_all_suppliers c; stamp_fetch_all_payments := stamp_fetch_all_payments c; stamp_fetch_supplier_notifications := stamp_fetch_supplier_notifications c |}.

Definition set_stamp_fetch_all_restock_orders (v : Q) (c : caches) : caches :=
  {| memo_fetch_payment_methods := memo_fetch_payment_methods c; memo_check_low_stock := memo_check_low_stock c; memo_fetch_all_drugs := memo_fetch_all_drugs c; memo_fetch_all_customers := memo_fetch_all_customers c; memo_fetch_all_orders := memo_fetch_all_orders c; memo_fetch_all_tickets := memo_fetch_all_tickets c; memo_fetch_all_restock_orders := memo_fetch_all_restock_orders c; memo_fetch_all_suppliers := memo_fetch_all_suppliers c; memo_fetch_all_payments := memo_fetch_all_payments c; memo_fetch_supplier_notifications := memo_fetch_supplier_notifications c; stamp_fetch_payment_methods := stamp_fetch_payment_methods c; stamp_check_low_stock := stamp_check_low_stock c; stamp_fetch_all_drugs := stamp_fetch_all_drugs c; stamp_fetch_all_customers := stamp_fetch_all_customers c; stamp_fetch_all_orders := stamp_fetch_all_orders c; stamp_fetch_all_tickets := stamp_fetch_all_tickets c; stamp_fetch_all_restock_orders := v; stamp_fetch_all_suppliers := stamp_fetch_all_suppliers c; stamp_fetch_all_payments := stamp_fetch_all_payments c; stamp_fetch_supplier_notifications := stamp_fetch_supplier_notifications c |}.

Definition set_stamp_fetch_all_suppliers (v : Q) (c : caches) : caches :=
  {| memo_fetch_payment_methods := memo_fetch_payment_methods c; memo_check_low_stock := memo_check_low_stock c; memo_fetch_all_drugs := memo_fetch_all_drugs c; memo_fetch_all_customers := memo_fetch_all_customers c; memo_fetch_all_orders := memo_fetch_all_orders c; memo_fetch_all_tickets := memo_fetch_all_tickets c; memo_fetch_all_restock_orders := memo_fetch_all_restock_orders c; memo_fetch_all_suppliers := memo_fetch_all_suppliers c; memo_fetch_all_payments := memo_fetch_all_payments c; memo_fetch_supplier_notifications := memo_fetch_supplier_notifications c; stamp_fetch_payment_methods := stamp_fetch_payment_methods c; stamp_check_low_stock := stamp_check_low_stock c; stamp_fetch_all_drugs := stamp_fetch_all_drugs c; stamp_fetch_all_customers := stamp_fetch_all_customers c; stamp_fetch_all_orders := stamp_fetch_all_orders c; stamp_fetch_all_tickets := stamp_fetch_all_tickets c; stamp_fetch_all_restock_orders := stamp_fetch_all_restock_orders c; stamp_fetch_all_suppliers := v; stamp_fetch_all_payments := stamp_fetch_all_payments c; stamp_fetch_supplier_notifications := stamp_fetch_supplier_notifications c |}.

Definition set_stamp_fetch_all_payments (v : Q) (c : caches) : caches :=
  {| memo_fetch_payment_methods := memo_fetch_payment_methods c; memo_check_low_stock := memo_check_low_stock c; memo_fetch_all_drugs := memo_fetch_all_drugs c; memo_fetch_all_customers := memo_fetch_all_customers c; memo_fetch_all_orders := memo_fetch_all_orders c; memo_fetch_all_tickets := memo_fetch_all_tickets c; memo_fetch_all_restock_orders := memo_fetch_all_restock_orders c; memo_fetch_all_suppliers := memo_fetch_all_suppliers c; memo_fetch_all_payments := memo_fetch_all_payments c; memo_fetch_supplier_notifications := memo_fetch_supplier_notifications c; stamp_fetch_payment_methods := stamp_fetch_payment_methods c; stamp_check_low_stock := stamp_check_low_stock c; stamp_fetch_all_drugs := stamp_fetch_all_drugs c; stamp_fetch_all_customers := stamp_fetch_all_customers c; stamp_fetch_all_orders := stamp_fetch_all_orders c; stamp_fetch_all_tickets := stamp_fetch_all_tickets c; stamp_fetch_all_restock_orders := stamp_fetch_all_restock_orders c; stamp_fetch_all_suppliers := stamp_fetch_all_suppliers c; stamp_fetch_all_payments := v; stamp_fetch_supplier_notifications := stamp_fetch_supplier_notifications c |}.

Definition set_stamp_fetch_supplier_notifications (v : list (Z * Q)) (c : caches) : caches :=
  {| memo_fetch_payment_methods := memo_fetch_payment_methods c; memo_check_low_stock := memo_check_low_stock c; memo_fetch_all_drugs := memo_fetch_all_drugs c; memo_fetch_all_customers := memo_fetch_all_customers c; memo_fetch_all_orders := memo_fetch_all_orders c; memo_fetch_all_tickets := memo_fetch_all_tickets c; memo_fetch_all_restock_orders := memo_fetch_all_restock_orders c; memo_fetch_all_suppliers := memo_fetch_all_suppliers c; memo_fetch_all_payments := memo_fetch_all_payments c; memo_fetch_supplier_notifications := memo_fetch_supplier_notifications c; stamp_fetch_payment_methods := stamp_fetch_payment_methods c; stamp_check_low_stock := stamp_check_low_stock c; stamp_fetch_all_drugs := stamp_fetch_all_drugs c; stamp_fetch_all_customers := stamp_fetch_all_customers c; stamp_fetch_all_orders := stamp_fetch_all_orders c; stamp_fetch_all_tickets := stamp_fetch_all_tickets c; stamp_fetch_all_restock_orders := stamp_fetch_all_restock_orders c; stamp_fetch_all_suppliers := stamp_fetch_all_suppliers c; stamp_fetch_all_payments := stamp_fetch_all_payments c; stamp_fetch_supplier_notifications := v |}.

Definition set_working (t : tables) (w : world) : world :=
  {| conn := {| committed := committed (conn w); working := t |};
     cache := cache w; clock := clock w; now := now w |}.

Definition set_cache (c : caches) (w : world) : world :=
  {| conn := conn w; cache := c; clock := clock w; now := now w |}.

(** The passing of [seconds] of time, after which the clock reads
    [later]. *)
Definition elapse (seconds : Q) (later : string) (w : world) : world :=
  {| conn := conn w; cache := cache w; clock := later;
     now := Qplus (now w) seconds |}.

(** ** Computations

    A computation runs against the world and an oracle of store failures:
    one entry per statement execution or commit, [Some e] making that
    call raise [e] (a locked database, a full disk, ...) and leaving the
    store as it was, [None] letting it run.  An exhausted oracle injects
    nothing. *)

Inductive outcome (A : Type) : Type :=
| Return (a : A)
| Raise (e : exc).
Arguments Return {A} a.
Arguments Raise {A} e.

Definition faults : Type := list (option exc).

Record run (A : Type) : Type :=
  Run { out : outcome A; oracle : faults; after : world }.
Arguments Run {A} out oracle after.
Arguments out {A} r.
Arguments oracle {A} r.
Arguments after {A} r.

Definition M (A : Type) : Type := faults -> world -> run A.

Definition ret {A} (a : A) : M A := fun fs w => Run (Return a) fs w.

Definition raise {A} (e : exc) : M A := fun fs w => Run (Raise e) fs w.

Definition bind {A B} (m : M A) (k : A -> M B) : M B :=
  fun fs w =>
    match m fs w with
    | Run (Return a) fs' w' => k a fs' w'
    | Run (Raise e) fs' w' => Run (Raise e) fs' w'
    end.

(** [try: body except Exception as e: handler e]. *)
Definition try_except {A} (body : M A) (handler : exc -> M A) : M A :=
  fun fs w =>
    match body fs w with
    | Run (Return a) fs' w' => Run (Return a) fs' w'
    | Run (Raise e) fs' w' => handler e fs' w'
    end.

Declare Scope py_scope.
Delimit Scope py_scope with py.
Notation "x <- m ;; k" := (bind m (fun x => k))
  (at level 100, m at next level, right associativity) : py_scope.
Notation "m ;; k" := (bind m (fun _ => k))
  (at level 100, right associativity) : py_scope.
Local Open Scope py_scope.

(** The next entry of the oracle and what is left of it. *)
Definition next_fault (fs : faults) : option exc * faults :=
  match fs with
  | [] => (None, [])
  | f :: fs' => (f, fs')
  end.

(** [c.execute(stmt)]: the statement [stmt] maps the connection's tables to
    a result and new tables, or raises and changes nothing. *)
Definition execute {A} (stmt : tables -> outcome (A * tables)) : M A :=
  fun fs w =>
    match next_fault fs with
    | (Some e, fs') => Run (Raise e) fs' w
    | (None, fs') =>
        match stmt (working (conn w)) with
        | Return (a, t') => Run (Return a) fs' (set_working t' w)
        | Raise e => Run (Raise e) fs' w
        end
    end.

(** [conn.commit()]. *)
Definition commit : M unit :=
  fun fs w =>
    match next_fault fs with
    | (Some e, fs') => Run (Raise e) fs' w
    | (None, fs') =>
        Run (Return tt) fs'
            {| conn := {| committed := working (conn w);
                          working := working (conn w) |};
               cache := cache w; clock := clock w; now := now w |}
    end.

(** A statement that only reads. *)
Definition select {A} (q : tables -> A) : tables -> outcome (A * tables) :=
  fun t => Return (q t, t).

(** A statement that only writes. *)
Definition update (u : tables -> tables) : tables -> outcome (unit * tables) :=
  fun t => Return (tt, u t).

(** [c.executemany(stmt, rows)]: one execution per row, in order. *)
Fixpoint executemany {B} (stmt : B -> tables -> outcome (unit * tables))
         (rows : list B) : M unit :=
  match rows with
  | [] => ret tt
  | r :: rows' => execute (stmt r) ;; executemany stmt rows'
  end.

(** An entry stored at time [stored] is served while the timer reads less
    than [stored + ttl]. *)
Definition live (ttl stored current : Q) : bool :=
  negb (Qle_bool (Qplus stored ttl) current).

(** [@st.cache_data(ttl=...)]: the memoised value when there is one that has
    not expired, else the body's result, which is stored with the time. *)
Definition cache_data {A} (ttl : Q) (memo : caches -> option A)
           (store : option A -> caches -> caches) (stamp : caches -> Q)
           (store_stamp : Q -> caches -> caches) (body : M A) : M A :=
  fun fs w =>
    let miss :=
      (v <- body ;;
       (fun fs' w' =>
          Run (Return v) fs'
              (set_cache (store_stamp (now w') (store (Some v) (cache w'))) w'))) in
    match memo (cache w) with
    | Some v => if live ttl (stamp (cache w)) (now w) then Run (Return v) fs w
                else miss fs w
    | None => miss fs w
    end.

(** An outcome computed without the world. *)
Definition lift {A} (o : outcome A) : M A := fun fs w => Run o fs w.

(** [float(z)] for an [int]: the nearest binary64, ties to even;
    [OverflowError] beyond the range of the type. *)
Definition float_of_int (z : Z) : outcome PrimFloat.float :=
  match SpecFloat.binary_normalize FloatOps.prec FloatOps.emax z 0 false with
  | SpecFloat.S754_infinity _ =>
      Raise {| exc_type := OverflowError;
               exc_str := "int too large to convert to float" |}
  | s => Return (FloatOps.SF2Prim s)
  end.

(** [a * b] for a number [a] read from the store and an [int] [b]: the
    product of two [int]s is exact; a [float] times an [int] is the binary64
    product of the [float] and [float(b)]. *)
Definition multiply (a : number) (b : Z) : outcome number :=
  match a with
  | PyInt z => Return (PyInt (z * b))
  | PyFloat f =>
      match float_of_int b with
      | Return g => Return (PyFloat (PrimFloat.mul f g))
      | Raise e => Raise e
      end
  end.

(** [accessor.clear()]. *)
Definition clear {A} (store : option A -> caches -> caches) : M unit :=
  fun fs w => Run (Return tt) fs (set_cache (store None (cache w)) w).

(** Evaluating a global name the module never binds. *)
Definition unbound_name {A} (name : string) : M A :=
  raise {| exc_type := NameError;
           exc_str := "name '" +++ name +++ "' is not defined" |}.

(** [row[0]] on the result of [fetchone()]. *)
Definition subscript0 {A} (row : option A) : M A :=
  match row with
  | Some a => ret a
  | None => raise {| exc_type := TypeError;
                     exc_str := "'NoneType' object is not subscriptable" |}
  end.

(** The rowid SQLite gives a new row: one more than the largest in use. *)
Definition next_rowid (ids : list Z) : Z :=
  1 + fold_right Z.max 0 ids.

(** ** Python dicts with string keys, in insertion order *)

Fixpoint dict_set (k : string) (v : Z) (d : list (string * Z)) : list (string * Z) :=
  match d with
  | [] => [(k, v)]
  | (k', v') :: d' =>
      if String.eqb k k' then (k', v) :: d' else (k', v') :: dict_set k v d'
  end.

(** [d.get(k)]. *)
Fixpoint dict_get (k : string) (d : list (string * Z)) : option Z :=
  match d with
  | [] => None
  | (k', v) :: d' => if String.eqb k k' then Some v else dict_get k d'
  end.

(** [d[k]]. *)
Definition dict_subscript (k : string) (d : list (string * Z)) : M Z :=
  match dict_get k d with
  | Some v => ret v
  | None => raise {| exc_type := KeyError; exc_str := "'" +++ k +++ "'" |}
  end.

(** ** The SQL statements of the source, on the tables *)

(** SELECT COUNT of rows FROM PaymentMethods *)
Definition count_PaymentMethods (t : tables) : Z :=
  Z.of_nat (List.length (PaymentMethods t)).

(** INSERT INTO PaymentMethods (MethodName, Description) VALUES (?, ?) *)
Definition insert_PaymentMethod (m : string * string) : tables -> outcome (unit * tables) :=
  update (fun t =>
    set_PaymentMethods
      (PaymentMethods t ++
       [{| PaymentMethodID := next_rowid (map PaymentMethodID (PaymentMethods t));
           MethodName := fst m; Description := snd m |}]) t).

(** SELECT PaymentMethodID, MethodName FROM PaymentMethods *)
Definition select_PaymentMethods (t : tables) : list (Z * string) :=
  map (fun m => (PaymentMethodID m, MethodName m)) (PaymentMethods t).

(** INSERT INTO PharmacyPayments (PharmacyID, PaymentMethodID,
    AccountDetails, IsDefault) VALUES (?, ?, ?, ?) *)
Definition insert_PharmacyPayment (pharmacy_id payment_method_id : Z)
           (account_details : string) (is_default : bool)
  : tables -> outcome (unit * tables) :=
  update (fun t =>
    set_PharmacyPayments
      (PharmacyPayments t ++
       [{| pp_PharmacyID := pharmacy_id; pp_PaymentMethodID := payment_method_id;
           AccountDetails := account_details; IsDefault := is_default |}]) t).

(** INSERT INTO Payments (PharmacyID, SupplierID, Amount, PaymentMethodID,
    Status, Notes, TransactionReference) VALUES (?, ?, ?, ?, ?, ?, ?);
    the result is [c.lastrowid]. *)
Definition insert_Payment (pharmacy_id supplier_id : Z) (amount : number)
           (payment_method_id : Z) (status : string) (notes : option string)
           (reference : string) (t : tables) : outcome (Z * tables) :=
  let payment_id := next_rowid (map PaymentID (Payments t)) in
  Return (payment_id,
          set_Payments
            (Payments t ++
             [{| PaymentID := payment_id; pay_PharmacyID := pharmacy_id;
                 pay_SupplierID := supplier_id; Amount := amount;
                 pay_PaymentMethodID := payment_method_id; pay_Status := status;
                 Notes := notes; TransactionReference := reference |}]) t).

(** UPDATE RestockOrders SET PaymentStatus = ? WHERE RestockID = ? *)
Definition update_RestockOrders_PaymentStatus (status : string) (restock_id : Z)
  : tables -> outcome (unit * tables) :=
  update (fun t =>
    set_RestockOrders
      (map (fun r =>
              if RestockID r =? restock_id then
                {| RestockID := RestockID r; ro_SupplierID := ro_SupplierID r;
                   DrugID := DrugID r; Quantity := Quantity r;
                   ro_Status := ro_Status r; PaymentStatus := Some status |}
              else r) (RestockOrders t)) t).

(** Modelled from the spec: the table declaration is not part of the source
    file; the spec's data model gives a notification a created-at attribute,
    which the INSERT below does not supply, so the store fills it on insert.
    It is taken to be the text of the clock at that moment, [created_at].

    INSERT INTO SupplierNotifications (SupplierID, Title, Message,
    RelatedEntityType, RelatedEntityID) VALUES (?, ?, ?, ?, ?); a new
    notification is unread. *)
Definition insert_SupplierNotification (created_at : string) (supplier_id : Z)
           (title message : string) (entity_type : string) (entity_id : Z)
  : tables -> outcome (unit * tables) :=
  update (fun t =>
    set_SupplierNotifications
      (SupplierNotifications t ++
       [{| NotificationID := next_rowid (map NotificationID (SupplierNotifications t));
           sn_SupplierID := supplier_id; Title := title; Message := message;
           RelatedEntityType := entity_type; RelatedEntityID := entity_id;
           IsRead := false; CreatedAt := created_at |}]) t).

(** SELECT every column FROM Drugs WHERE stock_no <= 100 *)
Definition select_low_stock (t : tables) : list drug :=
  filter (fun d => stock_no d <=? 100) (Drugs t).

(** INSERT INTO RestockOrders (SupplierID, DrugID, Quantity, Status)
    VALUES (?, ?, ?, 'Pending'); the result is [c.lastrowid].  The INSERT
    gives PaymentStatus no value: it is NULL. *)
Definition insert_RestockOrder (supplier_id drug_id quantity : Z) (t : tables)
  : outcome (Z * tables) :=
  let restock_id := next_rowid (map RestockID (RestockOrders t)) in
  Return (restock_id,
          set_RestockOrders
            (RestockOrders t ++
             [{| RestockID := restock_id; ro_SupplierID := supplier_id;
                 DrugID := drug_id; Quantity := quantity;
                 ro_Status := "Pending"; PaymentStatus := None |}]) t).

(** INSERT INTO Tickets (RestockID, SupplierID, Status) VALUES (?, ?, 'Open') *)
Definition insert_Ticket (restock_id supplier_id : Z)
  : tables -> outcome (unit * tables) :=
  update (fun t =>
    set_Tickets
      (Tickets t ++
       [{| TicketID := next_rowid (map TicketID (Tickets t));
           tk_RestockID := restock_id; tk_SupplierID := supplier_id;
           tk_Status := "Open" |}]) t).

Definition with_stock (n : Z) (d : drug) : drug :=
  {| D_id := D_id d; D_Name := D_Name d; D_Price := D_Price d; stock_no := n |}.

(** UPDATE Drugs SET stock_no = 200 WHERE D_id = ? *)
Definition update_Drugs_stock_200 (drug_id : Z) : tables -> outcome (unit * tables) :=
  update (fun t =>
    set_Drugs (map (fun d => if D_id d =? drug_id then with_stock 200 d else d)
                   (Drugs t)) t).

Definition delivered (r : restock_order) : restock_order :=
  {| RestockID := RestockID r; ro_SupplierID := ro_SupplierID r;
     DrugID := DrugID r; Quantity := Quantity r;
     ro_Status := "Delivered"; PaymentStatus := Some "Completed"%string |}.

(** UPDATE RestockOrders SET Status = 'Delivered', PaymentStatus = 'Completed'
    WHERE DrugID = ? *)
Definition update_RestockOrders_delivered (drug_id : Z)
  : tables -> outcome (unit * tables) :=
  update (fun t =>
    set_RestockOrders
      (map (fun r => if DrugID r =? drug_id then delivered r else r)
           (RestockOrders t)) t).

Definition closed (k : ticket) : ticket :=
  {| TicketID := TicketID k; tk_RestockID := tk_RestockID k;
     tk_SupplierID := tk_SupplierID k; tk_Status := "Closed" |}.

(** SELECT RestockID FROM RestockOrders WHERE DrugID = ? *)
Definition restock_ids_of_drug (drug_id : Z) (t : tables) : list Z :=
  map RestockID (filter (fun r => DrugID r =? drug_id) (RestockOrders t)).

(** UPDATE Tickets SET Status = 'Closed' WHERE RestockID IN
    (SELECT RestockID FROM RestockOrders WHERE DrugID = ?) *)
Definition update_Tickets_closed (drug_id : Z) : tables -> outcome (unit * tables) :=
  update (fun t =>
    set_Tickets
      (map (fun k =>
              if existsb (Z.eqb (tk_RestockID k)) (restock_ids_of_drug drug_id t)
              then closed k else k) (Tickets t)) t).

(** SELECT D_id, stock_no FROM Drugs WHERE D_Name = ?, then [fetchone()] *)
Definition select_drug_by_name (drug_name : string) (t : tables) : option (Z * Z) :=
  option_map (fun d => (D_id d, stock_no d))
             (find (fun d => String.eqb (D_Name d) drug_name) (Drugs t)).

(** UPDATE Drugs SET stock_no = stock_no - ? WHERE D_id = ? *)
Definition update_Drugs_stock_minus (quantity drug_id : Z)
  : tables -> outcome (unit * tables) :=
  update (fun t =>
    set_Drugs (map (fun d => if D_id d =? drug_id
                             then with_stock (stock_no d - quantity) d else d)
                   (Drugs t)) t).

(** SELECT D_Price FROM Drugs WHERE D_Name = ?, then [fetchone()] *)
Definition select_price_by_name (drug_name : string) (t : tables) : option number :=
  option_map D_Price (find (fun d => String.eqb (D_Name d) drug_name) (Drugs t)).


(** INSERT INTO Orders (O_Name, O_Items, O_Qty, O_Date) VALUES (?, ?, ?, ?);
    the result is [c.lastrowid]. *)
Definition insert_Order (name items : string) (quantity : Z) (date : string)
           (t : tables) : outcome (Z * tables) :=
  let order_id := next_rowid (map O_id (Orders t)) in
  Return (order_id,
          set_Orders
            (Orders t ++
             [{| O_id := order_id; O_Name := name; O_Items := items;
                 O_Qty := quantity; O_Date := date |}]) t).

Definition unique_violation (column : string) : exc :=
  {| exc_type := IntegrityError;
     exc_str := "UNIQUE constraint failed: " +++ column |}.

(** Modelled from the spec: the table declarations are not part of the
    source file; the spec's data model gives Customers, Suppliers and
    RetailPharmacies an email column whose uniqueness the store enforces.
    An INSERT whose email is already in the table raises
    [sqlite3.IntegrityError] and inserts nothing.

    INSERT INTO Customers (C_Name, C_Password, C_Email, C_State, C_Number)
    VALUES (?, ?, ?, ?, ?) *)
Definition insert_Customer (name password email state number : string)
           (t : tables) : outcome (unit * tables) :=
  if existsb (fun c => String.eqb (C_Email c) email) (Customers t) then
    Raise (unique_violation "Customers.C_Email")
  else
    Return (tt,
            set_Customers
              (Customers t ++
               [{| C_id := next_rowid (map C_id (Customers t)); C_Name := name;
                   C_Password := password; C_Email := email; C_State := state;
                   C_Number := number |}]) t).

(** Modelled from the spec: unique PharmacyEmail, as for [insert_Customer].

    INSERT INTO RetailPharmacies (PharmacyName, PharmacyEmail,
    PharmacyPassword, Address, PhoneNumber, BillingAddress, TaxID, SupplierID)
    VALUES (?, ?, ?, ?, ?, ?, ?, 1); the result is [c.lastrowid]. *)
Definition insert_RetailPharmacy (name email password address phone_number : string)
           (billing_address tax_id : option string) (t : tables)
  : outcome (Z * tables) :=
  if existsb (fun p => String.eqb (PharmacyEmail p) email) (RetailPharmacies t) then
    Raise (unique_violation "RetailPharmacies.PharmacyEmail")
  else
    let pharmacy_id := next_rowid (map PharmacyID (RetailPharmacies t)) in
    Return (pharmacy_id,
            set_RetailPharmacies
              (RetailPharmacies t ++
               [{| PharmacyID := pharmacy_id; PharmacyName := name;
                   PharmacyEmail := email; PharmacyPassword := password;
                   rp_Address := address; PhoneNumber := phone_number;
                   BillingAddress := billing_address; TaxID := tax_id;
                   rp_SupplierID := 1 |}]) t).

(** Modelled from the spec: unique ContactEmail, as for [insert_Customer].

    INSERT INTO Suppliers (SupplierName, ContactEmail, ContactNumber, Address,
    SupplierPassword) VALUES (?, ?, ?, ?, ?); the result is [c.lastrowid]. *)
Definition insert_Supplier (name email contact_number address password : string)
           (t : tables) : outcome (Z * tables) :=
  if existsb (fun s => String.eqb (ContactEmail s) email) (Suppliers t) then
    Raise (unique_violation "Suppliers.ContactEmail")
  else
    let supplier_id := next_rowid (map SupplierID (Suppliers t)) in
    Return (supplier_id,
            set_Suppliers
              (Suppliers t ++
               [{| SupplierID := supplier_id; SupplierName := name;
                   ContactEmail := email; ContactNumber := contact_number;
                   Address := address; SupplierPassword := password |}]) t).

(** ** The functions of main14.py *)

Section Workflow.

(** The text an f-string gives for an amount: [str] on an [int] or on a
    [float]. *)
Variable str_amount : number -> string.

Definition methods : list (string * string) :=
  [("COD", "Cash on Delivery");
   ("UPI", "Unified Payments Interface");
   ("Net Banking", "Internet Banking");
   ("Studd", "Student Discount Payment (Placeholder)")]%string.

Definition initialize_payment_methods : M unit :=
  n <- execute (select count_PaymentMethods) ;;
  if n =? 0 then
    executemany insert_PaymentMethod methods ;;
    commit
  else ret tt.

Definition fetch_payment_methods : M (list (string * Z)) :=
  cache_data (300 # 1) memo_fetch_payment_methods set_memo_fetch_payment_methods
    stamp_fetch_payment_methods set_stamp_fetch_payment_methods
    (rows <- execute (select select_PaymentMethods) ;;
     ret (fold_left (fun d method => dict_set (snd method) (fst method) d) rows [])).

Definition add_pharmacy_payment (pharmacy_id payment_method_id : Z)
           (account_details : string) (is_default : bool) : M (bool * string) :=
  try_except
    (execute (insert_PharmacyPayment pharmacy_id payment_method_id
                                     account_details is_default) ;;
     commit ;;
     ret (true, "Payment method added successfully!"%string))
    (fun e => ret (false, "Error adding payment method: " +++ exc_str e)).

(** The time the store stamps a new row with. *)
Definition current_timestamp : M string := fun fs w => Run (Return (clock w)) fs w.

Definition create_restock_payment (pharmacy_id supplier_id : Z) (amount : number)
           (payment_method_id restock_id : Z) (status : string)
           (notes : option string) : M (bool * string * option Z) :=
  try_except
    (payment_id <- execute (insert_Payment pharmacy_id supplier_id amount
                              payment_method_id status notes
                              ("Restock-" +++ str restock_id)) ;;
     execute (update_RestockOrders_PaymentStatus status restock_id) ;;
     commit ;;
     created_at <- current_timestamp ;;
     execute (insert_SupplierNotification created_at supplier_id "New Restock Payment"
                ("Payment of $" +++ str_amount amount +++
                 " initiated for Restock ID " +++ str restock_id)
                "Payment" payment_id) ;;
     commit ;;
     ret (true, "Payment created successfully!"%string, Some payment_id))
    (fun e => ret (false, "Error creating payment: " +++ exc_str e, None)).

(** Returns [low_stock_items]; the column names the source returns with
    them are those of the table declaration. *)
Definition check_low_stock : M (list drug) :=
  cache_data (3600 # 1) memo_check_low_stock set_memo_check_low_stock
    stamp_check_low_stock set_stamp_check_low_stock
    (execute (select select_low_stock)).

Definition create_restock_order (supplier_id drug_id quantity pharmacy_id : Z)
  : M (bool * string * option Z * option Z) :=
  try_except
    (restock_id <- execute (insert_RestockOrder supplier_id drug_id quantity) ;;
     execute (insert_Ticket restock_id supplier_id) ;;
     commit ;;
     clear set_memo_fetch_all_tickets ;;
     clear set_memo_fetch_all_restock_orders ;;
     clear set_memo_check_low_stock ;;
     ret (true, "Restock order and ticket created successfully!"%string,
          Some restock_id, Some drug_id))
    (fun e => ret (false, "Error creating restock order: " +++ exc_str e, None, None)).

Definition update_drug_stock (drug_id : Z) : M (bool * string) :=
  try_except
    (execute (update_Drugs_stock_200 drug_id) ;;
     execute (update_RestockOrders_delivered drug_id) ;;
     execute (update_Tickets_closed drug_id) ;;
     commit ;;
     clear set_memo_fetch_all_drugs ;;
     clear set_memo_fetch_all_tickets ;;
     clear set_memo_fetch_all_restock_orders ;;
     clear set_memo_check_low_stock ;;
     ret (true, "Stock updated to 200 and restock status updated!"%string))
    (fun e => ret (false, "Error updating stock: " +++ exc_str e)).

Definition fetch_all_drugs : M (list drug) :=
  cache_data (300 # 1) memo_fetch_all_drugs set_memo_fetch_all_drugs
    stamp_fetch_all_drugs set_stamp_fetch_all_drugs
    (execute (select Drugs)).

Definition fetch_all_customers : M (list customer) :=
  cache_data (300 # 1) memo_fetch_all_customers set_memo_fetch_all_customers
    stamp_fetch_all_customers set_stamp_fetch_all_customers
    (execute (select Customers)).

Definition fetch_all_orders : M (list order) :=
  cache_data (300 # 1) memo_fetch_all_orders set_memo_fetch_all_orders
    stamp_fetch_all_orders set_stamp_fetch_all_orders
    (execute (select Orders)).

Definition fetch_all_tickets : M (list ticket) :=
  cache_data (300 # 1) memo_fetch_all_tickets set_memo_fetch_all_tickets
    stamp_fetch_all_tickets set_stamp_fetch_all_tickets
    (execute (select Tickets)).

Definition fetch_all_restock_orders : M (list restock_order) :=
  cache_data (300 # 1) memo_fetch_all_restock_orders set_memo_fetch_all_restock_orders
    stamp_fetch_all_restock_orders set_stamp_fetch_all_restock_orders
    (execute (select RestockOrders)).

Definition fetch_all_suppliers : M (list supplier) :=
  cache_data (300 # 1) memo_fetch_all_suppliers set_memo_fetch_all_suppliers
    stamp_fetch_all_suppliers set_stamp_fetch_all_suppliers
    (execute (select Suppliers)).

Definition fetch_all_payments : M (list payment) :=
  cache_data (300 # 1) memo_fetch_all_payments set_memo_fetch_all_payments
    stamp_fetch_all_payments set_stamp_fetch_all_payments
    (execute (select Payments)).

Fixpoint memo_lookup {A} (k : Z) (m : list (Z * A)) : option A :=
  match m with
  | [] => None
  | (k', v) :: m' => if k =? k' then Some v else memo_lookup k m'
  end.

(** One step of a stable sort on CreatedAt, latest first: the row goes
    behind the rows with a later CreatedAt and before all others. *)
Fixpoint insert_by_CreatedAt (n : supplier_notification)
         (sorted : list supplier_notification) : list supplier_notification :=
  match sorted with
  | [] => [n]
  | m :: sorted' =>
      if String.ltb (CreatedAt n) (CreatedAt m) then m :: insert_by_CreatedAt n sorted'
      else n :: m :: sorted'
  end.

(** SELECT every column FROM SupplierNotifications WHERE SupplierID = ?
    ORDER BY CreatedAt DESC: the supplier's rows by falling CreatedAt, rows
    of the same CreatedAt in rowid order. *)
Definition select_notifications (supplier_id : Z) (t : tables)
  : list supplier_notification :=
  fold_right insert_by_CreatedAt []
    (filter (fun n => sn_SupplierID n =? supplier_id) (SupplierNotifications t)).

(** [@st.cache_data(ttl=300)], memoised per [supplier_id]. *)
Definition fetch_supplier_notifications (supplier_id : Z)
  : M (list supplier_notification) :=
  fun fs w =>
    let miss :=
      (v <- execute (select (select_notifications supplier_id)) ;;
       (fun fs' w' =>
          Run (Return v) fs'
              (set_cache
                 (set_stamp_fetch_supplier_notifications
                    ((supplier_id, now w') ::
                     stamp_fetch_supplier_notifications (cache w'))
                    (set_memo_fetch_supplier_notifications
                       ((supplier_id, v) ::
                        memo_fetch_supplier_notifications (cache w'))
                       (cache w'))) w'))) in
    match memo_lookup supplier_id (memo_fetch_supplier_notifications (cache w)),
          memo_lookup supplier_id (stamp_fetch_supplier_notifications (cache w)) with
    | Some v, Some stored =>
        if live (300 # 1) stored (now w) then Run (Return v) fs w else miss fs w
    | _, _ => miss fs w
    end.

Definition update_stock_after_order (drug_name : string) (quantity : Z)
  : M (bool * string) :=
  try_except
    (drug <- execute (select (select_drug_by_name drug_name)) ;;
     match drug with
     | None => ret (false, "Drug not found."%string)
     | Some (drug_id, current_stock) =>
         if current_stock <? quantity then
           ret (false, "Not enough stock available. Current stock: " +++ str current_stock)
         else
           execute (update_Drugs_stock_minus quantity drug_id) ;;
           commit ;;
           clear set_memo_fetch_all_drugs ;;
           ret (true, "Stock updated successfully."%string)
     end)
    (fun e => ret (false, "Error updating stock: " +++ exc_str e)).

Definition add_new_customer (name password email state number : string)
  : M (bool * string) :=
  try_except
    (execute (insert_Customer name password email state number) ;;
     commit ;;
     clear set_memo_fetch_all_customers ;;
     ret (true, "Customer added successfully!"%string))
    (fun e =>
       if is_IntegrityError e then ret (false, "Error: Email already exists."%string)
       else ret (false, "Error: " +++ exc_str e)).

(** [datetime.now().strftime("%Y-%m-%d %H:%M:%S")]. *)
Definition datetime_now : M string := fun fs w => Run (Return (clock w)) fs w.

(** The module binds no [create_payment] (it defines
    [create_restock_payment] and imports nothing that would bind the name),
    so the call in line 321 raises [NameError] when the name is evaluated;
    the handler of the enclosing [try] catches it. *)
Definition add_new_order (pharmacy_id : Z) (name items : string) (quantity : Z)
           (payment_method : string) : M (bool * string) :=
  try_except
    (stock <- update_stock_after_order items quantity ;;
     let '(stock_success, stock_message) := stock in
     if negb stock_success then ret (false, stock_message)
     else
       current_date <- datetime_now ;;
       order_id <- execute (insert_Order name items quantity current_date) ;;
       row <- execute (select (select_price_by_name items)) ;;
       drug_price <- subscript0 row ;;
       amount <- lift (multiply drug_price quantity) ;;
       payment_methods <- fetch_payment_methods ;;
       let payment_method_id := dict_get payment_method payment_methods in
       created <- (unbound_name "create_payment" : M (bool * string * option Z)) ;;
       let '(success, message, payment_id) := created in
       if (success : bool) then
         commit ;;
         clear set_memo_fetch_all_orders ;;
         clear set_memo_fetch_all_payments ;;
         ret (true, "Order added successfully with payment!"%string)
       else ret (false, message))
    (fun e => ret (false, "Error: " +++ exc_str e)).

Definition add_new_retail_pharmacist (name email password address phone_number : string)
           (billing_address tax_id : option string) : M (bool * string * option Z) :=
  try_except
    (pharmacy_id <- execute (insert_RetailPharmacy name email password address
                               phone_number billing_address tax_id) ;;
     commit ;;
     payment_methods <- fetch_payment_methods ;;
     cod <- dict_subscript "COD" payment_methods ;;
     add_pharmacy_payment pharmacy_id cod "Cash on delivery" true ;;
     ret (true, "Retail Pharmacist account created successfully!"%string,
          Some pharmacy_id))
    (fun e =>
       if is_IntegrityError e then
         ret (false, "Error: Email already exists."%string, None)
       else ret (false, "Error: " +++ exc_str e, None)).

Definition add_new_supplier (name email contact_number address password : string)
  : M (bool * string * option Z) :=
  try_except
    (supplier_id <- execute (insert_Supplier name email contact_number address
                               password) ;;
     commit ;;
     clear set_memo_fetch_all_suppliers ;;
     ret (true, "Supplier account created successfully!"%string, Some supplier_id))
    (fun e =>
       if is_IntegrityError e then
         ret (false, "Error: Email already exists."%string, None)
       else ret (false, "Error: " +++ exc_str e, None)).

(** What [restock_ticket_form] shows, and the two session entries it sets
    ([last_restock_drug_id], [last_supplier_id]). *)
Inductive shown : Type :=
| st_success (text : string)
| st_error (text : string).


End Workflow.

(** ** Session state, sign-up and login

    [st.session_state]: a key is absent ([None]) until it is set. *)
Record session_state : Type :=
  { retail_pharmacist_logged_in : option bool;
    session_pharmacy_id : option Z;
    supplier_logged_in : option bool;
    session_supplier_id : option Z }.

(** [st.session_state.get(key, False)]. *)
Definition session_get (flag : option bool) : bool :=
  match flag with
  | Some b => b
  | None => false
  end.

(** The truth value of a Python [str]: non-empty. *)
Definition truthy (s : string) : bool :=
  match s with
  | EmptyString => false
  | String _ _ => true
  end.

(** ["@" in s]. *)
Definition has_at_sign (s : string) : bool :=
  match index 0 "@" s with
  | Some _ => true
  | None => false
  end.

(** SELECT D_id FROM Drugs WHERE D_Name = ?, then [fetchone()] *)
Definition select_drug_id_by_name (drug_name : string) (t : tables) : option Z :=
  option_map D_id (find (fun d => String.eqb (D_Name d) drug_name) (Drugs t)).

(** Returns [result[0] if result else None]. *)
Definition get_drug_id_from_name (drug_name : string) : M (option Z) :=
  execute (select (select_drug_id_by_name drug_name)).

(** SELECT PharmacyID, PharmacyPassword FROM RetailPharmacies
    WHERE PharmacyEmail = ?, then [fetchone()] *)
Definition select_pharmacist_by_email (email : string) (t : tables)
  : option (Z * string) :=
  option_map (fun p => (PharmacyID p, PharmacyPassword p))
             (find (fun p => String.eqb (PharmacyEmail p) email) (RetailPharmacies t)).

(** SELECT SupplierID, SupplierPassword FROM Suppliers WHERE ContactEmail = ?,
    then [fetchone()] *)
Definition select_supplier_by_email (email : string) (t : tables)
  : option (Z * string) :=
  option_map (fun s => (SupplierID s, SupplierPassword s))
             (find (fun s => String.eqb (ContactEmail s) email) (Suppliers t)).

(** The block under the button "Login as Retail Pharmacist" of
    [retail_pharmacist_interface], lines 597 to 606; the error is shown in
    the sidebar. *)
Definition login_retail_pharmacist (pharmacist_email pharmacist_pass : string)
           (s : session_state) : M (shown * session_state) :=
  pharmacist <- execute (select (select_pharmacist_by_email pharmacist_email)) ;;
  match pharmacist with
  | Some (id, password) =>
      if String.eqb password pharmacist_pass then
        ret (st_success "Welcome, Retail Pharmacist!",
             {| retail_pharmacist_logged_in := Some true;
                session_pharmacy_id := Some id;
                supplier_logged_in := supplier_logged_in s;
                session_supplier_id := session_supplier_id s |})
      else ret (st_error "Invalid credentials", s)
  | None => ret (st_error "Invalid credentials", s)
  end.

(** The block under the button "Login as Supplier" of [supplier_interface],
    lines 757 to 766. *)
Definition login_supplier (supplier_email supplier_password : string)
           (s : session_state) : M (shown * session_state) :=
  supplier <- execute (select (select_supplier_by_email supplier_email)) ;;
  match supplier with
  | Some (id, password) =>
      if String.eqb password supplier_password then
        ret (st_success "Welcome, Supplier!",
             {| retail_pharmacist_logged_in := retail_pharmacist_logged_in s;
                session_pharmacy_id := session_pharmacy_id s;
                supplier_logged_in := Some true;
                session_supplier_id := Some id |})
      else ret (st_error "Invalid credentials", s)
  | None => ret (st_error "Invalid credentials", s)
  end.

(** The [if submitted:] block of [signup_retail_pharmacist], lines 427 to
    444, with the values of the form's text inputs as arguments.  The two
    optional inputs reach [add_new_retail_pharmacist] as the strings
    typed. *)
Definition signup_retail_pharmacist_submitted
           (pharmacy_name pharmacy_email pharmacy_password confirm_password
            address phone_number billing_address tax_id : string)
           (s : session_state) : M (shown * session_state) :=
  if negb (forallb truthy [pharmacy_name; pharmacy_email; pharmacy_password;
                           confirm_password; address; phone_number]) then
    ret (st_error "All fields are required!", s)
  else if negb (String.eqb pharmacy_password confirm_password) then
    ret (st_error "Passwords do not match.", s)
  else if negb (has_at_sign pharmacy_email) then
    ret (st_error "Please enter a valid email address.", s)
  else
    added <- add_new_retail_pharmacist pharmacy_name pharmacy_email pharmacy_password
               address phone_number (Some billing_address) (Some tax_id) ;;
    let '(success, message, pharmacy_id) := added in
    if (success : bool) then
      ret (st_success "Account created successfully! You are now logged in.",
           {| retail_pharmacist_logged_in := Some true;
              session_pharmacy_id := pharmacy_id;
              supplier_logged_in := supplier_logged_in s;
              session_supplier_id := session_supplier_id s |})
    else ret (st_error message, s).

(** The [if submitted:] block of [signup_supplier], lines 457 to 474. *)
Definition signup_supplier_submitted
           (supplier_name contact_email contact_number address supplier_password
            confirm_password : string)
           (s : session_state) : M (shown * session_state) :=
  if negb (forallb truthy [supplier_name; contact_email; contact_number; address;
                           supplier_password; confirm_password]) then
    ret (st_error "All fields are required!", s)
  else if negb (String.eqb supplier_password confirm_password) then
    ret (st_error "Passwords do not match.", s)
  else if negb (has_at_sign contact_email) then
    ret (st_error "Please enter a valid email address.", s)
  else
    added <- add_new_supplier supplier_name contact_email contact_number address
               supplier_password ;;
    let '(success, message, supplier_id) := added in
    if (success : bool) then
      ret (st_success "Account created successfully! You are now logged in.",
           {| retail_pharmacist_logged_in := retail_pharmacist_logged_in s;
              session_pharmacy_id := session_pharmacy_id s;
              supplier_logged_in := Some true;
              session_supplier_id := supplier_id |})
    else ret (st_error message, s).

(** ** The supplier's sections *)

(** SELECT DrugID FROM RestockOrders WHERE RestockID = ?, then [fetchone()] *)
Definition select_drug_of_restock (restock_id : Z) (t : tables) : option Z :=
  option_map DrugID (find (fun r => RestockID r =? restock_id) (RestockOrders t)).

(** The block under the button "Send Restocking Items for Ticket ..." of the
    ticket section, lines 867 to 876, for a ticket with the given RestockID;
    nothing here is inside a [try]. *)
Definition send_restocking_items (ticket_RestockID : Z) : M shown :=
  row <- execute (select (select_drug_of_restock ticket_RestockID)) ;;
  drug_id <- subscript0 row ;;
  sent <- update_drug_stock drug_id ;;
  let '(stock_success, stock_message) := sent in
  if (stock_success : bool) then ret (st_success stock_message)
  else ret (st_error stock_message).

(** SELECT D.D_Name, D.stock_no, R.RestockID, R.Quantity, R.Status
    FROM Drugs D JOIN RestockOrders R ON D.D_id = R.DrugID
    WHERE R.SupplierID = ? AND D.stock_no <= 100 *)
Definition select_needing_restocking (supplier_id : Z) (t : tables)
  : list (string * Z * Z * Z * string) :=
  flat_map
    (fun d =>
       map (fun r => (D_Name d, stock_no d, RestockID r, Quantity r, ro_Status r))
           (filter (fun r => (D_id d =? DrugID r) && (ro_SupplierID r =? supplier_id)
                             && (stock_no d <=? 100))
                   (RestockOrders t)))
    (Drugs t).

(** The query of the section "Check Pharmacies Needing Restocking". *)
Definition pharmacies_needing_restocking (supplier_id : Z)
  : M (list (string * Z * Z * Z * string)) :=
  execute (select (select_needing_restocking supplier_id)).

(** UPDATE SupplierNotifications SET IsRead = 1
    WHERE SupplierID = ? AND IsRead = 0 *)
Definition update_notifications_read (supplier_id : Z)
  : tables -> outcome (unit * tables) :=
  update (fun t =>
    set_SupplierNotifications
      (map (fun n =>
              if (sn_SupplierID n =? supplier_id) && negb (IsRead n) then
                {| NotificationID := NotificationID n; sn_SupplierID := sn_SupplierID n;
                   Title := Title n; Message := Message n;
                   RelatedEntityType := RelatedEntityType n;
                   RelatedEntityID := RelatedEntityID n; IsRead := true;
                   CreatedAt := CreatedAt n |}
              else n) (SupplierNotifications t)) t).

(** The section "View Notifications", lines 894 to 904: the rows shown, or
    none when the info "No new notifications." is shown instead. *)
Definition view_notifications (supplier_id : Z) : M (list supplier_notification) :=
  notifications_df <- fetch_supplier_notifications supplier_id ;;
  match notifications_df with
  | [] => ret []
  | _ :: _ =>
      execute (update_notifications_read supplier_id) ;;
      commit ;;
      ret notifications_df
  end.

(** ** The pharmacy's payment methods *)

(** SELECT pm.MethodName, pp.AccountDetails, pp.IsDefault
    FROM PharmacyPayments pp JOIN PaymentMethods pm
    ON pp.PaymentMethodID = pm.PaymentMethodID WHERE pp.PharmacyID = ? *)
Definition select_pharmacy_payments (pharmacy_id : Z) (t : tables)
  : list (string * string * bool) :=
  flat_map
    (fun pp =>
       map (fun pm => (MethodName pm, AccountDetails pp, IsDefault pp))
           (filter (fun pm => pp_PaymentMethodID pp =? PaymentMethodID pm)
                   (PaymentMethods t)))
    (filter (fun pp => pp_PharmacyID pp =? pharmacy_id) (PharmacyPayments t)).

(** The query under "Current Payment Methods" of the section
    "Manage Payments". *)
Definition current_payment_methods (pharmacy_id : Z)
  : M (list (string * string * bool)) :=
  execute (select (select_pharmacy_payments pharmacy_id)).

(** ** Sample stores *)

Definition empty_tables : tables :=
  {| Drugs := []; Customers := []; Orders := []; Suppliers := [];
     RetailPharmacies := []; RestockOrders := []; Tickets := []; Payments := [];
     PaymentMethods := []; PharmacyPayments := []; SupplierNotifications := [] |}.

Definition empty_caches : caches :=
  {|memo_fetch_payment_methods := None; memo_check_low_stock := None;
     memo_fetch_all_drugs := None; memo_fetch_all_customers := None;
     memo_fetch_all_orders := None; memo_fetch_all_tickets := None;
     memo_fetch_all_restock_orders := None; memo_fetch_all_suppliers := None;
     memo_fetch_all_payments := None; memo_fetch_supplier_notifications := [];
     stamp_fetch_payment_methods := 0; stamp_check_low_stock := 0;
     stamp_fetch_all_drugs := 0; stamp_fetch_all_customers := 0;
     stamp_fetch_all_orders := 0; stamp_fetch_all_tickets := 0;
     stamp_fetch_all_restock_orders := 0; stamp_fetch_all_suppliers := 0;
     stamp_fetch_all_payments := 0; stamp_fetch_supplier_notifications := [] |}.

(** A world whose connection has no open transaction and whose memos are
    all empty. *)
Definition fresh_world (t : tables) : world :=
  {| conn := {| committed := t; working := t |};
     cache := empty_caches; clock := "2024-05-01 09:30:00"; now := 0 |}.

Definition aspirin : drug :=
  {| D_id := 1; D_Name := "Aspirin"; D_Price := PyFloat 10%float; stock_no := 150 |}.

Definition ibuprofen : drug :=
  {| D_id := 2; D_Name := "Ibuprofen"; D_Price := PyFloat 2.5%float; stock_no := 100 |}.

Definition cetirizine : drug :=
  {| D_id := 3; D_Name := "Cetirizine"; D_Price := PyFloat 3%float; stock_no := 101 |}.

Definition seeded_methods : list payment_method :=
  [{| PaymentMethodID := 1; MethodName := "COD"; Description := "Cash on Delivery" |};
   {| PaymentMethodID := 2; MethodName := "UPI";
      Description := "Unified Payments Interface" |};
   {| PaymentMethodID := 3; MethodName := "Net Banking";
      Description := "Internet Banking" |};
   {| PaymentMethodID := 4; MethodName := "Studd";
      Description := "Student Discount Payment (Placeholder)" |}].

(** Three drugs, the seeded payment methods, one supplier, one pharmacy,
    one customer, and two restock orders with their tickets: order 1 for
    ibuprofen, order 2 for cetirizine. *)
Definition pharmacy_tables : tables :=
  {| Drugs := [aspirin; ibuprofen; cetirizine];
     Customers :=
       [{| C_id := 1; C_Name := "Asha"; C_Password := "pw";
           C_Email := "asha@example.org"; C_State := "KA"; C_Number := "100" |}];
     Orders := [];
     Suppliers :=
       [{| SupplierID := 1; SupplierName := "MedSupply";
           ContactEmail := "sales@medsupply.example"; ContactNumber := "200";
           Address := "1 Depot Road"; SupplierPassword := "pw" |}];
     RetailPharmacies :=
       [{| PharmacyID := 7; PharmacyName := "Corner Pharmacy";
           PharmacyEmail := "corner@example.org"; PharmacyPassword := "pw";
           rp_Address := "2 High Street"; PhoneNumber := "300";
           BillingAddress := None; TaxID := None; rp_SupplierID := 1 |}];
     RestockOrders :=
       [{| RestockID := 1; ro_SupplierID := 1; DrugID := 2; Quantity := 50;
           ro_Status := "Pending"; PaymentStatus := Some "Pending"%string |};
        {| RestockID := 2; ro_SupplierID := 1; DrugID := 3; Quantity := 20;
           ro_Status := "Pending"; PaymentStatus := None |}];
     Tickets :=
       [{| TicketID := 1; tk_RestockID := 1; tk_SupplierID := 1; tk_Status := "Open" |};
        {| TicketID := 2; tk_RestockID := 2; tk_SupplierID := 1; tk_Status := "Open" |}];
     Payments := [];
     PaymentMethods := seeded_methods;
     PharmacyPayments := [];
     SupplierNotifications := [] |}.

Definition pharmacy_world : world := fresh_world pharmacy_tables.



(** A store failure the oracle can inject. *)
Definition database_is_locked : exc :=
  {| exc_type := OperationalError; exc_str := "database is locked" |}.

(** How a number is shown in the sample runs ([str_amount] of the
    workflow section): the numerator, a slash, the denominator. *)
Definition show_fraction (a : number) : string :=
  match exact_value a with
  | Some q => str (Qnum q) +++ "/" +++ str (Zpos (Qden q))
  | None => "nan"
  end.

(** The memos of the three reads that [create_restock_payment] writes
    behind, filled from the sample store. *)
Definition warm_memos : M unit :=
  fetch_all_payments ;;
  fetch_all_restock_orders ;;
  fetch_supplier_notifications 1 ;;
  check_low_stock ;;
  ret tt.

Definition warmed_world : world := after (warm_memos [] pharmacy_world).

(** ** Predicates and sample values for the further properties *)

(** Every ticket names a restock order that is in the store. *)
Definition tickets_reference_orders (t : tables) : bool :=
  forallb (fun k => existsb (fun o => RestockID o =? tk_RestockID k) (RestockOrders t))
          (Tickets t).

(** Three notifications for supplier 1 and one for supplier 2; the second
    and the third of supplier 1 were created within the same second, a day
    after the first. *)
Definition notified_world : world :=
  fresh_world
    (set_SupplierNotifications
       [{| NotificationID := 1; sn_SupplierID := 1; Title := "New Restock Payment";
           Message := "first"; RelatedEntityType := "Payment"; RelatedEntityID := 1;
           IsRead := true; CreatedAt := "2024-04-29 08:00:00" |};
        {| NotificationID := 2; sn_SupplierID := 1; Title := "New Restock Payment";
           Message := "second"; RelatedEntityType := "Payment"; RelatedEntityID := 2;
           IsRead := false; CreatedAt := "2024-04-30 08:00:00" |};
        {| NotificationID := 3; sn_SupplierID := 2; Title := "New Restock Payment";
           Message := "other"; RelatedEntityType := "Payment"; RelatedEntityID := 3;
           IsRead := false; CreatedAt := "2024-04-30 08:00:00" |};
        {| NotificationID := 4; sn_SupplierID := 1; Title := "New Restock Payment";
           Message := "third"; RelatedEntityType := "Payment"; RelatedEntityID := 4;
           IsRead := false; CreatedAt := "2024-04-30 08:00:00" |}]
       pharmacy_tables).

(** The session of a browser tab nobody has logged in from. *)
Definition no_session : session_state :=
  {| retail_pharmacist_logged_in := None; session_pharmacy_id := None;
     supplier_logged_in := None; session_supplier_id := None |}.

(** * Proofs *)

Arguments next_rowid : simpl never.
Arguments String.append : simpl never.
Arguments str : simpl never.
Arguments multiply : simpl never.
Arguments live : simpl never.

(** Case analysis on the next entry of the oracle: exhausted, a failure,
    or none. *)
Ltac oracle fs :=
  let e := fresh "e" in
  let fs' := fresh "fs" in
  destruct fs as [| [e |] fs'].

Ltac conjs := repeat match goal with |- _ /\ _ => split end.

Ltac expose_world w :=
  let cm := fresh "cm" in
  let wk := fresh "wk" in
  let ca := fresh "ca" in
  let ck := fresh "ck" in
  let nw := fresh "nw" in
  destruct w as [[cm wk] ca ck nw].

(** One step of a symbolic run: the next oracle entry, a row lookup, a
    stock comparison or the payment-method memo. *)
Ltac run_step :=
  match goal with
  | |- context [next_fault ?fs] => is_var fs; oracle fs; cbn [next_fault]
  | |- context [find ?f ?l] => destruct (find f l) as [?d |] eqn:?
  | |- context [Z.ltb ?a ?b] => destruct (Z.ltb a b) eqn:?
  | |- context [memo_fetch_payment_methods ?c] =>
      destruct (memo_fetch_payment_methods c) as [?dict |] eqn:?
  | |- context [live ?ttl ?stored ?current] => destruct (live ttl stored current) eqn:?
  | |- context [multiply ?a ?b] => destruct (multiply a b) as [?amount | ?e] eqn:?
  end.

Ltac unfold_order :=
  unfold add_new_order, update_stock_after_order, fetch_payment_methods, cache_data,
    unbound_name, subscript0, datetime_now, lift, try_except, bind, execute, commit, clear,
    ret, raise, select, update_Drugs_stock_minus, update, insert_Order,
    select_drug_by_name, select_price_by_name, option_map;
  cbn [out after oracle conn working committed cache clock now set_working set_cache fst snd].


(** ** Order placement *)

(** [add_new_order] never reports success and never adds a Payments row,
    whatever the store does: the payment step raises before any insert. *)
Lemma add_new_order_adds_no_payment pharmacy_id name items quantity payment_method fs w :
  let r := add_new_order pharmacy_id name items quantity payment_method fs w in
  (exists message, out r = Return (false, message)) /\
  Payments (working (conn (after r))) = Payments (working (conn w)).
Proof.
  cbv zeta. unfold_order.
  repeat (run_step; unfold_order; cbn; try (split; [eexists; reflexivity | reflexivity])).
Qed.

(** With enough stock and no store failure the stock of the ordered drug
    goes down by exactly the quantity, and the decrement is committed. *)
Lemma order_decrements_stock pharmacy_id name items quantity payment_method w d :
  find (fun d => String.eqb (D_Name d) items) (Drugs (working (conn w))) = Some d ->
  quantity <= stock_no d ->
  let r := add_new_order pharmacy_id name items quantity payment_method [] w in
  Drugs (committed (conn (after r))) =
    map (fun d' => if D_id d' =? D_id d then with_stock (stock_no d' - quantity) d' else d')
        (Drugs (working (conn w))) /\
  Drugs (working (conn (after r))) = Drugs (committed (conn (after r))).
Proof.
  intros Hfind Hq. cbv zeta.
  assert (Hlt : (stock_no d <? quantity) = false) by (apply Z.ltb_ge; lia).
  unfold_order. rewrite Hfind. cbn. rewrite Hlt. cbn.
  repeat (run_step; unfold_order; cbn; try (split; reflexivity)).
Qed.

(** C1: an order for 5 units of a drug priced 10.0 with stock 150 is meant
    to leave stock 145, an order record and a Pending payment of 50.0.  The
    code takes the stock to 145 and commits that, inserts the order row
    without committing it, and then fails on the unbound name
    [create_payment]: it returns failure and the store holds no payment. *)
Theorem order_of_five_creates_no_payment :
  let r := add_new_order 7 "Walk-in" "Aspirin" 5 "COD" [] pharmacy_world in
  D_Price aspirin = PyFloat 10 /\ stock_no aspirin = 150 /\
  out r = Return (false, "Error: name 'create_payment' is not defined"%string) /\
  map stock_no (Drugs (committed (conn (after r)))) = [145; 100; 101] /\
  Payments (working (conn (after r))) = [] /\
  Payments (committed (conn (after r))) = [] /\
  map O_Qty (Orders (working (conn (after r)))) = [5] /\
  Orders (committed (conn (after r))) = [].
Proof. cbv zeta. conjs; reflexivity. Qed.

(** C3, as stated, fails: the INSERT INTO Orders hits a locked database
    after the stock step has committed.  The failure is caught and
    reported, and the committed stock of the drug stays at 145 instead
    of 150. *)
Lemma failed_order_keeps_committed_decrement :
  let fs := [None; None; None; Some database_is_locked] in
  let r := add_new_order 7 "Walk-in" "Aspirin" 5 "COD" fs pharmacy_world in
  out r = Return (false, "Error: database is locked"%string) /\
  map stock_no (Drugs (committed (conn pharmacy_world))) = [150; 100; 101] /\
  map stock_no (Drugs (committed (conn (after r)))) = [145; 100; 101] /\
  Orders (working (conn (after r))) = [] /\
  conn (after r) <> conn pharmacy_world.
Proof. cbv zeta. conjs; try reflexivity. intros H. discriminate H. Qed.

(** The stock update keeps every name, so a lookup by name finds the same
    row, with its new stock. *)
Lemma find_by_name_after_stock_update (items : string) (quantity drug_id : Z)
      (rows : list drug) :
  find (fun d => String.eqb (D_Name d) items)
       (map (fun d => if D_id d =? drug_id
                      then with_stock (stock_no d - quantity) d else d) rows) =
  option_map (fun d => if D_id d =? drug_id
                       then with_stock (stock_no d - quantity) d else d)
             (find (fun d => String.eqb (D_Name d) items) rows).
Proof.
  induction rows as [| d rows IH]; [reflexivity |].
  cbn [map find].
  destruct (D_id d =? drug_id) eqn:Hid; cbn [D_Name with_stock];
    destruct (String.eqb (D_Name d) items) eqn:Hname; cbn [option_map];
    try rewrite Hid; try reflexivity; exact IH.
Qed.

(** Rows related one by one by [R] when the second list is the first one
    mapped through a function that relates every row to its image. *)
Lemma Forall2_map_self {A B} (R : A -> B -> Prop) (f : A -> B) (l : list A) :
  (forall x, R x (f x)) -> Forall2 R l (map f l).
Proof.
  intros HR. induction l as [| x l IH]; cbn [map]; constructor; [apply HR | exact IH].
Qed.

(** C3, amended: order placement reports "Drug not found." and changes
    nothing when no drug has the name; reports the insufficient stock and
    changes nothing when the quantity exceeds the stock; and whatever the
    store does, no exception escapes.  A store failure is caught and
    reported with success flag False and a message: a failure of the first
    statement as "Error updating stock: ..." with the world unchanged; with
    the drug found and enough stock, a failure of the UPDATE or of the
    commit of the stock step in the same way with nothing committed, and a
    failure of the INSERT INTO Orders, of the price SELECT or of the
    payment-method SELECT (run when its memo is empty) as "Error: ...".
    Nothing is rolled back: after a failure that follows the stock step the
    committed Drugs table is the one the call started from with the stock
    of the ordered drug lowered by the quantity, and the Orders row of the
    call is not committed. *)
Theorem order_placement_failures
        (pharmacy_id : Z) (name items : string) (quantity : Z) (payment_method : string)
        (w : world) :
  let place := add_new_order pharmacy_id name items quantity payment_method in
  let row := find (fun d => String.eqb (D_Name d) items) (Drugs (working (conn w))) in
  let decrement_committed (d : drug) (r : run (bool * string)) :=
    Forall2 (fun d0 d1 =>
               D_id d1 = D_id d0 /\ D_Name d1 = D_Name d0 /\ D_Price d1 = D_Price d0 /\
               stock_no d1 = if D_id d0 =? D_id d then stock_no d0 - quantity
                             else stock_no d0)
            (Drugs (working (conn w))) (Drugs (committed (conn (after r)))) /\
    Orders (committed (conn (after r))) = Orders (working (conn w)) in
  (forall fs, fst (next_fault fs) = None -> row = None ->
     out (place fs w) = Return (false, "Drug not found."%string) /\
     after (place fs w) = w) /\
  (forall fs d, fst (next_fault fs) = None -> row = Some d -> stock_no d < quantity ->
     out (place fs w) =
       Return (false, "Not enough stock available. Current stock: " +++ str (stock_no d)) /\
     after (place fs w) = w) /\
  (forall fs, exists result, out (place fs w) = Return result) /\
  (forall e fs,
     out (place (Some e :: fs) w) = Return (false, "Error updating stock: " +++ exc_str e) /\
     after (place (Some e :: fs) w) = w) /\
  (forall d k e fs, row = Some d -> quantity <= stock_no d ->
     (1 <= k <= 2)%nat ->
     out (place (repeat None k ++ Some e :: fs) w) =
       Return (false, "Error updating stock: " +++ exc_str e) /\
     committed (conn (after (place (repeat None k ++ Some e :: fs) w))) = committed (conn w)) /\
  (forall d k e fs, row = Some d -> quantity <= stock_no d ->
     (3 <= k <= 4)%nat ->
     out (place (repeat None k ++ Some e :: fs) w) = Return (false, "Error: " +++ exc_str e) /\
     decrement_committed d (place (repeat None k ++ Some e :: fs) w)) /\
  (forall d amount e fs, row = Some d -> quantity <= stock_no d ->
     multiply (D_Price d) quantity = Return amount ->
     memo_fetch_payment_methods (cache w) = None ->
     out (place (repeat None 5 ++ Some e :: fs) w) = Return (false, "Error: " +++ exc_str e) /\
     decrement_committed d (place (repeat None 5 ++ Some e :: fs) w)).
Proof.
  cbv zeta. conjs.
  - intros fs Hf Hrow. expose_world w. cbn [conn working] in *.
    unfold_order. oracle fs; try discriminate Hf; cbn [next_fault]; rewrite Hrow;
      split; reflexivity.
  - intros fs d Hf Hrow Hq. expose_world w. cbn [conn working] in *.
    assert (Hlt : (stock_no d <? quantity) = true) by (apply Z.ltb_lt; lia).
    unfold_order.
    oracle fs; try discriminate Hf; cbn [next_fault]; rewrite Hrow;
      cbn; rewrite Hlt; split; reflexivity.
  - intros fs.
    destruct (add_new_order_adds_no_payment pharmacy_id name items quantity
                payment_method fs w) as [[message Hout] _].
    eexists. exact Hout.
  - intros e fs. split; reflexivity.
  - intros d k e fs Hrow Hq Hk.
    assert (Hcases : k = 1%nat \/ k = 2%nat) by lia.
    assert (Hlt : (stock_no d <? quantity) = false) by (apply Z.ltb_ge; lia).
    destruct Hcases as [-> | ->]; cbn [repeat app]; unfold_order; rewrite Hrow;
      cbn; rewrite Hlt; split; reflexivity.
  - intros d k e fs Hrow Hq Hk.
    assert (Hcases : k = 3%nat \/ k = 4%nat) by lia.
    assert (Hlt : (stock_no d <? quantity) = false) by (apply Z.ltb_ge; lia).
    destruct Hcases as [-> | ->]; cbn [repeat app]; unfold_order; rewrite Hrow;
      cbn; rewrite Hlt; cbn; (split; [reflexivity | split; [| reflexivity]]);
      apply Forall2_map_self; intros d0; destruct (D_id d0 =? D_id d);
      conjs; reflexivity.
  - intros d amount e fs Hrow Hq Hamount Hmemo.
    assert (Hlt : (stock_no d <? quantity) = false) by (apply Z.ltb_ge; lia).
    assert (Hprice : forall d0 : drug,
               D_Price (if D_id d0 =? D_id d
                        then with_stock (stock_no d0 - quantity) d0 else d0) = D_Price d0)
      by (intros d0; destruct (D_id d0 =? D_id d); reflexivity).
    cbn [repeat app]. unfold_order. rewrite Hrow. cbn. rewrite Hlt. cbn.
    rewrite find_by_name_after_stock_update, Hrow. cbn [option_map].
    rewrite Hprice, Hamount. cbn. rewrite Hmemo. cbn.
    split; [reflexivity | split; [| reflexivity]].
    apply Forall2_map_self; intros d0; destruct (D_id d0 =? D_id d); conjs; reflexivity.
Qed.

Lemma order_placement_failures_witness :
  (out (add_new_order 7 "Walk-in" "Paracetamol" 5 "COD" [] pharmacy_world) =
     Return (false, "Drug not found."%string) /\
   after (add_new_order 7 "Walk-in" "Paracetamol" 5 "COD" [] pharmacy_world) =
     pharmacy_world) /\
  (out (add_new_order 7 "Walk-in" "Aspirin" 151 "COD" [] pharmacy_world) =
     Return (false, "Not enough stock available. Current stock: 150"%string) /\
   after (add_new_order 7 "Walk-in" "Aspirin" 151 "COD" [] pharmacy_world) =
     pharmacy_world) /\
  (out (add_new_order 7 "Walk-in" "Aspirin" 5 "COD"
          [None; None; None; Some database_is_locked] pharmacy_world) =
     Return (false, "Error: database is locked"%string) /\
   Forall2 (fun d0 d1 =>
              D_id d1 = D_id d0 /\ D_Name d1 = D_Name d0 /\ D_Price d1 = D_Price d0 /\
              stock_no d1 = if D_id d0 =? 1 then stock_no d0 - 5 else stock_no d0)
           [aspirin; ibuprofen; cetirizine]
           (Drugs (committed (conn (after (add_new_order 7 "Walk-in" "Aspirin" 5 "COD"
               [None; None; None; Some database_is_locked] pharmacy_world))))) /\
   Orders (committed (conn (after (add_new_order 7 "Walk-in" "Aspirin" 5 "COD"
               [None; None; None; Some database_is_locked] pharmacy_world)))) = []) /\
  (out (add_new_order 7 "Walk-in" "Aspirin" 5 "COD"
          [None; None; Some database_is_locked] pharmacy_world) =
     Return (false, "Error updating stock: database is locked"%string) /\
   committed (conn (after (add_new_order 7 "Walk-in" "Aspirin" 5 "COD"
                             [None; None; Some database_is_locked] pharmacy_world))) =
     pharmacy_tables) /\
  (out (add_new_order 7 "Walk-in" "Aspirin" 5 "COD"
          [None; None; None; None; None; Some database_is_locked] pharmacy_world) =
     Return (false, "Error: database is locked"%string) /\
   map stock_no (Drugs (committed (conn (after (add_new_order 7 "Walk-in" "Aspirin" 5 "COD"
          [None; None; None; None; None; Some database_is_locked] pharmacy_world))))) =
     [145; 100; 101]).
Proof.
  split; [| split; [| split; [| split]]].
  - apply (proj1 (order_placement_failures 7 "Walk-in" "Paracetamol" 5 "COD" pharmacy_world));
      reflexivity.
  - apply (proj1 (proj2 (order_placement_failures 7 "Walk-in" "Aspirin" 151 "COD"
                           pharmacy_world)) [] aspirin); [reflexivity | reflexivity | ].
    cbn. lia.
  - apply (proj1 (proj2 (proj2 (proj2 (proj2 (proj2
             (order_placement_failures 7 "Walk-in" "Aspirin" 5 "COD" pharmacy_world))))))
             aspirin 3%nat database_is_locked []); [reflexivity | cbn; lia | lia].
  - apply (proj1 (proj2 (proj2 (proj2 (proj2
             (order_placement_failures 7 "Walk-in" "Aspirin" 5 "COD" pharmacy_world)))))
             aspirin 2%nat database_is_locked []); [reflexivity | cbn; lia | lia].
  - pose proof (proj2 (proj2 (proj2 (proj2 (proj2 (proj2
             (order_placement_failures 7 "Walk-in" "Aspirin" 5 "COD" pharmacy_world))))))
             aspirin (PyFloat 50) database_is_locked [] eq_refl) as H.
    split; [apply H; [cbn; lia | reflexivity | reflexivity] | reflexivity].
Defined.

(** ** Delivery confirmation *)

(** A confirmation that reports success ran without a store failure: its
    final world is the one of the run with no failure. *)
Lemma update_drug_stock_success drug_id fs w m :
  out (update_drug_stock drug_id fs w) = Return (true, m) ->
  after (update_drug_stock drug_id fs w) = after (update_drug_stock drug_id [] w).
Proof.
  intros H.
  oracle fs; [reflexivity | discriminate H | ].
  oracle fs0; [reflexivity | discriminate H | ].
  oracle fs; [reflexivity | discriminate H | ].
  oracle fs0; [reflexivity | discriminate H | reflexivity].
Qed.

(** The subquery of the Tickets update reads the restock orders after their
    own update, which touches neither DrugID nor RestockID. *)
Lemma restock_ids_after_delivery drug_id rs :
  map RestockID (filter (fun r => DrugID r =? drug_id)
     (map (fun r => if DrugID r =? drug_id then delivered r else r) rs))
  = map RestockID (filter (fun r => DrugID r =? drug_id) rs).
Proof.
  induction rs as [| r rs IH]; [reflexivity |].
  cbn [map filter].
  destruct (DrugID r =? drug_id) eqn:E; cbn [DrugID delivered]; rewrite E; cbn [map];
    rewrite IH; reflexivity.
Qed.

Lemma existsb_restock_ids drug_id rs x :
  existsb (Z.eqb x) (map RestockID (filter (fun r => DrugID r =? drug_id) rs)) = true <->
  exists o, In o rs /\ DrugID o = drug_id /\ RestockID o = x.
Proof.
  rewrite existsb_exists. split.
  - intros [y [Hin Heq]]. apply in_map_iff in Hin. destruct Hin as [o [Ho Hin]].
    apply filter_In in Hin. destruct Hin as [Hin Hd].
    exists o. conjs; [assumption | lia | lia].
  - intros [o [Hin [Hd Hx]]]. exists x. split; [| lia].
    apply in_map_iff. exists o. split; [assumption |].
    apply filter_In. split; [assumption | lia].
Qed.

(** With no store failure a confirmation rewrites the three tables row by
    row and commits. *)
Lemma update_drug_stock_tables drug_id w :
  let r := update_drug_stock drug_id [] w in
  let t := working (conn w) in
  let t' := working (conn (after r)) in
  Drugs t' = map (fun d => if D_id d =? drug_id then with_stock 200 d else d) (Drugs t) /\
  RestockOrders t' =
    map (fun o => if DrugID o =? drug_id then delivered o else o) (RestockOrders t) /\
  Tickets t' =
    map (fun k => if existsb (Z.eqb (tk_RestockID k)) (restock_ids_of_drug drug_id t)
                  then closed k else k) (Tickets t) /\
  committed (conn (after r)) = t'.
Proof.
  cbv zeta. conjs; try reflexivity.
  cbn. unfold restock_ids_of_drug.
  cbn [RestockOrders]. rewrite restock_ids_after_delivery. reflexivity.
Qed.

(** The subquery of the Tickets update, as a test on the restock orders. *)
Lemma restock_ids_test drug_id (x : Z) (rs : list restock_order) :
  existsb (Z.eqb x) (map RestockID (filter (fun r => DrugID r =? drug_id) rs)) =
  existsb (fun o => (DrugID o =? drug_id) && (RestockID o =? x)) rs.
Proof.
  induction rs as [| o rs IH]; [reflexivity |].
  cbn [filter existsb]. destruct (DrugID o =? drug_id); cbn [map existsb andb orb].
  - rewrite IH, (Z.eqb_sym x). reflexivity.
  - exact IH.
Qed.

(** C9: with no store failure, [update_drug_stock d] reports success and
    rewrites exactly three tables, row by row and in place.  Every Drugs row
    with D_id d gets stock 200, whether or not a restock order for d exists;
    every RestockOrders row with DrugID d, whatever its status, gets status
    Delivered and payment status Completed; every Tickets row whose
    RestockID is that of a restock order for d gets status Closed.  Every
    other column of these rows, all other rows of these tables and all
    other tables are as before, and the result is committed. *)
Theorem update_drug_stock_frame drug_id w :
  let r := update_drug_stock drug_id [] w in
  let t := working (conn w) in
  let t' := working (conn (after r)) in
  out r = Return (true, "Stock updated to 200 and restock status updated!"%string) /\
  Forall2 (fun d d' =>
             D_id d' = D_id d /\ D_Name d' = D_Name d /\ D_Price d' = D_Price d /\
             stock_no d' = if D_id d =? drug_id then 200 else stock_no d)
          (Drugs t) (Drugs t') /\
  Forall2 (fun o o' =>
             RestockID o' = RestockID o /\ ro_SupplierID o' = ro_SupplierID o /\
             DrugID o' = DrugID o /\ Quantity o' = Quantity o /\
             ro_Status o' = (if DrugID o =? drug_id then "Delivered"%string
                             else ro_Status o) /\
             PaymentStatus o' = (if DrugID o =? drug_id then Some "Completed"%string
                                 else PaymentStatus o))
          (RestockOrders t) (RestockOrders t') /\
  Forall2 (fun k k' =>
             TicketID k' = TicketID k /\ tk_RestockID k' = tk_RestockID k /\
             tk_SupplierID k' = tk_SupplierID k /\
             tk_Status k' =
               if existsb (fun o => (DrugID o =? drug_id) && (RestockID o =? tk_RestockID k))
                          (RestockOrders t)
               then "Closed"%string else tk_Status k)
          (Tickets t) (Tickets t') /\
  (Customers t' = Customers t /\ Orders t' = Orders t /\ Suppliers t' = Suppliers t /\
   RetailPharmacies t' = RetailPharmacies t /\ Payments t' = Payments t /\
   PaymentMethods t' = PaymentMethods t /\ PharmacyPayments t' = PharmacyPayments t /\
   SupplierNotifications t' = SupplierNotifications t) /\
  committed (conn (after r)) = t'.
Proof.
  cbv zeta.
  destruct (update_drug_stock_tables drug_id w) as (HD & HR & HT & HC).
  cbv zeta in HD, HR, HT, HC. rewrite HD, HR, HT, HC. clear HD HR HT HC.
  split; [reflexivity |]. split; [| split; [| split; [| split; [| reflexivity]]]].
  - apply Forall2_map_self. intros d. destruct (D_id d =? drug_id); conjs; reflexivity.
  - apply Forall2_map_self. intros o. destruct (DrugID o =? drug_id); conjs; reflexivity.
  - apply Forall2_map_self. intros k. unfold restock_ids_of_drug.
    rewrite restock_ids_test.
    destruct (existsb (fun o => (DrugID o =? drug_id) && (RestockID o =? tk_RestockID k))
                      (RestockOrders (working (conn w)))); conjs; reflexivity.
  - conjs; reflexivity.
Qed.

(** C2: after a restock confirmation for drug d that reports success, the
    drug's row has stock 200; each restock order for d is Delivered with
    payment status Completed; each ticket that references such a restock
    order is Closed; and this state is the committed one. *)
Theorem restock_confirmation drug_id fs w m :
  let r := update_drug_stock drug_id fs w in
  let t := working (conn w) in
  let t' := working (conn (after r)) in
  out r = Return (true, m) ->
  (forall d, In d (Drugs t) -> D_id d = drug_id -> In (with_stock 200 d) (Drugs t')) /\
  (forall d, In d (Drugs t') -> D_id d = drug_id -> stock_no d = 200) /\
  (forall o, In o (RestockOrders t) -> DrugID o = drug_id ->
             In (delivered o) (RestockOrders t')) /\
  (forall o, In o (RestockOrders t') -> DrugID o = drug_id ->
             ro_Status o = "Delivered"%string /\
             PaymentStatus o = Some "Completed"%string) /\
  (forall o k, In o (RestockOrders t) -> DrugID o = drug_id ->
               In k (Tickets t) -> tk_RestockID k = RestockID o ->
               In (closed k) (Tickets t')) /\
  (forall o k, In o (RestockOrders t') -> DrugID o = drug_id ->
               In k (Tickets t') -> tk_RestockID k = RestockID o ->
               tk_Status k = "Closed"%string) /\
  committed (conn (after r)) = t'.
Proof.
  cbv zeta. intros H.
  rewrite (update_drug_stock_success _ _ _ _ H).
  destruct (update_drug_stock_tables drug_id w) as (HD & HR & HT & HC).
  cbv zeta in HD, HR, HT, HC. rewrite HD, HR, HT, HC. clear HD HR HT HC H.
  set (t := working (conn w)).
  assert (Hdel : forall o, In o (map (fun o => if DrugID o =? drug_id then delivered o else o)
                                     (RestockOrders t)) ->
                           DrugID o = drug_id ->
                           exists o0, In o0 (RestockOrders t) /\ DrugID o0 = drug_id /\
                                      o = delivered o0).
  { intros o Hin Hd. apply in_map_iff in Hin. destruct Hin as [o0 [Ho Hin]].
    exists o0. destruct (DrugID o0 =? drug_id) eqn:E.
    - subst o. conjs; [assumption | lia | reflexivity].
    - subst o. lia. }
  conjs.
  - intros d Hin Hd. apply in_map_iff. exists d. split; [| assumption].
    apply Z.eqb_eq in Hd. rewrite Hd. reflexivity.
  - intros d Hin Hd. apply in_map_iff in Hin. destruct Hin as [d0 [Hd0 _]].
    destruct (D_id d0 =? drug_id) eqn:E; subst d; [reflexivity | lia].
  - intros o Hin Hd. apply in_map_iff. exists o. split; [| assumption].
    apply Z.eqb_eq in Hd. rewrite Hd. reflexivity.
  - intros o Hin Hd. destruct (Hdel o Hin Hd) as (o0 & _ & _ & ->). split; reflexivity.
  - intros o k Hin Hd Hk Hr. apply in_map_iff. exists k. split; [| assumption].
    replace (existsb (Z.eqb (tk_RestockID k)) (restock_ids_of_drug drug_id t)) with true;
      [reflexivity |].
    symmetry. apply existsb_restock_ids. exists o. conjs; auto.
  - intros o k Hin Hd Hk Hr.
    destruct (Hdel o Hin Hd) as (o0 & Hin0 & Hd0 & ->).
    apply in_map_iff in Hk. destruct Hk as [k0 [Hk0 Hk]].
    assert (E : existsb (Z.eqb (tk_RestockID k0)) (restock_ids_of_drug drug_id t) = true).
    { apply existsb_restock_ids. exists o0. conjs; auto.
      destruct (existsb (Z.eqb (tk_RestockID k0)) (restock_ids_of_drug drug_id t));
        subst k; cbn in Hr; auto. }
    rewrite E in Hk0. subst k. reflexivity.
  - reflexivity.
Qed.

Lemma restock_confirmation_witness :
  let r := update_drug_stock 2 [] pharmacy_world in
  out r = Return (true, "Stock updated to 200 and restock status updated!"%string) /\
  In (with_stock 200 ibuprofen) (Drugs (working (conn (after r)))) /\
  (forall k, In k (Tickets (working (conn (after r)))) -> tk_RestockID k = 1 ->
             tk_Status k = "Closed"%string) /\
  committed (conn (after r)) = working (conn (after r)).
Proof.
  cbv zeta. split; [reflexivity |].
  destruct (restock_confirmation 2 [] pharmacy_world _ eq_refl)
    as (H1 & _ & _ & _ & _ & H6 & H7).
  conjs.
  - apply (H1 ibuprofen); [cbn; auto | reflexivity].
  - intros k Hk Hr.
    apply (H6 (delivered {| RestockID := 1; ro_SupplierID := 1; DrugID := 2;
                            Quantity := 50; ro_Status := "Pending";
                            PaymentStatus := Some "Pending"%string |}) k);
      [cbn; auto | reflexivity | exact Hk | exact Hr].
  - exact H7.
Defined.

(** ** Restock order and ticket *)

(** C10, as stated, fails: the second insert hits a locked database.  The
    call reports failure and commits nothing, but the RestockOrders row of
    the first insert is not taken back: it stays in the open transaction of
    the shared connection, and the next commit, here the one of a delivery
    confirmation for another drug, makes it permanent without a ticket. *)
Lemma pending_restock_order_is_committed_later :
  let r := create_restock_order 1 1 30 7 [None; Some database_is_locked] pharmacy_world in
  let r' := update_drug_stock 3 [] (after r) in
  out r = Return (false, "Error creating restock order: database is locked"%string,
                  None, None) /\
  map RestockID (RestockOrders (committed (conn (after r)))) = [1; 2] /\
  map RestockID (RestockOrders (working (conn (after r)))) = [1; 2; 3] /\
  out r' = Return (true, "Stock updated to 200 and restock status updated!"%string) /\
  map RestockID (RestockOrders (committed (conn (after r')))) = [1; 2; 3] /\
  map tk_RestockID (Tickets (committed (conn (after r')))) = [1; 2].
Proof. cbv zeta. conjs; reflexivity. Qed.

(** C10, amended: [create_restock_order] has one commit, after both
    inserts.  A run that reports success has added one RestockOrders row
    (the new restock id, status Pending, payment status NULL) and one
    Tickets row (that restock id, status Open) to the store, changed no
    other table, and committed both rows; it does so when neither insert
    nor the commit fails.  Every other run reports failure with the
    committed store as before the call.  Nothing is rolled back: a failure
    of the first insert changes nothing, but after a failure of the second
    insert the RestockOrders row stays in the open transaction without a
    ticket and the next commit on the connection persists it alone, and
    after a failure of the commit both rows stay in the open transaction. *)
Theorem restock_order_and_ticket_share_one_commit
        (supplier_id drug_id quantity pharmacy_id : Z) (w : world) :
  let t := working (conn w) in
  let restock_id := next_rowid (map RestockID (RestockOrders t)) in
  let new_order := {| RestockID := restock_id; ro_SupplierID := supplier_id;
                      DrugID := drug_id; Quantity := quantity;
                      ro_Status := "Pending"; PaymentStatus := None |} in
  let new_ticket := {| TicketID := next_rowid (map TicketID (Tickets t));
                       tk_RestockID := restock_id; tk_SupplierID := supplier_id;
                       tk_Status := "Open" |} in
  let create := create_restock_order supplier_id drug_id quantity pharmacy_id in
  let others_unchanged (t' : tables) :=
    Drugs t' = Drugs t /\ Customers t' = Customers t /\ Orders t' = Orders t /\
    Suppliers t' = Suppliers t /\ RetailPharmacies t' = RetailPharmacies t /\
    Payments t' = Payments t /\ PaymentMethods t' = PaymentMethods t /\
    PharmacyPayments t' = PharmacyPayments t /\
    SupplierNotifications t' = SupplierNotifications t in
  (forall fs message rid did, out (create fs w) = Return (true, message, rid, did) ->
     message = "Restock order and ticket created successfully!"%string /\
     rid = Some restock_id /\ did = Some drug_id /\
     RestockOrders (committed (conn (after (create fs w)))) = RestockOrders t ++ [new_order] /\
     Tickets (committed (conn (after (create fs w)))) = Tickets t ++ [new_ticket] /\
     others_unchanged (committed (conn (after (create fs w)))) /\
     working (conn (after (create fs w))) = committed (conn (after (create fs w)))) /\
  (forall fs, Forall (eq None) (firstn 3 fs) ->
     out (create fs w) =
       Return (true, "Restock order and ticket created successfully!"%string,
               Some restock_id, Some drug_id)) /\
  (forall fs,
     (exists message rid did, out (create fs w) = Return (true, message, rid, did)) \/
     (exists message, out (create fs w) = Return (false, message, None, None) /\
                      committed (conn (after (create fs w))) = committed (conn w))) /\
  (forall e fs,
     let r := create (Some e :: fs) w in
     out r = Return (false, "Error creating restock order: " +++ exc_str e, None, None) /\
     after r = w) /\
  (forall e fs,
     let r := create (None :: Some e :: fs) w in
     let r' := commit [] (after r) in
     out r = Return (false, "Error creating restock order: " +++ exc_str e, None, None) /\
     committed (conn (after r)) = committed (conn w) /\
     RestockOrders (working (conn (after r))) = RestockOrders t ++ [new_order] /\
     Tickets (working (conn (after r))) = Tickets t /\
     out r' = Return tt /\
     RestockOrders (committed (conn (after r'))) = RestockOrders t ++ [new_order] /\
     Tickets (committed (conn (after r'))) = Tickets t) /\
  (forall e fs,
     let r := create (None :: None :: Some e :: fs) w in
     out r = Return (false, "Error creating restock order: " +++ exc_str e, None, None) /\
     committed (conn (after r)) = committed (conn w) /\
     RestockOrders (working (conn (after r))) = RestockOrders t ++ [new_order] /\
     Tickets (working (conn (after r))) = Tickets t ++ [new_ticket]).
Proof.
  cbv zeta. conjs.
  - intros fs message rid did H.
    oracle fs; [| discriminate H |].
    { injection H as <- <- <-. conjs; reflexivity. }
    oracle fs0; [| discriminate H |].
    { injection H as <- <- <-. conjs; reflexivity. }
    oracle fs; [| discriminate H |];
      injection H as <- <- <-; conjs; reflexivity.
  - intros fs H.
    oracle fs; [reflexivity | inversion H; discriminate |].
    oracle fs0; [reflexivity | inversion H as [| ? ? ? H']; inversion H'; discriminate |].
    oracle fs; [reflexivity | | reflexivity].
    inversion H as [| ? ? ? H']; inversion H' as [| ? ? ? H'']; inversion H''; discriminate.
  - intros fs.
    oracle fs; [left; do 3 eexists; reflexivity | right; eexists; split; reflexivity |].
    oracle fs0; [left; do 3 eexists; reflexivity | right; eexists; split; reflexivity |].
    oracle fs; [left; do 3 eexists; reflexivity | right; eexists; split; reflexivity |].
    left; do 3 eexists; reflexivity.
  - intros e fs. split; reflexivity.
  - intros e fs. conjs; reflexivity.
  - intros e fs. conjs; reflexivity.
Qed.

Lemma restock_order_and_ticket_share_one_commit_witness :
  let r := create_restock_order 1 1 30 7 [] pharmacy_world in
  out r = Return (true, "Restock order and ticket created successfully!"%string,
                  Some 3, Some 1) /\
  RestockOrders (committed (conn (after r))) =
    RestockOrders pharmacy_tables ++
    [{| RestockID := 3; ro_SupplierID := 1; DrugID := 1; Quantity := 30;
        ro_Status := "Pending"; PaymentStatus := None |}] /\
  Tickets (committed (conn (after r))) =
    Tickets pharmacy_tables ++
    [{| TicketID := 3; tk_RestockID := 3; tk_SupplierID := 1; tk_Status := "Open" |}].
Proof.
  cbv zeta.
  pose proof (restock_order_and_ticket_share_one_commit 1 1 30 7 pharmacy_world)
    as (Hrows & Hruns & _).
  pose proof (Hruns [] (Forall_nil _)) as Hout.
  destruct (Hrows [] _ _ _ Hout) as (_ & _ & _ & Horders & Htickets & _).
  conjs; [exact Hout | exact Horders | exact Htickets].
Defined.

(** ** Payments *)





(** ** Memo invalidation *)

(** C7: a workflow that writes a table is meant to clear the memo of its
    reads before it reports success.  [create_restock_payment] inserts into
    Payments and SupplierNotifications and updates RestockOrders, reports
    success and clears nothing: the three memoised reads still return what
    they held before the call, which is no longer what the store holds. *)
Theorem restock_payment_leaves_memos_stale :
  let r := create_restock_payment show_fraction 7 1 (PyFloat 60) 2 2 "Pending"
             (Some "Restock for Cetirizine"%string) [] warmed_world in
  let w' := after r in
  out r = Return (true, "Payment created successfully!"%string, Some 1) /\
  cache w' = cache warmed_world /\
  out (fetch_all_payments [] w') = Return [] /\
  map Amount (Payments (committed (conn w'))) = [PyFloat 60] /\
  map PaymentStatus (RestockOrders (committed (conn w'))) =
    [Some "Pending"%string; Some "Pending"%string] /\
  option_map (map PaymentStatus) (memo_fetch_all_restock_orders (cache w')) =
    Some [Some "Pending"%string; None] /\
  out (fetch_all_restock_orders [] w') = Return (RestockOrders pharmacy_tables) /\
  out (fetch_supplier_notifications 1 [] w') = Return [] /\
  map Title (SupplierNotifications (committed (conn w'))) = ["New Restock Payment"%string].
Proof. cbv zeta. conjs; vm_compute; reflexivity. Qed.

(** The stock step of an order writes Drugs, clears the memo of
    [fetch_all_drugs] and reports success, but leaves the memo of
    [check_low_stock]: a drug that the order took from 101 to 100 is
    missing from the memoised low-stock rows. *)
Lemma stock_step_leaves_low_stock_memo_stale :
  let r := update_stock_after_order "Cetirizine" 1 [] warmed_world in
  out r = Return (true, "Stock updated successfully."%string) /\
  map stock_no (Drugs (committed (conn (after r)))) = [150; 100; 100] /\
  out (check_low_stock [] (after r)) = Return [ibuprofen].
Proof. cbv zeta. conjs; reflexivity. Qed.

(** ** Low stock *)

(** C5: on an empty memo [check_low_stock] returns exactly the Drugs rows
    whose stock is at most 100: a drug with stock 100 is in the result and a
    drug with stock 101 is not. *)
Theorem check_low_stock_threshold w :
  memo_check_low_stock (cache w) = None ->
  exists low_stock_items,
    out (check_low_stock [] w) = Return low_stock_items /\
    low_stock_items = filter (fun d => stock_no d <=? 100) (Drugs (working (conn w))) /\
    forall d, In d (Drugs (working (conn w))) ->
      (In d low_stock_items <-> stock_no d <= 100) /\
      (stock_no d = 100 -> In d low_stock_items) /\
      (stock_no d = 101 -> ~ In d low_stock_items).
Proof.
  intros Hmemo.
  exists (filter (fun d => stock_no d <=? 100) (Drugs (working (conn w)))).
  conjs.
  - unfold check_low_stock, cache_data. rewrite Hmemo. reflexivity.
  - reflexivity.
  - intros d Hd.
    assert (Hiff : In d (filter (fun d => stock_no d <=? 100) (Drugs (working (conn w))))
                   <-> stock_no d <= 100).
    { rewrite filter_In, Z.leb_le. tauto. }
    split; [exact Hiff |]. split; intros E; rewrite Hiff; lia.
Qed.

Lemma check_low_stock_threshold_witness :
  exists low_stock_items,
    out (check_low_stock [] pharmacy_world) = Return low_stock_items /\
    In ibuprofen low_stock_items /\ ~ In cetirizine low_stock_items.
Proof.
  destruct (check_low_stock_threshold pharmacy_world eq_refl) as (rows & Hout & _ & Hrows).
  exists rows. split; [exact Hout |]. split.
  - apply (Hrows ibuprofen); [cbn; auto | reflexivity].
  - apply (Hrows cetirizine); [cbn; auto | reflexivity].
Defined.

(** ** Duplicate emails *)

Lemma existsb_email {A} (email_of : A -> string) (email : string) (rows : list A) :
  (exists r, In r rows /\ email_of r = email) ->
  existsb (fun r => String.eqb (email_of r) email) rows = true.
Proof.
  intros [r [Hin He]]. apply existsb_exists. exists r. split; [assumption |].
  apply String.eqb_eq. assumption.
Qed.

Lemma next_fault_none fs :
  fst (next_fault fs) = None -> next_fault fs = (None, snd (next_fault fs)).
Proof. destruct (next_fault fs) as [f fs']. cbn. intros ->. reflexivity. Qed.

(** C6: when the email is already in the table and the INSERT meets no other
    store failure, [add_new_customer], [add_new_supplier] and
    [add_new_retail_pharmacist] each return failure with the message
    "Error: Email already exists." and leave the world, store and memos, as
    it was: no row is inserted. *)
Theorem duplicate_email_is_refused
        (name password email state number contact_number address phone_number : string)
        (billing_address tax_id : option string) (fs : faults) (w : world) :
  fst (next_fault fs) = None ->
  ((exists c, In c (Customers (working (conn w))) /\ C_Email c = email) ->
   let r := add_new_customer name password email state number fs w in
   out r = Return (false, "Error: Email already exists."%string) /\ after r = w) /\
  ((exists s, In s (Suppliers (working (conn w))) /\ ContactEmail s = email) ->
   let r := add_new_supplier name email contact_number address password fs w in
   out r = Return (false, "Error: Email already exists."%string, None) /\ after r = w) /\
  ((exists p, In p (RetailPharmacies (working (conn w))) /\ PharmacyEmail p = email) ->
   let r := add_new_retail_pharmacist name email password address phone_number
                                      billing_address tax_id fs w in
   out r = Return (false, "Error: Email already exists."%string, None) /\ after r = w).
Proof.
  intros Hf. apply next_fault_none in Hf.
  conjs; intros Hdup; apply existsb_email in Hdup; cbv zeta.
  - unfold add_new_customer, try_except, bind, execute, insert_Customer.
    rewrite Hf, Hdup. split; reflexivity.
  - unfold add_new_supplier, try_except, bind, execute, insert_Supplier.
    rewrite Hf, Hdup. split; reflexivity.
  - unfold add_new_retail_pharmacist, try_except, bind, execute, insert_RetailPharmacy.
    rewrite Hf, Hdup. split; reflexivity.
Qed.

Lemma duplicate_email_is_refused_witness :
  (out (add_new_customer "Asha B" "pw2" "asha@example.org" "TN" "101" [] pharmacy_world) =
     Return (false, "Error: Email already exists."%string) /\
   after (add_new_customer "Asha B" "pw2" "asha@example.org" "TN" "101" [] pharmacy_world) =
     pharmacy_world) /\
  (out (add_new_supplier "MedSupply 2" "sales@medsupply.example" "201" "3 Depot Road" "pw2"
                         [] pharmacy_world) =
     Return (false, "Error: Email already exists."%string, None) /\
   after (add_new_supplier "MedSupply 2" "sales@medsupply.example" "201" "3 Depot Road"
                           "pw2" [] pharmacy_world) = pharmacy_world) /\
  (out (add_new_retail_pharmacist "Corner 2" "corner@example.org" "pw2" "4 High Street"
                                  "301" None None [] pharmacy_world) =
     Return (false, "Error: Email already exists."%string, None) /\
   after (add_new_retail_pharmacist "Corner 2" "corner@example.org" "pw2" "4 High Street"
                                    "301" None None [] pharmacy_world) = pharmacy_world).
Proof.
  conjs.
  - apply (duplicate_email_is_refused "Asha B" "pw2" "asha@example.org" "TN" "101"
             "" "" "" None None [] pharmacy_world eq_refl).
    eexists. split; [left; reflexivity | reflexivity].
  - apply (duplicate_email_is_refused "Asha B" "pw2" "asha@example.org" "TN" "101"
             "" "" "" None None [] pharmacy_world eq_refl).
    eexists. split; [left; reflexivity | reflexivity].
  - apply (proj1 (proj2 (duplicate_email_is_refused "MedSupply 2" "pw2"
             "sales@medsupply.example" "" "" "201" "3 Depot Road" "" None None []
             pharmacy_world eq_refl))).
    eexists. split; [left; reflexivity | reflexivity].
  - apply (proj1 (proj2 (duplicate_email_is_refused "MedSupply 2" "pw2"
             "sales@medsupply.example" "" "" "201" "3 Depot Road" "" None None []
             pharmacy_world eq_refl))).
    eexists. split; [left; reflexivity | reflexivity].
  - apply (proj2 (proj2 (duplicate_email_is_refused "Corner 2" "pw2"
             "corner@example.org" "" "" "" "4 High Street" "301" None None []
             pharmacy_world eq_refl))).
    eexists. split; [left; reflexivity | reflexivity].
  - apply (proj2 (proj2 (duplicate_email_is_refused "Corner 2" "pw2"
             "corner@example.org" "" "" "" "4 High Street" "301" None None []
             pharmacy_world eq_refl))).
    eexists. split; [left; reflexivity | reflexivity].
Defined.

(** ** Seeding *)

(** C8: with no store failure, [initialize_payment_methods] on an empty
    PaymentMethods table inserts exactly the four rows COD, UPI, Net Banking
    and Studd and commits them; on a non-empty table it changes nothing;
    and running it a second time leaves the world of the first run. *)
Theorem seeding_is_idempotent w :
  let r := initialize_payment_methods [] w in
  out r = Return tt /\
  (PaymentMethods (working (conn w)) = [] ->
   PaymentMethods (working (conn (after r))) = seeded_methods /\
   map MethodName (PaymentMethods (working (conn (after r)))) =
     ["COD"; "UPI"; "Net Banking"; "Studd"]%string /\
   List.length (PaymentMethods (working (conn (after r)))) = 4%nat /\
   committed (conn (after r)) = working (conn (after r))) /\
  (PaymentMethods (working (conn w)) <> [] -> after r = w) /\
  after (initialize_payment_methods [] (after r)) = after r.
Proof.
  cbv zeta. expose_world w. cbn [conn working].
  unfold initialize_payment_methods, bind, execute, select, count_PaymentMethods.
  cbn [next_fault out after oracle conn working set_working committed cache clock].
  destruct (PaymentMethods wk) as [| m ms] eqn:E.
  - cbn. rewrite E. cbn. conjs; try reflexivity.
    + intros _. conjs; reflexivity.
    + intros H; contradiction H; reflexivity.
  - cbn [List.length]. rewrite Nat2Z.inj_succ.
    replace (Z.succ (Z.of_nat (List.length ms)) =? 0) with false
      by (symmetry; apply Z.eqb_neq; lia).
    cbn. rewrite E. cbn [List.length]. rewrite Nat2Z.inj_succ.
    replace (Z.succ (Z.of_nat (List.length ms)) =? 0) with false
      by (symmetry; apply Z.eqb_neq; lia).
    cbn. conjs; try reflexivity. intros H; discriminate H.
Qed.

Lemma seeding_is_idempotent_witness :
  (PaymentMethods (working (conn (after (initialize_payment_methods []
                                           (fresh_world empty_tables))))) = seeded_methods) /\
  after (initialize_payment_methods [] pharmacy_world) = pharmacy_world.
Proof.
  split.
  - apply (proj1 (proj2 (seeding_is_idempotent (fresh_world empty_tables)))).
    reflexivity.
  - apply (proj1 (proj2 (proj2 (seeding_is_idempotent pharmacy_world)))).
    discriminate.
Defined.

(** * Further properties of the workflows *)

(** ** Registration *)

Lemma existsb_email_fresh {A} (email_of : A -> string) (email : string) (rows : list A) :
  (forall r, In r rows -> email_of r <> email) ->
  existsb (fun r => String.eqb (email_of r) email) rows = false.
Proof.
  intros Hfresh. apply not_true_is_false. intros H.
  apply existsb_exists in H. destruct H as [r [Hin He]].
  apply String.eqb_eq in He. exact (Hfresh r Hin He).
Qed.

Lemma existsb_email_last {A} (email_of : A -> string) (rows : list A) (row : A) :
  existsb (fun r => String.eqb (email_of r) (email_of row)) (rows ++ [row]) = true.
Proof.
  rewrite existsb_app. cbn. rewrite String.eqb_refl. apply orb_true_iff. right. reflexivity.
Qed.

Lemma find_email_fresh {A} (email_of : A -> string) (email : string) (rows : list A) (row : A) :
  (forall r, In r rows -> email_of r <> email) ->
  email_of row = email ->
  find (fun r => String.eqb (email_of r) email) (rows ++ [row]) = Some row.
Proof.
  intros Hfresh Hrow. induction rows as [| r rows IH]; cbn.
  - rewrite Hrow, String.eqb_refl. reflexivity.
  - destruct (String.eqb (email_of r) email) eqn:E.
    + apply String.eqb_eq in E. exfalso. apply (Hfresh r); [left; reflexivity | exact E].
    + apply IH. intros r' Hin. apply Hfresh. right. exact Hin.
Qed.

Lemma NoDup_email_snoc {A} (email_of : A -> string) (rows : list A) (row : A) :
  NoDup (map email_of rows) ->
  existsb (fun r => String.eqb (email_of r) (email_of row)) rows = false ->
  NoDup (map email_of (rows ++ [row])).
Proof.
  intros Hnd Hfresh. rewrite map_app. cbn [map].
  apply NoDup_app; [exact Hnd | repeat constructor; intros [] | ].
  intros e Hin [He | []]. subst e.
  apply in_map_iff in Hin. destruct Hin as [r [He Hin]].
  assert (Htrue : existsb (fun r => String.eqb (email_of r) (email_of row)) rows = true).
  { apply existsb_exists. exists r. split; [exact Hin | apply String.eqb_eq; exact He]. }
  rewrite Htrue in Hfresh. discriminate Hfresh.
Qed.

(** X1: with an email no customer has and no store failure,
    [add_new_customer] reports success, appends exactly one row with the
    given fields and a new id, commits it and clears the memo, so that
    [fetch_all_customers] returns the new table; a second registration with
    the same email is then refused and changes nothing. *)
Theorem add_new_customer_registers_once
        (name password email state number name' password' state' number' : string)
        (w : world) :
  (forall c, In c (Customers (working (conn w))) -> C_Email c <> email) ->
  let r := add_new_customer name password email state number [] w in
  let row := {| C_id := next_rowid (map C_id (Customers (working (conn w))));
                C_Name := name; C_Password := password; C_Email := email;
                C_State := state; C_Number := number |} in
  out r = Return (true, "Customer added successfully!"%string) /\
  Customers (working (conn (after r))) = Customers (working (conn w)) ++ [row] /\
  committed (conn (after r)) = working (conn (after r)) /\
  out (fetch_all_customers [] (after r)) = Return (Customers (working (conn w)) ++ [row]) /\
  (let r' := add_new_customer name' password' email state' number' [] (after r) in
   out r' = Return (false, "Error: Email already exists."%string) /\
   after r' = after r).
Proof.
  intros Hfresh. cbv zeta.
  apply (existsb_email_fresh C_Email) in Hfresh.
  pose proof (existsb_email_last C_Email (Customers (working (conn w)))
       {| C_id := next_rowid (map C_id (Customers (working (conn w))));
          C_Name := name; C_Password := password; C_Email := email;
          C_State := state; C_Number := number |}) as Hlast.
  cbn [C_Email] in Hlast.
  unfold add_new_customer, try_except, bind, execute, insert_Customer.
  cbn [next_fault]. rewrite Hfresh. cbn.
  conjs; try reflexivity; rewrite Hlast; reflexivity.
Qed.

Lemma add_new_customer_registers_once_witness :
  let r := add_new_customer "Ben" "pw" "ben@example.org" "MH" "102" [] pharmacy_world in
  out r = Return (true, "Customer added successfully!"%string) /\
  out (add_new_customer "Ben B" "pw2" "ben@example.org" "GA" "103" [] (after r)) =
    Return (false, "Error: Email already exists."%string).
Proof.
  cbv zeta.
  assert (Hfresh : forall c, In c (Customers (working (conn pharmacy_world))) ->
                             C_Email c <> "ben@example.org"%string).
  { intros c [<- | []]. discriminate. }
  destruct (add_new_customer_registers_once "Ben" "pw" "ben@example.org" "MH" "102"
              "Ben B" "pw2" "GA" "103" pharmacy_world Hfresh) as (H1 & _ & _ & _ & H5 & _).
  split; [exact H1 | exact H5].
Defined.

Ltac signup_step :=
  match goal with
  | |- context [next_fault ?fs] => is_var fs; oracle fs; cbn [next_fault]
  | |- context [memo_fetch_payment_methods ?c] =>
      destruct (memo_fetch_payment_methods c) as [?dict |] eqn:?
  | |- context [live ?ttl ?stored ?current] => destruct (live ttl stored current) eqn:?
  | |- context [dict_get ?k ?d] => destruct (dict_get k d) as [?cod |] eqn:?
  | |- context [is_IntegrityError ?e] => destruct (is_IntegrityError e) eqn:?
  end.

(** X2: whatever the store does, [add_new_customer], [add_new_supplier] and
    [add_new_retail_pharmacist] keep the emails of their table pairwise
    distinct. *)
Theorem emails_stay_unique
        (name password email state number contact_number address phone_number : string)
        (billing_address tax_id : option string) (fs : faults) (w : world) :
  (NoDup (map C_Email (Customers (working (conn w)))) ->
   NoDup (map C_Email (Customers (working (conn (after
     (add_new_customer name password email state number fs w))))))) /\
  (NoDup (map ContactEmail (Suppliers (working (conn w)))) ->
   NoDup (map ContactEmail (Suppliers (working (conn (after
     (add_new_supplier name email contact_number address password fs w))))))) /\
  (NoDup (map PharmacyEmail (RetailPharmacies (working (conn w)))) ->
   NoDup (map PharmacyEmail (RetailPharmacies (working (conn (after
     (add_new_retail_pharmacist name email password address phone_number
        billing_address tax_id fs w))))))).
Proof.
  conjs; intros Hnd.
  - unfold add_new_customer, try_except, bind, execute, commit, clear, ret, insert_Customer.
    destruct (existsb (fun c => String.eqb (C_Email c) email) (Customers (working (conn w))))
      eqn:Hdup;
      repeat (signup_step; cbn; try exact Hnd;
              try (apply (NoDup_email_snoc C_Email); [exact Hnd | exact Hdup])).
  - unfold add_new_supplier, try_except, bind, execute, commit, clear, ret, insert_Supplier.
    destruct (existsb (fun s => String.eqb (ContactEmail s) email)
                      (Suppliers (working (conn w)))) eqn:Hdup;
      repeat (signup_step; cbn; try exact Hnd;
              try (apply (NoDup_email_snoc ContactEmail); [exact Hnd | exact Hdup])).
  - unfold add_new_retail_pharmacist, add_pharmacy_payment, fetch_payment_methods, cache_data,
      dict_subscript, try_except, bind, execute, commit, clear, ret, raise,
      insert_RetailPharmacy, insert_PharmacyPayment, select, update.
    destruct (existsb (fun p => String.eqb (PharmacyEmail p) email)
                      (RetailPharmacies (working (conn w)))) eqn:Hdup;
      repeat (signup_step; cbn; try exact Hnd;
              try (apply (NoDup_email_snoc PharmacyEmail); [exact Hnd | exact Hdup])).
Qed.

Lemma emails_stay_unique_witness :
  NoDup (map C_Email (Customers (working (conn (after
    (add_new_customer "Ben" "pw" "ben@example.org" "MH" "102" [] pharmacy_world)))))) /\
  NoDup (map ContactEmail (Suppliers (working (conn (after
    (add_new_supplier "Ben" "ben@example.org" "201" "5 Mill Lane" "pw"
       [None; Some database_is_locked] pharmacy_world)))))) /\
  NoDup (map PharmacyEmail (RetailPharmacies (working (conn (after
    (add_new_retail_pharmacist "Ben" "corner@example.org" "pw" "5 Mill Lane" "301"
       None None [] pharmacy_world)))))).
Proof.
  conjs.
  - apply (proj1 (emails_stay_unique "Ben" "pw" "ben@example.org" "MH" "102" "" "" ""
                    None None [] pharmacy_world)).
    cbn. repeat constructor. intros [].
  - apply (proj1 (proj2 (emails_stay_unique "Ben" "pw" "ben@example.org" "" "" "201"
                    "5 Mill Lane" "" None None [None; Some database_is_locked]
                    pharmacy_world))).
    cbn. repeat constructor. intros [].
  - apply (proj2 (proj2 (emails_stay_unique "Ben" "pw" "corner@example.org" "" "" ""
                    "5 Mill Lane" "301" None None [] pharmacy_world))).
    cbn. repeat constructor. intros [].
Defined.

(** ** Sign-up and login *)

(** X3: both sign-up forms check, in this order, that the six required
    inputs are non-empty, that the two passwords agree and that the email
    contains an at sign; a form that fails a check shows the matching error
    and touches neither the store nor the session.  The billing address and
    the tax id of a pharmacy are not required. *)
Theorem signup_forms_validate
        (name email contact_number address phone_number password confirm_password
         billing_address tax_id : string) (s : session_state) (fs : faults) (w : world) :
  (let r := signup_supplier_submitted name email contact_number address password
              confirm_password s fs w in
   let filled := forallb truthy [name; email; contact_number; address; password;
                                 confirm_password] in
   (filled = false -> r = Run (Return (st_error "All fields are required!", s)) fs w) /\
   (filled = true -> password <> confirm_password ->
    r = Run (Return (st_error "Passwords do not match.", s)) fs w) /\
   (filled = true -> password = confirm_password -> has_at_sign email = false ->
    r = Run (Return (st_error "Please enter a valid email address.", s)) fs w)) /\
  (let r := signup_retail_pharmacist_submitted name email password confirm_password
              address phone_number billing_address tax_id s fs w in
   let filled := forallb truthy [name; email; password; confirm_password; address;
                                 phone_number] in
   (filled = false -> r = Run (Return (st_error "All fields are required!", s)) fs w) /\
   (filled = true -> password <> confirm_password ->
    r = Run (Return (st_error "Passwords do not match.", s)) fs w) /\
   (filled = true -> password = confirm_password -> has_at_sign email = false ->
    r = Run (Return (st_error "Please enter a valid email address.", s)) fs w)).
Proof.
  cbv zeta. split.
  - unfold signup_supplier_submitted. conjs.
    + intros ->. reflexivity.
    + intros -> Hne. apply String.eqb_neq in Hne. rewrite Hne. reflexivity.
    + intros -> -> ->. rewrite String.eqb_refl. reflexivity.
  - unfold signup_retail_pharmacist_submitted. conjs.
    + intros ->. reflexivity.
    + intros -> Hne. apply String.eqb_neq in Hne. rewrite Hne. reflexivity.
    + intros -> -> ->. rewrite String.eqb_refl. reflexivity.
Qed.

Lemma signup_forms_validate_witness :
  signup_supplier_submitted "NewMed" "newmed.example" "202" "6 Quay" "pw" "pw"
    no_session [] pharmacy_world =
    Run (Return (st_error "Please enter a valid email address.", no_session))
        [] pharmacy_world /\
  signup_retail_pharmacist_submitted "Mill Pharmacy" "mill@example.org" "pw" "pw2"
    "7 Mill Lane" "302" "" "" no_session [] pharmacy_world =
    Run (Return (st_error "Passwords do not match.", no_session)) [] pharmacy_world /\
  signup_retail_pharmacist_submitted "Mill Pharmacy" "mill@example.org" "pw" "pw"
    "7 Mill Lane" "" "" "" no_session [] pharmacy_world =
    Run (Return (st_error "All fields are required!", no_session)) [] pharmacy_world.
Proof.
  conjs.
  - apply (proj1 (signup_forms_validate "NewMed" "newmed.example" "202" "6 Quay" ""
                    "pw" "pw" "" "" no_session [] pharmacy_world)); reflexivity.
  - apply (proj2 (signup_forms_validate "Mill Pharmacy" "mill@example.org" "" "7 Mill Lane"
                    "302" "pw" "pw2" "" "" no_session [] pharmacy_world));
      [reflexivity | discriminate].
  - apply (proj2 (signup_forms_validate "Mill Pharmacy" "mill@example.org" "" "7 Mill Lane"
                    "" "pw" "pw" "" "" no_session [] pharmacy_world)); reflexivity.
Defined.

(** X4: a supplier who signs up with valid inputs and an email no supplier
    has is logged in under a new supplier id, and can afterwards log in with
    the same email and password, which yields that id; the same email with
    any other password is refused and leaves the session as it was. *)
Theorem signup_then_login_supplier
        (supplier_name contact_email contact_number address supplier_password other : string)
        (s : session_state) (w : world) :
  forallb truthy [supplier_name; contact_email; contact_number; address;
                  supplier_password] = true ->
  has_at_sign contact_email = true ->
  (forall x, In x (Suppliers (working (conn w))) -> ContactEmail x <> contact_email) ->
  other <> supplier_password ->
  let r := signup_supplier_submitted supplier_name contact_email contact_number address
             supplier_password supplier_password s [] w in
  let id := next_rowid (map SupplierID (Suppliers (working (conn w)))) in
  let s' := {| retail_pharmacist_logged_in := retail_pharmacist_logged_in s;
               session_pharmacy_id := session_pharmacy_id s;
               supplier_logged_in := Some true;
               session_supplier_id := Some id |} in
  out r = Return (st_success "Account created successfully! You are now logged in.", s') /\
  (forall x, In x (Suppliers (working (conn w))) -> SupplierID x <> id) /\
  (forall s0,
     out (login_supplier contact_email supplier_password s0 [] (after r)) =
       Return (st_success "Welcome, Supplier!",
               {| retail_pharmacist_logged_in := retail_pharmacist_logged_in s0;
                  session_pharmacy_id := session_pharmacy_id s0;
                  supplier_logged_in := Some true;
                  session_supplier_id := Some id |}) /\
     out (login_supplier contact_email other s0 [] (after r)) =
       Return (st_error "Invalid credentials", s0)).
Proof.
  intros Hfilled Hat Hfresh Hother. cbv zeta.
  unfold signup_supplier_submitted.
  assert (Hall : forallb truthy [supplier_name; contact_email; contact_number; address;
                                 supplier_password; supplier_password] = true).
  { cbn [forallb] in *.
    repeat (apply andb_true_iff in Hfilled; destruct Hfilled as [? Hfilled]).
    repeat (apply andb_true_iff; split); auto. }
  rewrite Hall, String.eqb_refl, Hat. cbn [negb].
  pose proof (existsb_email_fresh ContactEmail _ _ Hfresh) as Hno.
  unfold add_new_supplier, try_except, bind, execute, insert_Supplier.
  cbn [next_fault]. rewrite Hno. cbn.
  conjs; [reflexivity | |].
  - intros x Hx. unfold next_rowid.
    assert (Hle : forall ids y, In y ids -> y <= fold_right Z.max 0 ids).
    { induction ids as [| z ids IH]; cbn [fold_right In]; [intros y [] |].
      intros y [-> | Hy]; [lia | specialize (IH y Hy); lia]. }
    pose proof (Hle _ _ (in_map SupplierID _ _ Hx)). lia.
  - intros s0. unfold login_supplier, bind, execute, select, select_supplier_by_email.
    cbn.
    erewrite (find_email_fresh ContactEmail contact_email); [| exact Hfresh | reflexivity].
    cbn. rewrite String.eqb_refl.
    assert (Hne : String.eqb supplier_password other = false).
    { apply String.eqb_neq. intros E. apply Hother. symmetry. exact E. }
    rewrite Hne. split; reflexivity.
Qed.

Lemma signup_then_login_supplier_witness :
  let r := signup_supplier_submitted "NewMed" "sales@newmed.example" "202" "6 Quay" "s3cret"
             "s3cret" no_session [] pharmacy_world in
  out (login_supplier "sales@newmed.example" "s3cret" no_session [] (after r)) =
    Return (st_success "Welcome, Supplier!",
            {| retail_pharmacist_logged_in := None; session_pharmacy_id := None;
               supplier_logged_in := Some true; session_supplier_id := Some 2 |}) /\
  out (login_supplier "sales@newmed.example" "guess" no_session [] (after r)) =
    Return (st_error "Invalid credentials", no_session).
Proof.
  cbv zeta.
  assert (Hfresh : forall x, In x (Suppliers (working (conn pharmacy_world))) ->
                             ContactEmail x <> "sales@newmed.example"%string).
  { intros x [<- | []]. discriminate. }
  assert (Hother : "guess"%string <> "s3cret"%string) by discriminate.
  exact (proj2 (proj2 (signup_then_login_supplier "NewMed" "sales@newmed.example" "202"
                         "6 Quay" "s3cret" "guess" no_session pharmacy_world
                         eq_refl eq_refl Hfresh Hother)) no_session).
Defined.

(** X5: a login never writes the store.  It succeeds only when the first
    row with the given email stores exactly the given password, and then
    sets the flag and the id of that role and leaves the other role's
    entries alone; a refused login leaves the whole session as it was, so an
    earlier login stays in force. *)
Theorem login_is_sound (email pass : string) (s : session_state) (fs : faults) (w : world) :
  (let r := login_supplier email pass s fs w in
   after r = w /\
   (forall text s', out r = Return (st_error text, s') -> s' = s) /\
   (forall text s', out r = Return (st_success text, s') ->
      exists x, In x (Suppliers (working (conn w))) /\ ContactEmail x = email /\
                SupplierPassword x = pass /\
                s' = {| retail_pharmacist_logged_in := retail_pharmacist_logged_in s;
                        session_pharmacy_id := session_pharmacy_id s;
                        supplier_logged_in := Some true;
                        session_supplier_id := Some (SupplierID x) |})) /\
  (let r := login_retail_pharmacist email pass s fs w in
   after r = w /\
   (forall text s', out r = Return (st_error text, s') -> s' = s) /\
   (forall text s', out r = Return (st_success text, s') ->
      exists p, In p (RetailPharmacies (working (conn w))) /\ PharmacyEmail p = email /\
                PharmacyPassword p = pass /\
                s' = {| retail_pharmacist_logged_in := Some true;
                        session_pharmacy_id := Some (PharmacyID p);
                        supplier_logged_in := supplier_logged_in s;
                        session_supplier_id := session_supplier_id s |})).
Proof.
  split; cbv zeta.
  - unfold login_supplier, bind, execute, select, select_supplier_by_email, option_map.
    expose_world w. cbn [conn working].
    oracle fs; cbn [next_fault];
      try (conjs; [reflexivity | intros ? ? H; discriminate H | intros ? ? H; discriminate H]);
      (destruct (find (fun x => String.eqb (ContactEmail x) email) (Suppliers wk))
         as [x |] eqn:Hfind; cbn;
       [ destruct (String.eqb (SupplierPassword x) pass) eqn:Hpw; cbn | ];
       conjs; try reflexivity;
       try (intros ? ? H; inversion H; reflexivity);
       try (intros ? ? H; discriminate H)).
    + intros text s' H. inversion H. apply find_some in Hfind. destruct Hfind as [Hin He].
      exists x. conjs; [exact Hin | apply String.eqb_eq; exact He
                        | apply String.eqb_eq; exact Hpw | reflexivity].
    + intros text s' H. inversion H. apply find_some in Hfind. destruct Hfind as [Hin He].
      exists x. conjs; [exact Hin | apply String.eqb_eq; exact He
                        | apply String.eqb_eq; exact Hpw | reflexivity].
  - unfold login_retail_pharmacist, bind, execute, select, select_pharmacist_by_email,
      option_map.
    expose_world w. cbn [conn working].
    oracle fs; cbn [next_fault];
      try (conjs; [reflexivity | intros ? ? H; discriminate H | intros ? ? H; discriminate H]);
      (destruct (find (fun x => String.eqb (PharmacyEmail x) email) (RetailPharmacies wk))
         as [x |] eqn:Hfind; cbn;
       [ destruct (String.eqb (PharmacyPassword x) pass) eqn:Hpw; cbn | ];
       conjs; try reflexivity;
       try (intros ? ? H; inversion H; reflexivity);
       try (intros ? ? H; discriminate H)).
    + intros text s' H. inversion H. apply find_some in Hfind. destruct Hfind as [Hin He].
      exists x. conjs; [exact Hin | apply String.eqb_eq; exact He
                        | apply String.eqb_eq; exact Hpw | reflexivity].
    + intros text s' H. inversion H. apply find_some in Hfind. destruct Hfind as [Hin He].
      exists x. conjs; [exact Hin | apply String.eqb_eq; exact He
                        | apply String.eqb_eq; exact Hpw | reflexivity].
Qed.

Lemma login_is_sound_witness :
  (exists x, In x (Suppliers pharmacy_tables) /\
             ContactEmail x = "sales@medsupply.example"%string /\
             SupplierPassword x = "pw"%string) /\
  after (login_retail_pharmacist "corner@example.org" "guess" no_session []
                                 pharmacy_world) = pharmacy_world.
Proof.
  split.
  - destruct (proj2 (proj2 (proj1 (login_is_sound "sales@medsupply.example" "pw"
                 no_session [] pharmacy_world))) _ _ eq_refl) as (x & Hin & He & Hp & _).
    exists x. conjs; assumption.
  - exact (proj1 (proj2 (login_is_sound "corner@example.org" "guess" no_session []
                           pharmacy_world))).
Defined.

(** ** Payment methods *)

Lemma dict_get_set (k k' : string) (v : Z) (d : list (string * Z)) :
  dict_get k (dict_set k' v d) = if String.eqb k k' then Some v else dict_get k d.
Proof.
  induction d as [| [k0 v0] d IH]; cbn.
  - rewrite (String.eqb_sym k k'). destruct (String.eqb k' k); reflexivity.
  - destruct (String.eqb k' k0) eqn:E0; cbn.
    + apply String.eqb_eq in E0. subst k0.
      destruct (String.eqb k k') eqn:E; reflexivity.
    + destruct (String.eqb k k0) eqn:E1.
      * apply String.eqb_eq in E1. subst k0.
        rewrite (String.eqb_sym k k'), E0. reflexivity.
      * exact IH.
Qed.

Lemma find_over_app {A} (f : A -> bool) (l l' : list A) :
  find f (l ++ l') = match find f l with Some a => Some a | None => find f l' end.
Proof.
  induction l as [| a l IH]; [reflexivity |]. cbn. destruct (f a); [reflexivity | exact IH].
Qed.

Lemma dict_get_fold (k : string) (rows : list (Z * string)) (d : list (string * Z)) :
  dict_get k (fold_left (fun d method => dict_set (snd method) (fst method) d) rows d) =
  match find (fun method => String.eqb (snd method) k) (rev rows) with
  | Some method => Some (fst method)
  | None => dict_get k d
  end.
Proof.
  revert d. induction rows as [| [id name] rows IH]; intros d; [reflexivity |].
  cbn [fold_left rev fst snd]. rewrite IH.
  rewrite find_over_app.
  destruct (find (fun method => String.eqb (snd method) k) (rev rows)); [reflexivity |].
  cbn. rewrite dict_get_set, (String.eqb_sym k name). destruct (String.eqb name k); reflexivity.
Qed.

(** X6: on an empty memo and with no store failure, the dict that
    [fetch_payment_methods] returns and memoises maps a name to the id of the
    last PaymentMethods row with that name, and has no entry for a name that
    no row carries. *)
Theorem fetch_payment_methods_last_row_wins (w : world) :
  memo_fetch_payment_methods (cache w) = None ->
  exists payment_methods,
    out (fetch_payment_methods [] w) = Return payment_methods /\
    memo_fetch_payment_methods (cache (after (fetch_payment_methods [] w))) =
      Some payment_methods /\
    forall name,
      dict_get name payment_methods =
      option_map PaymentMethodID
        (find (fun m => String.eqb (MethodName m) name)
              (rev (PaymentMethods (working (conn w))))).
Proof.
  intros Hmemo. unfold fetch_payment_methods, cache_data. rewrite Hmemo.
  eexists. conjs; [reflexivity | reflexivity |].
  intros name. rewrite dict_get_fold. unfold select_PaymentMethods.
  rewrite <- map_rev.
  induction (rev (PaymentMethods (working (conn w)))) as [| m ms IH]; [reflexivity |].
  cbn. destruct (String.eqb (MethodName m) name); [reflexivity | exact IH].
Qed.

Lemma fetch_payment_methods_last_row_wins_witness :
  exists payment_methods,
    out (fetch_payment_methods [] pharmacy_world) = Return payment_methods /\
    dict_get "UPI" payment_methods = Some 2 /\
    dict_get "Cheque" payment_methods = None.
Proof.
  destruct (fetch_payment_methods_last_row_wins pharmacy_world eq_refl)
    as (d & Hout & _ & Hget).
  exists d. conjs; [exact Hout | rewrite Hget; reflexivity | rewrite Hget; reflexivity].
Defined.

(** X7: with an email no pharmacy has and no store failure,
    [add_new_retail_pharmacist] commits the new pharmacy row.  When the
    payment-method dict has a COD entry it also commits a default
    "Cash on delivery" row for the new pharmacy and reports success.  When
    the dict has no COD entry it reports the failure "Error: 'COD'" although
    the pharmacy row is committed, and a second attempt with the same email
    answers that the email already exists. *)
Theorem pharmacist_signup_needs_cod
        (name email password address phone_number : string)
        (billing_address tax_id : option string) (w : world) :
  (forall p, In p (RetailPharmacies (working (conn w))) -> PharmacyEmail p <> email) ->
  let t := working (conn w) in
  let stored := fold_left (fun d method => dict_set (snd method) (fst method) d)
                          (select_PaymentMethods t) [] in
  let payment_methods :=
    match memo_fetch_payment_methods (cache w) with
    | Some d => if live (300 # 1) (stamp_fetch_payment_methods (cache w)) (now w)
                then d else stored
    | None => stored
    end in
  let id := next_rowid (map PharmacyID (RetailPharmacies t)) in
  let row := {| PharmacyID := id; PharmacyName := name; PharmacyEmail := email;
                PharmacyPassword := password; rp_Address := address;
                PhoneNumber := phone_number; BillingAddress := billing_address;
                TaxID := tax_id; rp_SupplierID := 1 |} in
  let r := add_new_retail_pharmacist name email password address phone_number
             billing_address tax_id [] w in
  RetailPharmacies (committed (conn (after r))) = RetailPharmacies t ++ [row] /\
  (forall cod, dict_get "COD" payment_methods = Some cod ->
     out r = Return (true, "Retail Pharmacist account created successfully!"%string,
                     Some id) /\
     PharmacyPayments (committed (conn (after r))) =
       PharmacyPayments t ++
       [{| pp_PharmacyID := id; pp_PaymentMethodID := cod;
           AccountDetails := "Cash on delivery"; IsDefault := true |}]) /\
  (dict_get "COD" payment_methods = None ->
     out r = Return (false, "Error: 'COD'"%string, None) /\
     PharmacyPayments (working (conn (after r))) = PharmacyPayments t /\
     out (add_new_retail_pharmacist name email password address phone_number
            billing_address tax_id [] (after r)) =
       Return (false, "Error: Email already exists."%string, None)).
Proof.
  intros Hfresh. cbv zeta.
  apply (existsb_email_fresh PharmacyEmail) in Hfresh.
  pose proof (existsb_email_last PharmacyEmail (RetailPharmacies (working (conn w)))
       {| PharmacyID := next_rowid (map PharmacyID (RetailPharmacies (working (conn w))));
          PharmacyName := name; PharmacyEmail := email;
          PharmacyPassword := password; rp_Address := address;
          PhoneNumber := phone_number; BillingAddress := billing_address;
          TaxID := tax_id; rp_SupplierID := 1 |}) as Hlast.
  cbn [PharmacyEmail] in Hlast.
  unfold add_new_retail_pharmacist, add_pharmacy_payment, fetch_payment_methods, cache_data,
    dict_subscript, try_except, bind, execute, commit, ret, raise,
    insert_RetailPharmacy, insert_PharmacyPayment, select, update.
  cbn [next_fault]. rewrite Hfresh. cbn.
  destruct (memo_fetch_payment_methods (cache w)) as [d |] eqn:Hmemo; cbn;
    [destruct (live (300 # 1) (stamp_fetch_payment_methods (cache w)) (now w)) eqn:Hlive;
     cbn |].
  - destruct (dict_get "COD" d) as [cod |] eqn:Hcod; cbn.
    + conjs; [reflexivity | | intros H; discriminate H].
      intros cod' H. inversion H. subst cod'. split; reflexivity.
    + conjs; [reflexivity | intros cod' H; discriminate H | ].
      intros _. rewrite Hlast. conjs; reflexivity.
  - destruct (dict_get "COD" _) as [cod |] eqn:Hcod; cbn.
    + conjs; [reflexivity | | intros H; discriminate H].
      intros cod' H. inversion H. subst cod'. split; reflexivity.
    + conjs; [reflexivity | intros cod' H; discriminate H | ].
      intros _. rewrite Hlast. conjs; reflexivity.
  - destruct (dict_get "COD" _) as [cod |] eqn:Hcod; cbn.
    + conjs; [reflexivity | | intros H; discriminate H].
      intros cod' H. inversion H. subst cod'. split; reflexivity.
    + conjs; [reflexivity | intros cod' H; discriminate H | ].
      intros _. rewrite Hlast. conjs; reflexivity.
Qed.

Lemma pharmacist_signup_needs_cod_witness :
  out (add_new_retail_pharmacist "Mill Pharmacy" "mill@example.org" "pw" "7 Mill Lane"
         "302" None None [] pharmacy_world) =
    Return (true, "Retail Pharmacist account created successfully!"%string, Some 8) /\
  out (add_new_retail_pharmacist "Mill Pharmacy" "mill@example.org" "pw" "7 Mill Lane"
         "302" None None [] (fresh_world empty_tables)) =
    Return (false, "Error: 'COD'"%string, None).
Proof.
  split.
  - assert (Hfresh : forall p, In p (RetailPharmacies (working (conn pharmacy_world))) ->
                               PharmacyEmail p <> "mill@example.org"%string).
    { intros p [<- | []]. discriminate. }
    apply (proj1 (proj2 (pharmacist_signup_needs_cod "Mill Pharmacy" "mill@example.org"
                           "pw" "7 Mill Lane" "302" None None pharmacy_world Hfresh)) 1).
    reflexivity.
  - assert (Hfresh : forall p, In p (RetailPharmacies (working (conn (fresh_world
                                 empty_tables)))) ->
                               PharmacyEmail p <> "mill@example.org"%string).
    { intros p []. }
    apply (proj2 (proj2 (pharmacist_signup_needs_cod "Mill Pharmacy" "mill@example.org"
                           "pw" "7 Mill Lane" "302" None None (fresh_world empty_tables)
                           Hfresh))).
    reflexivity.
Defined.

(** X8: [add_pharmacy_payment] only ever appends: under any store failure
    the rows already in PharmacyPayments, their default flags included, stay
    as they are.  With no failure the new row is committed, and the list of
    current payment methods gains one line per PaymentMethods row with the
    given method id, so none when no such method exists. *)
Theorem added_payment_method_keeps_other_defaults
        (pharmacy_id payment_method_id : Z) (account_details : string) (is_default : bool)
        (fs : faults) (w : world) :
  let t := working (conn w) in
  let row := {| pp_PharmacyID := pharmacy_id; pp_PaymentMethodID := payment_method_id;
                AccountDetails := account_details; IsDefault := is_default |} in
  (let r := add_pharmacy_payment pharmacy_id payment_method_id account_details
              is_default fs w in
   PharmacyPayments (working (conn (after r))) = PharmacyPayments t \/
   PharmacyPayments (working (conn (after r))) = PharmacyPayments t ++ [row]) /\
  (let r := add_pharmacy_payment pharmacy_id payment_method_id account_details
              is_default [] w in
   out r = Return (true, "Payment method added successfully!"%string) /\
   PharmacyPayments (committed (conn (after r))) = PharmacyPayments t ++ [row] /\
   out (current_payment_methods pharmacy_id [] (after r)) =
     Return (select_pharmacy_payments pharmacy_id t ++
             map (fun pm => (MethodName pm, account_details, is_default))
                 (filter (fun pm => payment_method_id =? PaymentMethodID pm)
                         (PaymentMethods t)))).
Proof.
  cbv zeta. split.
  - unfold add_pharmacy_payment, try_except, bind, execute, commit, ret,
      insert_PharmacyPayment, update.
    repeat (run_step; cbn; try (left; reflexivity); try (right; reflexivity)).
  - conjs; try reflexivity.
    cbn. f_equal. unfold select_pharmacy_payments. cbn.
    rewrite filter_app, flat_map_app. cbn. rewrite Z.eqb_refl. cbn.
    rewrite app_nil_r. reflexivity.
Qed.

(** X9: when the third of the four seeding inserts fails,
    [initialize_payment_methods] lets the exception escape with the first
    two rows in the open transaction and nothing committed; the next run
    finds a non-empty table and inserts nothing, so the two missing methods
    are never added. *)
Theorem interrupted_seeding_is_not_repaired (e : exc) (fs : faults) (w : world) :
  PaymentMethods (working (conn w)) = [] ->
  let r := initialize_payment_methods (None :: None :: None :: Some e :: fs) w in
  let r' := initialize_payment_methods [] (after r) in
  out r = Raise e /\
  map MethodName (PaymentMethods (working (conn (after r)))) = ["COD"; "UPI"]%string /\
  committed (conn (after r)) = committed (conn w) /\
  out r' = Return tt /\
  working (conn (after r')) = working (conn (after r)) /\
  committed (conn (after r')) = committed (conn w).
Proof.
  intros Hempty. cbv zeta.
  unfold initialize_payment_methods, bind, execute, select, count_PaymentMethods.
  cbn [next_fault]. rewrite Hempty. cbn. rewrite Hempty. cbn.
  conjs; reflexivity.
Qed.

Lemma interrupted_seeding_is_not_repaired_witness :
  let r := initialize_payment_methods [None; None; None; Some database_is_locked]
             (fresh_world empty_tables) in
  out r = Raise database_is_locked /\
  map MethodName (PaymentMethods (working (conn (after
    (initialize_payment_methods [] (after r)))))) = ["COD"; "UPI"]%string.
Proof.
  cbv zeta.
  destruct (interrupted_seeding_is_not_repaired database_is_locked []
              (fresh_world empty_tables) eq_refl) as (H1 & H2 & _ & _ & H5 & _).
  split; [exact H1 |]. rewrite H5. exact H2.
Defined.

(** ** Restock orders, tickets and their payment *)

Lemma next_rowid_above (ids : list Z) (x : Z) : In x ids -> x < next_rowid ids.
Proof.
  unfold next_rowid. induction ids as [| y ids IH]; cbn [fold_right In]; [intros [] |].
  intros [-> | Hin]; [lia | specialize (IH Hin); lia].
Qed.

Lemma filter_none {A} (f : A -> bool) (l : list A) :
  (forall a, In a l -> f a = false) -> filter f l = [].
Proof.
  induction l as [| a l IH]; intros H; [reflexivity |].
  cbn. rewrite (H a (or_introl eq_refl)). apply IH. intros b Hb. apply H. right. exact Hb.
Qed.

Lemma references_more_orders (ks : list ticket) (os os' : list restock_order) :
  (forall x, In x (map RestockID os) -> In x (map RestockID os')) ->
  forallb (fun k => existsb (fun o => RestockID o =? tk_RestockID k) os) ks = true ->
  forallb (fun k => existsb (fun o => RestockID o =? tk_RestockID k) os') ks = true.
Proof.
  intros Hsub H. apply forallb_forall. intros k Hk.
  rewrite forallb_forall in H. specialize (H k Hk).
  apply existsb_exists in H. destruct H as [o [Ho He]].
  assert (Hin : In (RestockID o) (map RestockID os')).
  { apply Hsub. apply in_map. exact Ho. }
  apply in_map_iff in Hin. destruct Hin as [o' [Hid Ho']].
  apply existsb_exists. exists o'. split; [exact Ho' | lia].
Qed.

Lemma references_new_pair (t : tables) (o : restock_order) (k : ticket) :
  tk_RestockID k = RestockID o ->
  tickets_reference_orders t = true ->
  tickets_reference_orders
    (set_Tickets (Tickets t ++ [k]) (set_RestockOrders (RestockOrders t ++ [o]) t)) = true.
Proof.
  intros Hk H. unfold tickets_reference_orders in *.
  cbn [Tickets RestockOrders set_Tickets set_RestockOrders].
  rewrite forallb_app. apply andb_true_iff. split.
  - apply (references_more_orders _ (RestockOrders t)); [| exact H].
    intros x Hx. rewrite map_app. apply in_or_app. left. exact Hx.
  - cbn. rewrite existsb_app. cbn. rewrite Hk, Z.eqb_refl.
    rewrite orb_true_r. reflexivity.
Qed.

Lemma references_new_order (t : tables) (o : restock_order) :
  tickets_reference_orders t = true ->
  tickets_reference_orders (set_RestockOrders (RestockOrders t ++ [o]) t) = true.
Proof.
  intros H. unfold tickets_reference_orders in *.
  cbn [Tickets RestockOrders set_RestockOrders].
  apply (references_more_orders _ (RestockOrders t)); [| exact H].
  intros x Hx. rewrite map_app. apply in_or_app. left. exact Hx.
Qed.

(** X10: if every ticket names a restock order of the store, in the
    connection's view and in the committed store, then the same holds after
    [create_restock_order], whatever the store does: a failure can leave a
    restock order without a ticket, never a ticket without its restock
    order. *)
Theorem tickets_always_reference_orders
        (supplier_id drug_id quantity pharmacy_id : Z) (fs : faults) (w : world) :
  tickets_reference_orders (working (conn w)) = true ->
  tickets_reference_orders (committed (conn w)) = true ->
  let r := create_restock_order supplier_id drug_id quantity pharmacy_id fs w in
  tickets_reference_orders (working (conn (after r))) = true /\
  tickets_reference_orders (committed (conn (after r))) = true.
Proof.
  intros Hw Hc. cbv zeta.
  unfold create_restock_order, try_except, bind, execute, commit, clear, ret,
    insert_RestockOrder, insert_Ticket, update.
  repeat (run_step; cbn;
          try (split; [first [ exact Hw
                             | apply references_new_order; exact Hw
                             | apply references_new_pair; [reflexivity | exact Hw] ]
                      | first [ exact Hc
                              | apply references_new_pair; [reflexivity | exact Hw] ]])).
Qed.

Lemma tickets_always_reference_orders_witness :
  let r := create_restock_order 1 1 30 7 [None; Some database_is_locked] pharmacy_world in
  tickets_reference_orders (working (conn (after r))) = true /\
  tickets_reference_orders (committed (conn (after r))) = true.
Proof.
  exact (tickets_always_reference_orders 1 1 30 7 [None; Some database_is_locked]
           pharmacy_world eq_refl eq_refl).
Defined.

(** X11: when every ticket names a restock order of the store and nothing
    fails, the restock id that [create_restock_order] allocates is used by
    no earlier restock order, and afterwards exactly one restock order,
    Pending, and exactly one ticket, Open, carry it. *)
Theorem new_restock_order_has_one_ticket
        (supplier_id drug_id quantity pharmacy_id : Z) (w : world) :
  tickets_reference_orders (working (conn w)) = true ->
  let t := working (conn w) in
  let r := create_restock_order supplier_id drug_id quantity pharmacy_id [] w in
  let restock_id := next_rowid (map RestockID (RestockOrders t)) in
  (forall o, In o (RestockOrders t) -> RestockID o <> restock_id) /\
  filter (fun o => RestockID o =? restock_id) (RestockOrders (committed (conn (after r)))) =
    [{| RestockID := restock_id; ro_SupplierID := supplier_id; DrugID := drug_id;
        Quantity := quantity; ro_Status := "Pending"; PaymentStatus := None |}] /\
  filter (fun k => tk_RestockID k =? restock_id) (Tickets (committed (conn (after r)))) =
    [{| TicketID := next_rowid (map TicketID (Tickets t)); tk_RestockID := restock_id;
        tk_SupplierID := supplier_id; tk_Status := "Open" |}].
Proof.
  intros Hinv. cbv zeta.
  assert (Hfresh : forall o, In o (RestockOrders (working (conn w))) ->
            RestockID o <> next_rowid (map RestockID (RestockOrders (working (conn w))))).
  { intros o Ho. pose proof (next_rowid_above _ _ (in_map RestockID _ _ Ho)). lia. }
  conjs; [exact Hfresh | |].
  - cbn. rewrite filter_app. cbn. rewrite Z.eqb_refl.
    rewrite filter_none; [reflexivity |].
    intros o Ho. apply Z.eqb_neq. apply Hfresh. exact Ho.
  - cbn. rewrite filter_app. cbn. rewrite Z.eqb_refl.
    rewrite filter_none; [reflexivity |].
    intros k Hk. apply Z.eqb_neq. intros E.
    unfold tickets_reference_orders in Hinv. rewrite forallb_forall in Hinv.
    specialize (Hinv k Hk). apply existsb_exists in Hinv. destruct Hinv as [o [Ho He]].
    apply (Hfresh o Ho). lia.
Qed.

Lemma new_restock_order_has_one_ticket_witness :
  let r := create_restock_order 1 1 30 7 [] pharmacy_world in
  map TicketID (filter (fun k => tk_RestockID k =? 3)
                       (Tickets (committed (conn (after r))))) = [3].
Proof.
  cbv zeta.
  destruct (new_restock_order_has_one_ticket 1 1 30 7 pharmacy_world eq_refl)
    as (_ & _ & H).
  cbv zeta in H.
  change (next_rowid (map RestockID (RestockOrders (working (conn pharmacy_world)))))
    with 3 in H.
  rewrite H. reflexivity.
Defined.

(** X12: [create_restock_payment] commits twice.  A failure of the payment
    insert, of the restock-order update or of the first commit is reported
    with nothing committed.  A failure of the notification insert or of the
    second commit is reported in the same words, but the Payments row is
    already committed and no notification is. *)
Theorem restock_payment_failure_after_commit
        (str_amount : number -> string) (pharmacy_id supplier_id : Z) (amount : number)
        (payment_method_id restock_id : Z) (status : string) (notes : option string)
        (e : exc) (fs : faults) (w : world) :
  let pay := create_restock_payment str_amount pharmacy_id supplier_id amount
               payment_method_id restock_id status notes in
  let t := working (conn w) in
  let row := {| PaymentID := next_rowid (map PaymentID (Payments t));
                pay_PharmacyID := pharmacy_id; pay_SupplierID := supplier_id;
                Amount := amount; pay_PaymentMethodID := payment_method_id;
                pay_Status := status; Notes := notes;
                TransactionReference := "Restock-" +++ str restock_id |} in
  (forall k, (k <= 2)%nat ->
     out (pay (repeat None k ++ Some e :: fs) w) =
       Return (false, "Error creating payment: " +++ exc_str e, None) /\
     committed (conn (after (pay (repeat None k ++ Some e :: fs) w))) = committed (conn w)) /\
  (forall k, (3 <= k <= 4)%nat ->
     let r := pay (repeat None k ++ Some e :: fs) w in
     out r = Return (false, "Error creating payment: " +++ exc_str e, None) /\
     Payments (committed (conn (after r))) = Payments t ++ [row] /\
     SupplierNotifications (committed (conn (after r))) = SupplierNotifications t).
Proof.
  cbv zeta. split; intros k Hk.
  - assert (Hc : k = 0%nat \/ k = 1%nat \/ k = 2%nat) by lia.
    destruct Hc as [-> | [-> | ->]]; split; reflexivity.
  - assert (Hc : k = 3%nat \/ k = 4%nat) by lia.
    destruct Hc as [-> | ->]; conjs; reflexivity.
Qed.

Lemma restock_payment_failure_after_commit_witness :
  let r := create_restock_payment show_fraction 7 1 (PyFloat 60) 2 2 "Pending" None
             [None; None; None; Some database_is_locked] pharmacy_world in
  out r = Return (false, "Error creating payment: database is locked"%string, None) /\
  map Amount (Payments (committed (conn (after r)))) = [PyFloat 60] /\
  committed (conn (after (create_restock_payment show_fraction 7 1 (PyFloat 60) 2 2 "Pending"
                            None [None; Some database_is_locked] pharmacy_world))) =
    pharmacy_tables.
Proof.
  cbv zeta.
  destruct (restock_payment_failure_after_commit show_fraction 7 1 (PyFloat 60) 2 2 "Pending"
              None database_is_locked [] pharmacy_world) as [Hearly Hlate].
  destruct (Hlate 3%nat (conj (le_n 3) (le_S 3 3 (le_n 3)))) as (H1 & H2 & _).
  conjs.
  - exact H1.
  - cbn [repeat app] in H2. rewrite H2. reflexivity.
  - exact (proj2 (Hearly 1%nat (le_S 1 1 (le_n 1)))).
Defined.





(** ** Delivery *)


(** X15: a confirmation that fails at any of its three updates or at its
    commit reports "Error updating stock: ..." and commits nothing and
    clears no memo; the updates made before the failure stay in the open
    transaction: when the commit fails the connection already sees the
    drug at 200. *)
Theorem failed_confirmation_commits_nothing (drug_id : Z) (k : nat) (e : exc) (fs : faults)
        (w : world) :
  (k <= 3)%nat ->
  let r := update_drug_stock drug_id (repeat None k ++ Some e :: fs) w in
  out r = Return (false, "Error updating stock: " +++ exc_str e) /\
  committed (conn (after r)) = committed (conn w) /\
  cache (after r) = cache w /\
  (k = 3%nat -> Drugs (working (conn (after r))) =
     map (fun d => if D_id d =? drug_id then with_stock 200 d else d)
         (Drugs (working (conn w)))).
Proof.
  intros Hk. cbv zeta.
  assert (Hc : k = 0%nat \/ k = 1%nat \/ k = 2%nat \/ k = 3%nat) by lia.
  destruct Hc as [-> | [-> | [-> | ->]]]; conjs; try reflexivity; intros H; discriminate H.
Qed.

Lemma failed_confirmation_commits_nothing_witness :
  let r := update_drug_stock 2 [None; None; None; Some database_is_locked] pharmacy_world in
  out r = Return (false, "Error updating stock: database is locked"%string) /\
  committed (conn (after r)) = pharmacy_tables /\
  map stock_no (Drugs (working (conn (after r)))) = [150; 200; 101].
Proof.
  cbv zeta.
  destruct (failed_confirmation_commits_nothing 2 3 database_is_locked [] pharmacy_world
              (le_n 3)) as (H1 & H2 & _ & H4).
  conjs; [exact H1 | exact H2 |].
  cbn [repeat app] in H4. rewrite (H4 eq_refl). reflexivity.
Defined.

(** X16: confirming the delivery of a drug a second time changes nothing:
    the world after two confirmations is the world after one. *)
Theorem confirming_twice_is_confirming_once (drug_id : Z) (w : world) :
  let r := update_drug_stock drug_id [] w in
  after (update_drug_stock drug_id [] (after r)) = after r.
Proof.
  cbv zeta. cbn.
  assert (HD : forall ds, map (fun d => if D_id d =? drug_id then with_stock 200 d else d)
                     (map (fun d => if D_id d =? drug_id then with_stock 200 d else d) ds) =
                   map (fun d => if D_id d =? drug_id then with_stock 200 d else d) ds).
  { intros ds. rewrite map_map. apply map_ext. intros d.
    destruct (D_id d =? drug_id) eqn:E; cbn; rewrite E; reflexivity. }
  assert (HR : forall os, map (fun o => if DrugID o =? drug_id then delivered o else o)
                     (map (fun o => if DrugID o =? drug_id then delivered o else o) os) =
                   map (fun o => if DrugID o =? drug_id then delivered o else o) os).
  { intros os. rewrite map_map. apply map_ext. intros o.
    destruct (DrugID o =? drug_id) eqn:E; cbn; rewrite E; reflexivity. }
  rewrite HD, HR.
  unfold restock_ids_of_drug. cbn [RestockOrders].
  rewrite !restock_ids_after_delivery.
  assert (HT : forall ids ks,
             map (fun k => if existsb (Z.eqb (tk_RestockID k)) ids then closed k else k)
               (map (fun k => if existsb (Z.eqb (tk_RestockID k)) ids then closed k else k) ks) =
             map (fun k => if existsb (Z.eqb (tk_RestockID k)) ids then closed k else k) ks).
  { intros ids ks. rewrite map_map. apply map_ext. intros k.
    destruct (existsb (Z.eqb (tk_RestockID k)) ids) eqn:E; cbn; rewrite E; reflexivity. }
  rewrite HT. reflexivity.
Qed.

(** X17: after a confirmation that reports success, the memoised reads of
    Drugs, Tickets and RestockOrders and the low-stock read return the rows
    of the store as it now is, and the low-stock rows contain no row of the
    delivered drug. *)
Theorem reads_after_delivery_are_fresh (drug_id : Z) (fs : faults) (w : world) (m : string) :
  let r := update_drug_stock drug_id fs w in
  out r = Return (true, m) ->
  let t' := working (conn (after r)) in
  out (fetch_all_drugs [] (after r)) = Return (Drugs t') /\
  out (fetch_all_tickets [] (after r)) = Return (Tickets t') /\
  out (fetch_all_restock_orders [] (after r)) = Return (RestockOrders t') /\
  out (check_low_stock [] (after r)) =
    Return (filter (fun d => stock_no d <=? 100) (Drugs t')) /\
  (forall d, In d (Drugs t') -> D_id d = drug_id ->
             forall rows, out (check_low_stock [] (after r)) = Return rows -> ~ In d rows).
Proof.
  cbv zeta. intros H. rewrite (update_drug_stock_success _ _ _ _ H).
  conjs; try (cbn; reflexivity).
  intros d Hd Hid rows Hrows. cbn in Hrows. inversion Hrows. subst rows. clear Hrows.
  intros Hin. apply filter_In in Hin. destruct Hin as [Hin Hle].
  cbn in Hin. apply in_map_iff in Hin. destruct Hin as [d0 [Hd0 _]].
  destruct (D_id d0 =? drug_id) eqn:E.
  - subst d. cbn in Hle. discriminate Hle.
  - subst d. lia.
Qed.

Lemma reads_after_delivery_are_fresh_witness :
  let r := update_drug_stock 2 [] warmed_world in
  out (check_low_stock [] warmed_world) = Return [ibuprofen] /\
  out (check_low_stock [] (after r)) = Return [] /\
  out (fetch_all_restock_orders [] (after r)) =
    Return (RestockOrders (working (conn (after r)))).
Proof.
  cbv zeta. split; [reflexivity |].
  destruct (reads_after_delivery_are_fresh 2 [] warmed_world _ eq_refl)
    as (_ & _ & H3 & H4 & _).
  cbv zeta in H3, H4. split; [rewrite H4; reflexivity | exact H3].
Defined.



(** X19: sending the items for a ticket whose restock order is not in the
    store raises [TypeError] out of the section, which has no handler, and
    changes nothing. *)
Theorem missing_restock_order_raises (restock_id : Z) (fs : faults) (w : world) :
  fst (next_fault fs) = None ->
  find (fun r => RestockID r =? restock_id) (RestockOrders (working (conn w))) = None ->
  let r := send_restocking_items restock_id fs w in
  out r = Raise {| exc_type := TypeError;
                   exc_str := "'NoneType' object is not subscriptable" |} /\
  after r = w.
Proof.
  intros Hf Hfind. cbv zeta. expose_world w. cbn [conn working] in *.
  unfold send_restocking_items, bind, execute, select, select_drug_of_restock, subscript0.
  oracle fs; try discriminate Hf; cbn [next_fault]; cbn [conn working]; rewrite Hfind;
    split; reflexivity.
Qed.

Lemma missing_restock_order_raises_witness :
  out (send_restocking_items 9 [] pharmacy_world) =
    Raise {| exc_type := TypeError;
             exc_str := "'NoneType' object is not subscriptable" |} /\
  after (send_restocking_items 9 [] pharmacy_world) = pharmacy_world.
Proof.
  exact (missing_restock_order_raises 9 [] pharmacy_world eq_refl eq_refl).
Defined.

Lemma joined_orders_unchanged (d : drug) (drug_id supplier_id : Z) (os : list restock_order) :
  (D_id d =? drug_id) = false ->
  filter (fun r => (D_id d =? DrugID r) && (ro_SupplierID r =? supplier_id)
                   && (stock_no d <=? 100))
         (map (fun r => if DrugID r =? drug_id then delivered r else r) os) =
  filter (fun r => (D_id d =? DrugID r) && (ro_SupplierID r =? supplier_id)
                   && (stock_no d <=? 100)) os.
Proof.
  intros E. induction os as [| o os IH]; [reflexivity |].
  cbn [map filter].
  destruct (DrugID o =? drug_id) eqn:Eo.
  - cbn [DrugID delivered ro_SupplierID].
    replace (D_id d =? DrugID o) with false
      by (symmetry; apply Z.eqb_neq; apply Z.eqb_neq in E; apply Z.eqb_eq in Eo; lia).
    cbn. exact IH.
  - rewrite IH. reflexivity.
Qed.

(** X20: after a delivery confirmation for a drug, the list of pharmacies
    needing restocking of every supplier is the list it was with the rows
    of that drug removed: the delivered drug is gone from it and the lines
    of the other drugs, their statuses included, are as before. *)
Theorem delivered_drug_leaves_restocking_list (drug_id supplier_id : Z) (w : world) :
  let t := working (conn w) in
  let r := update_drug_stock drug_id [] w in
  out (pharmacies_needing_restocking supplier_id [] (after r)) =
    Return (select_needing_restocking supplier_id
              (set_Drugs (filter (fun d => negb (D_id d =? drug_id)) (Drugs t)) t)).
Proof.
  cbv zeta. cbn. f_equal. unfold select_needing_restocking. cbn.
  set (os := RestockOrders (working (conn w))).
  induction (Drugs (working (conn w))) as [| d ds IH]; [reflexivity |].
  cbn [map flat_map filter].
  destruct (D_id d =? drug_id) eqn:E; cbn [negb].
  - rewrite IH. cbn [stock_no with_stock].
    rewrite filter_none; [reflexivity |].
    intros o _. cbn. rewrite andb_false_r. reflexivity.
  - cbn [flat_map]. rewrite IH. rewrite (joined_orders_unchanged _ _ _ _ E). reflexivity.
Qed.

(** ** Stock *)

Lemma same_id_same_row (rows : list drug) (a b : drug) :
  NoDup (map D_id rows) -> In a rows -> In b rows -> D_id a = D_id b -> a = b.
Proof.
  induction rows as [| r rows IH]; [intros _ [] |].
  cbn [map]. intros Hnd Ha Hb Hid. inversion Hnd as [| ? ? Hnot Hnd']. subst.
  destruct Ha as [-> | Ha], Hb as [-> | Hb].
  - reflexivity.
  - exfalso. apply Hnot. rewrite Hid. apply in_map. exact Hb.
  - exfalso. apply Hnot. rewrite <- Hid. apply in_map. exact Ha.
  - apply IH; assumption.
Qed.

(** X21: when the drug ids are pairwise distinct and no stock is negative,
    [update_stock_after_order] leaves no stock negative, for every quantity
    and whatever the store does, and it never adds, removes or renumbers a
    drug. *)
Theorem stock_step_keeps_stock_non_negative
        (drug_name : string) (quantity : Z) (fs : faults) (w : world) :
  NoDup (map D_id (Drugs (working (conn w)))) ->
  (forall d, In d (Drugs (working (conn w))) -> 0 <= stock_no d) ->
  let r := update_stock_after_order drug_name quantity fs w in
  (forall d, In d (Drugs (working (conn (after r)))) -> 0 <= stock_no d) /\
  map D_id (Drugs (working (conn (after r)))) = map D_id (Drugs (working (conn w))).
Proof.
  intros Hnd Hpos. cbv zeta.
  assert (Hdec : forall d0, find (fun d => String.eqb (D_Name d) drug_name)
                                 (Drugs (working (conn w))) = Some d0 ->
                 (stock_no d0 <? quantity) = false ->
                 forall d, In d (map (fun d => if D_id d =? D_id d0
                                               then with_stock (stock_no d - quantity) d
                                               else d) (Drugs (working (conn w)))) ->
                           0 <= stock_no d).
  { intros d0 Hfind Hlt d Hin. apply in_map_iff in Hin. destruct Hin as [d1 [Hd1 Hin]].
    apply find_some in Hfind. destruct Hfind as [Hin0 _].
    destruct (D_id d1 =? D_id d0) eqn:E.
    - apply Z.eqb_eq in E.
      assert (d1 = d0) by (apply (same_id_same_row _ _ _ Hnd); assumption).
      subst d1 d. cbn. apply Z.ltb_ge in Hlt. lia.
    - subst d. apply Hpos. exact Hin. }
  assert (Hids : forall d0, map D_id (map (fun d => if D_id d =? D_id d0
                                               then with_stock (stock_no d - quantity) d
                                               else d) (Drugs (working (conn w)))) =
                            map D_id (Drugs (working (conn w)))).
  { intros d0. rewrite map_map. apply map_ext. intros d.
    destruct (D_id d =? D_id d0); reflexivity. }
  unfold update_stock_after_order, try_except, bind, execute, commit, clear, ret, select,
    update_Drugs_stock_minus, update, select_drug_by_name, option_map.
  destruct (find (fun d => String.eqb (D_Name d) drug_name) (Drugs (working (conn w))))
    as [d0 |] eqn:Hfind.
  - destruct (stock_no d0 <? quantity) eqn:Hlt.
    + repeat (run_step; cbn; rewrite ?Hlt; cbn; try (split; [exact Hpos | reflexivity])).
    + repeat (run_step; cbn; rewrite ?Hlt; cbn;
              try (split; [exact Hpos | reflexivity]);
              try (split; [exact (Hdec d0 eq_refl Hlt) | exact (Hids d0)])).
  - repeat (run_step; cbn; try (split; [exact Hpos | reflexivity])).
Qed.

Lemma stock_step_keeps_stock_non_negative_witness :
  let r := update_stock_after_order "Ibuprofen" 100 [] pharmacy_world in
  map stock_no (Drugs (working (conn (after r)))) = [150; 0; 101] /\
  (forall d, In d (Drugs (working (conn (after r)))) -> 0 <= stock_no d).
Proof.
  cbv zeta. split; [reflexivity |].
  apply (stock_step_keeps_stock_non_negative "Ibuprofen" 100 [] pharmacy_world).
  - cbn. repeat constructor; cbn; intuition discriminate.
  - intros d [<- | [<- | [<- | []]]]; cbn; lia.
Defined.

(** X22: two stock steps for the same drug, of quantities q1 and then q2
    that the stock covers together, leave exactly the world that one stock
    step of q1 + q2 leaves. *)
Theorem stock_steps_add_up (drug_name : string) (q1 q2 : Z) (d : drug) (w : world) :
  find (fun d => String.eqb (D_Name d) drug_name) (Drugs (working (conn w))) = Some d ->
  q1 <= stock_no d -> q1 + q2 <= stock_no d ->
  let r1 := update_stock_after_order drug_name q1 [] w in
  let r2 := update_stock_after_order drug_name q2 [] (after r1) in
  let r := update_stock_after_order drug_name (q1 + q2) [] w in
  out r2 = Return (true, "Stock updated successfully."%string) /\
  after r2 = after r.
Proof.
  intros Hfind H1 H2. cbv zeta.
  assert (L1 : (stock_no d <? q1) = false) by (apply Z.ltb_ge; lia).
  assert (L2 : (stock_no d - q1 <? q2) = false) by (apply Z.ltb_ge; lia).
  assert (L3 : (stock_no d <? q1 + q2) = false) by (apply Z.ltb_ge; lia).
  unfold update_stock_after_order, try_except, bind, execute, commit, clear, ret, select,
    update_Drugs_stock_minus, update, select_drug_by_name.
  cbn [next_fault]. rewrite Hfind. cbn. rewrite L1, L3. cbn.
  rewrite find_by_name_after_stock_update, Hfind. cbn. rewrite Z.eqb_refl. cbn.
  rewrite L2. cbn. split; [reflexivity |].
  assert (Hmap : map (fun d0 => if D_id d0 =? D_id d
                                then with_stock (stock_no d0 - q2) d0 else d0)
                   (map (fun d0 => if D_id d0 =? D_id d
                                   then with_stock (stock_no d0 - q1) d0 else d0)
                        (Drugs (working (conn w)))) =
                 map (fun d0 => if D_id d0 =? D_id d
                                then with_stock (stock_no d0 - (q1 + q2)) d0 else d0)
                     (Drugs (working (conn w)))).
  { rewrite map_map. apply map_ext. intros d0.
    destruct (D_id d0 =? D_id d) eqn:E; cbn; rewrite E; [| reflexivity].
    unfold with_stock. cbn. f_equal. lia. }
  rewrite Hmap. reflexivity.
Qed.

Lemma stock_steps_add_up_witness :
  after (update_stock_after_order "Aspirin" 20 []
           (after (update_stock_after_order "Aspirin" 30 [] pharmacy_world))) =
  after (update_stock_after_order "Aspirin" 50 [] pharmacy_world).
Proof.
  apply (stock_steps_add_up "Aspirin" 30 20 aspirin pharmacy_world eq_refl);
    cbn; lia.
Defined.

(** ** Notifications *)

Lemma ltb_irreflexive (s : string) : String.ltb s s = false.
Proof.
  unfold String.ltb. pose proof (String.compare_antisym s s) as H.
  destruct (String.compare s s); try reflexivity. discriminate H.
Qed.

Lemma ltb_asymmetric (s1 s2 : string) : String.ltb s1 s2 = true -> String.ltb s2 s1 = false.
Proof.
  unfold String.ltb. rewrite (String.compare_antisym s1 s2).
  destruct (String.compare s2 s1); cbn; intros H; try discriminate H; reflexivity.
Qed.

(** The sorting step adds the row and keeps the others. *)
Lemma insert_by_CreatedAt_permutation (n : supplier_notification)
      (sorted : list supplier_notification) :
  Permutation (n :: sorted) (insert_by_CreatedAt n sorted).
Proof.
  induction sorted as [| m sorted IH]; cbn [insert_by_CreatedAt]; [apply Permutation_refl |].
  destruct (String.ltb (CreatedAt n) (CreatedAt m)); [| apply Permutation_refl].
  apply (Permutation_trans (perm_swap m n sorted)). apply perm_skip. exact IH.
Qed.

(** The sorting step keeps the list sorted: no row is followed by a row of
    a later CreatedAt. *)
Lemma insert_by_CreatedAt_sorted (n : supplier_notification)
      (sorted : list supplier_notification) :
  Sorted (fun a b => String.ltb (CreatedAt a) (CreatedAt b) = false) sorted ->
  Sorted (fun a b => String.ltb (CreatedAt a) (CreatedAt b) = false)
         (insert_by_CreatedAt n sorted).
Proof.
  induction sorted as [| m sorted IH]; intros Hs; cbn [insert_by_CreatedAt].
  - repeat constructor.
  - destruct (String.ltb (CreatedAt n) (CreatedAt m)) eqn:Hlt.
    + inversion Hs as [| ? ? Hs' Hhd]; subst. constructor; [apply IH; exact Hs' |].
      destruct sorted as [| m' sorted']; cbn [insert_by_CreatedAt].
      * constructor. apply ltb_asymmetric. exact Hlt.
      * destruct (String.ltb (CreatedAt n) (CreatedAt m')).
        -- constructor. inversion Hhd; assumption.
        -- constructor. apply ltb_asymmetric. exact Hlt.
    + constructor; [exact Hs |]. constructor. exact Hlt.
Qed.

(** The sorting step is stable: among the rows of one CreatedAt the new row
    comes first and the others keep their order. *)
Lemma insert_by_CreatedAt_stable (created_at : string) (n : supplier_notification)
      (sorted : list supplier_notification) :
  filter (fun a => String.eqb (CreatedAt a) created_at) (insert_by_CreatedAt n sorted) =
  filter (fun a => String.eqb (CreatedAt a) created_at) (n :: sorted).
Proof.
  induction sorted as [| m sorted IH]; cbn [insert_by_CreatedAt]; [reflexivity |].
  destruct (String.ltb (CreatedAt n) (CreatedAt m)) eqn:Hlt; [| reflexivity].
  cbn [filter] in *. rewrite IH.
  destruct (String.eqb (CreatedAt n) created_at) eqn:Hn; [| reflexivity].
  destruct (String.eqb (CreatedAt m) created_at) eqn:Hm; [| reflexivity].
  apply String.eqb_eq in Hn, Hm. rewrite Hn, Hm, ltb_irreflexive in Hlt. discriminate Hlt.
Qed.

(** The rows the query returns: those of the supplier, no row followed by
    one of a later CreatedAt, rows of the same CreatedAt in table order. *)
Lemma select_notifications_rows (supplier_id : Z) (t : tables) :
  let mine := filter (fun n => sn_SupplierID n =? supplier_id) (SupplierNotifications t) in
  Permutation mine (select_notifications supplier_id t) /\
  Sorted (fun a b => String.ltb (CreatedAt a) (CreatedAt b) = false)
         (select_notifications supplier_id t) /\
  (forall created_at,
     filter (fun a => String.eqb (CreatedAt a) created_at)
            (select_notifications supplier_id t) =
     filter (fun a => String.eqb (CreatedAt a) created_at) mine).
Proof.
  cbv zeta. unfold select_notifications.
  induction (filter (fun n => sn_SupplierID n =? supplier_id) (SupplierNotifications t))
    as [| n mine IH]; cbn [fold_right].
  - conjs; [apply Permutation_refl | constructor | reflexivity].
  - destruct IH as (Hperm & Hsorted & Hstable). conjs.
    + apply (Permutation_trans (perm_skip n Hperm)). apply insert_by_CreatedAt_permutation.
    + apply insert_by_CreatedAt_sorted. exact Hsorted.
    + intros created_at. rewrite insert_by_CreatedAt_stable. cbn [filter].
      rewrite Hstable. reflexivity.
Qed.

(** X23: on a view of the notification section that finds no memo entry
    for the supplier, and with no store failure, the supplier is shown
    exactly their own notifications, no row followed by a row of a later
    CreatedAt and rows of the same CreatedAt in table order.  When there are any, the view sets IsRead on
    all of them, leaves every other column and the rows of other suppliers
    as they are and commits; when there are none it writes nothing. *)
Theorem viewing_marks_own_notifications_read (supplier_id : Z) (w : world) :
  memo_lookup supplier_id (memo_fetch_supplier_notifications (cache w)) = None ->
  let t := working (conn w) in
  let mine := filter (fun n => sn_SupplierID n =? supplier_id) (SupplierNotifications t) in
  let r := view_notifications supplier_id [] w in
  let t' := working (conn (after r)) in
  exists shown,
    out r = Return shown /\
    Permutation mine shown /\
    Sorted (fun a b => String.ltb (CreatedAt a) (CreatedAt b) = false) shown /\
    (forall created_at,
       filter (fun a => String.eqb (CreatedAt a) created_at) shown =
       filter (fun a => String.eqb (CreatedAt a) created_at) mine) /\
    (mine <> [] ->
     Forall2 (fun n n' =>
                NotificationID n' = NotificationID n /\ sn_SupplierID n' = sn_SupplierID n /\
                Title n' = Title n /\ Message n' = Message n /\
                RelatedEntityType n' = RelatedEntityType n /\
                RelatedEntityID n' = RelatedEntityID n /\ CreatedAt n' = CreatedAt n /\
                IsRead n' = if sn_SupplierID n =? supplier_id then true else IsRead n)
             (SupplierNotifications t) (SupplierNotifications t') /\
     committed (conn (after r)) = t') /\
    (mine = [] -> t' = t).
Proof.
  intros Hmemo. cbv zeta.
  destruct (select_notifications_rows supplier_id (working (conn w)))
    as (Hperm & Hsorted & Hstable).
  exists (select_notifications supplier_id (working (conn w))).
  split; [| split; [exact Hperm | split; [exact Hsorted | split; [exact Hstable |]]]].
  - unfold view_notifications, fetch_supplier_notifications, bind, execute, commit, select,
      update_notifications_read, update, ret.
    rewrite Hmemo. cbn [next_fault].
    destruct (select_notifications supplier_id (working (conn w))); reflexivity.
  - unfold view_notifications, fetch_supplier_notifications, bind, execute, commit, select,
      update_notifications_read, update, ret.
    rewrite Hmemo. cbn [next_fault].
    destruct (select_notifications supplier_id (working (conn w))) as [| n ns] eqn:Hsel.
    + apply Permutation_sym, Permutation_nil in Hperm.
      split; [intros H; contradiction (H Hperm) | reflexivity].
    + split.
      * intros _. cbn. split; [| reflexivity].
        apply Forall2_map_self. intros a.
        destruct (sn_SupplierID a =? supplier_id); cbn [andb]; [| conjs; reflexivity].
        destruct (IsRead a) eqn:Hread; cbn [negb]; conjs; try reflexivity.
        exact Hread.
      * intros Hmine. rewrite Hmine in Hperm. apply Permutation_nil in Hperm.
        discriminate Hperm.
Qed.

Lemma viewing_marks_own_notifications_read_witness :
  let r := view_notifications 1 [] notified_world in
  memo_lookup 1 (memo_fetch_supplier_notifications (cache notified_world)) = None /\
  exists shown,
    out r = Return shown /\
    Sorted (fun a b => String.ltb (CreatedAt a) (CreatedAt b) = false) shown /\
    Forall2 (fun n n' =>
               NotificationID n' = NotificationID n /\ sn_SupplierID n' = sn_SupplierID n /\
               Title n' = Title n /\ Message n' = Message n /\
               RelatedEntityType n' = RelatedEntityType n /\
               RelatedEntityID n' = RelatedEntityID n /\ CreatedAt n' = CreatedAt n /\
               IsRead n' = if sn_SupplierID n =? 1 then true else IsRead n)
            (SupplierNotifications (working (conn notified_world)))
            (SupplierNotifications (working (conn (after r)))).
Proof.
  cbv zeta. split; [reflexivity |].
  destruct (viewing_marks_own_notifications_read 1 notified_world eq_refl)
    as (shown & Hout & _ & Hsorted & _ & Hread & _).
  exists shown. split; [exact Hout | split; [exact Hsorted |]].
  apply Hread. intros H. discriminate H.
Defined.

(** The rows shown at the sample store: the two rows of the later second in
    table order, then the earlier row; after the view all three are read and
    the row of the other supplier is not. *)
Lemma same_second_notifications_in_table_order :
  let r := view_notifications 1 [] notified_world in
  option_map (map NotificationID)
    (match out r with Return shown => Some shown | Raise _ => None end) = Some [2; 4; 1] /\
  map IsRead (SupplierNotifications (working (conn notified_world))) =
    [true; false; false; false] /\
  map IsRead (SupplierNotifications (committed (conn (after r)))) =
    [true; true; false; true].
Proof. cbv zeta. conjs; vm_compute; reflexivity. Qed.

(** An entry is served for [ttl] seconds from the moment it was stored. *)
Lemma live_within_ttl (ttl stored seconds : Q) :
  live ttl stored (Qplus stored seconds) = true <-> Qlt seconds ttl.
Proof.
  unfold live. rewrite negb_true_iff. split.
  - intros H. apply Qnot_le_lt. intros Hle.
    assert (Qle_bool (Qplus stored ttl) (Qplus stored seconds) = true) as Ht
      by (apply Qle_bool_iff, Qplus_le_r; exact Hle).
    rewrite Ht in H. discriminate H.
  - intros Hlt. destruct (Qle_bool (Qplus stored ttl) (Qplus stored seconds)) eqn:E;
      [| reflexivity].
    apply Qle_bool_iff, Qplus_le_r in E. exfalso. exact (Qlt_not_le _ _ Hlt E).
Qed.

(** The read-flag update leaves a table without rows of the supplier as it
    is. *)
Lemma no_rows_to_mark (supplier_id : Z) (f : supplier_notification -> supplier_notification)
      (rows : list supplier_notification) :
  filter (fun n => sn_SupplierID n =? supplier_id) rows = [] ->
  map (fun n => if (sn_SupplierID n =? supplier_id) && negb (IsRead n) then f n else n) rows
  = rows.
Proof.
  induction rows as [| n rows IH]; [reflexivity |].
  cbn [filter map]. destruct (sn_SupplierID n =? supplier_id); [intros H; discriminate H |].
  intros H. cbn [andb]. rewrite (IH H). reflexivity.
Qed.

(** X24: no function clears the memo of [fetch_supplier_notifications]; its
    entries go only by their [ttl] of 300 seconds.  A supplier who opened
    the notification section while there was nothing for them, and opens it
    again less than 300 seconds later, is shown nothing again although a
    restock payment for them has been created in between, and the new
    notification stays unread in the store.  From 300 seconds on, the
    section shows the notification and marks it read. *)
Theorem new_notification_stays_hidden
        (str_amount : number -> string) (pharmacy_id supplier_id : Z) (amount : number)
        (payment_method_id restock_id : Z) (status : string) (notes : option string)
        (seconds : Q) (later : string) (w : world) :
  memo_lookup supplier_id (memo_fetch_supplier_notifications (cache w)) = None ->
  filter (fun n => sn_SupplierID n =? supplier_id)
         (SupplierNotifications (working (conn w))) = [] ->
  let t := working (conn w) in
  let r1 := view_notifications supplier_id [] w in
  let r2 := create_restock_payment str_amount pharmacy_id supplier_id amount
              payment_method_id restock_id status notes [] (after r1) in
  let r3 := view_notifications supplier_id [] (elapse seconds later (after r2)) in
  let notification (is_read : bool) :=
    {| NotificationID := next_rowid (map NotificationID (SupplierNotifications t));
       sn_SupplierID := supplier_id; Title := "New Restock Payment";
       Message := "Payment of $" +++ str_amount amount +++
                  " initiated for Restock ID " +++ str restock_id;
       RelatedEntityType := "Payment";
       RelatedEntityID := next_rowid (map PaymentID (Payments t));
       IsRead := is_read; CreatedAt := clock w |} in
  out r1 = Return [] /\
  out r2 = Return (true, "Payment created successfully!"%string,
                   Some (next_rowid (map PaymentID (Payments t)))) /\
  SupplierNotifications (committed (conn (after r2))) =
    SupplierNotifications t ++ [notification false] /\
  (Qlt seconds (300 # 1) ->
   out r3 = Return [] /\
   SupplierNotifications (committed (conn (after r3))) =
     SupplierNotifications t ++ [notification false]) /\
  (Qle (300 # 1) seconds ->
   out r3 = Return [notification false] /\
   SupplierNotifications (committed (conn (after r3))) =
     SupplierNotifications t ++ [notification true]).
Proof.
  intros Hmemo Hmine. cbv zeta.
  assert (Hlive : forall stored, live (300 # 1) stored (Qplus stored seconds) = true <->
                                 Qlt seconds (300 # 1))
    by (intros stored; apply live_within_ttl).
  unfold view_notifications, fetch_supplier_notifications, bind, execute, select,
    select_notifications.
  rewrite Hmemo. cbn [next_fault]. rewrite Hmine. cbn.
  rewrite Z.eqb_refl. cbn.
  conjs; try reflexivity.
  - intros Hlt. rewrite (proj2 (Hlive (now w)) Hlt). split; reflexivity.
  - intros Hle.
    destruct (live (300 # 1) (now w) (Qplus (now w) seconds)) eqn:E.
    + apply (proj1 (Hlive (now w))) in E. exfalso. exact (Qlt_not_le _ _ E Hle).
    + cbn. rewrite !filter_app, !Hmine. cbn [filter app sn_SupplierID].
      rewrite !Z.eqb_refl. cbn. rewrite !map_app. cbn [map sn_SupplierID IsRead].
      rewrite !Z.eqb_refl. cbn [andb negb].
      rewrite !(no_rows_to_mark supplier_id _ _ Hmine). split; reflexivity.
Qed.

Lemma new_notification_stays_hidden_witness :
  let r1 := view_notifications 1 [] pharmacy_world in
  let r2 := create_restock_payment show_fraction 7 1 (PyFloat 60) 2 2 "Pending" None []
              (after r1) in
  let r3 := view_notifications 1 []
              (elapse (299 # 1) "2024-05-01 09:34:59" (after r2)) in
  let r3' := view_notifications 1 []
               (elapse (300 # 1) "2024-05-01 09:35:00" (after r2)) in
  (out r3 = Return [] /\
   map IsRead (SupplierNotifications (committed (conn (after r3)))) = [false]) /\
  (option_map (map Title)
     (match out r3' with Return shown => Some shown | Raise _ => None end) =
     Some ["New Restock Payment"%string] /\
   map IsRead (SupplierNotifications (committed (conn (after r3')))) = [true]).
Proof.
  cbv zeta. split.
  - destruct (new_notification_stays_hidden show_fraction 7 1 (PyFloat 60) 2 2 "Pending"
                None (299 # 1) "2024-05-01 09:34:59" pharmacy_world eq_refl eq_refl)
      as (_ & _ & _ & H & _).
    cbv zeta in H. destruct (H eq_refl) as [H3 H4].
    split; [exact H3 | rewrite H4; reflexivity].
  - destruct (new_notification_stays_hidden show_fraction 7 1 (PyFloat 60) 2 2 "Pending"
                None (300 # 1) "2024-05-01 09:35:00" pharmacy_world eq_refl eq_refl)
      as (_ & _ & _ & _ & H).
    cbv zeta in H.
    assert (Hle : Qle (300 # 1) (300 # 1)) by (apply Qle_refl).
    destruct (H Hle) as [H3 H4].
    split; [rewrite H3; reflexivity | rewrite H4; reflexivity].
Defined.
